(** * pytest-mh: the multihost object model

    A shallow embedding of [pytest_mh/_private/multihost.py]: the configuration
    tree (MultihostConfig, MultihostDomain, MultihostHost), the per-test
    wrappers (MultihostRole, MultihostUtility) and the setup/teardown cascade
    over utility attributes.

    Python values are an inductive type, Python exceptions are values of
    [exn], and code that raises or talks to the outside world runs in a small
    state-and-exception monad [M] over a [World]. *)

From Stdlib Require Import ZArith Ascii String List Bool Lia.
From stdpp Require Import base option list strings gmap sorting pretty.
From Equations Require Import Equations.

Set Warnings "-register-all".
Local Open Scope string_scope.
Local Open Scope list_scope.

(** ** Python values *)

Module Py.

(** The values a parsed YAML/JSON configuration document is made of.  A
    [dict] keeps its insertion order, so it is an association list; keys are
    strings ([dict[str, Any]]), and the first binding of a key is the one a
    lookup sees.  Floats do not occur in the code paths modelled here. *)
Inductive pyval : Type :=
| PNone
| PBool (b : bool)
| PInt (z : Z)
| PStr (s : string)
| PList (l : list pyval)
| PDict (d : list (string * pyval)).

Abbreviation pydict := (list (string * pyval)).

(** The quote character, for the messages and shell commands that contain it. *)
Definition dq : string := String (ascii_of_nat 34) EmptyString.

(** Exception classes.  [UserDefined name base] is a class declared outside
    the standard library (pytest's [Failed] derives from [BaseException]). *)
Inductive exn_class : Type :=
| BaseException
| KeyboardInterrupt
| SystemExit
| GeneratorExit
| Exception
| ValueError
| TypeError
| AttributeError
| KeyError
| NotImplementedError
| OSError
| FileExistsError
| FileNotFoundError
| NotADirectoryError
| IsADirectoryError
| LookupError
| RuntimeError
| UserDefined (name : string) (base : exn_class).

#[global] Instance exn_class_eq_dec : EqDecision exn_class.
Proof. solve_decision. Defined.

(** The class and its bases, nearest first ([c.__mro__] without [object]). *)
Fixpoint mro (c : exn_class) : list exn_class :=
  match c with
  | BaseException => [BaseException]
  | KeyboardInterrupt | SystemExit | GeneratorExit | Exception =>
      [c; BaseException]
  | ValueError | TypeError | AttributeError | OSError | LookupError
  | RuntimeError =>
      [c; Exception; BaseException]
  | KeyError => [c; LookupError; Exception; BaseException]
  | NotImplementedError => [c; RuntimeError; Exception; BaseException]
  | FileExistsError | FileNotFoundError | NotADirectoryError
  | IsADirectoryError =>
      [c; OSError; Exception; BaseException]
  | UserDefined _ base => c :: mro base
  end.

(** [issubclass(c, d)] *)
Definition issubclass (c d : exn_class) : bool :=
  existsb (fun b => bool_decide (b = d)) (mro c).

(** An exception object: its class and its [args].  [Exc c msg] is
    [c(msg)]; [ExcOfList c errors] is [c(errors)] where [errors] is a list of
    exception objects, kept as objects. *)
Inductive exn : Type :=
| Exc (cls : exn_class) (msg : string)
| ExcOfList (cls : exn_class) (errors : list exn).

Definition exn_cls (e : exn) : exn_class :=
  match e with Exc c _ | ExcOfList c _ => c end.

(** [isinstance(e, d)] *)
Definition isinstance (e : exn) (d : exn_class) : bool :=
  issubclass (exn_cls e) d.

(** Result of a Python expression that has no side effect but may raise. *)
Inductive PyRes (A : Type) : Type :=
| Ok (a : A)
| Err (e : exn).
Arguments Ok {A} a.
Arguments Err {A} e.

(** [bool(v)] *)
Definition truthy (v : pyval) : bool :=
  match v with
  | PNone => false
  | PBool b => b
  | PInt z => negb (Z.eqb z 0)
  | PStr s => negb (String.eqb s EmptyString)
  | PList l => match l with [] => false | _ => true end
  | PDict d => match d with [] => false | _ => true end
  end.

(** [type(v).__name__] *)
Definition type_name (v : pyval) : string :=
  match v with
  | PNone => "NoneType"
  | PBool _ => "bool"
  | PInt _ => "int"
  | PStr _ => "str"
  | PList _ => "list"
  | PDict _ => "dict"
  end.

(** Lookup in a dict: the first binding of the key. *)
Fixpoint dict_lookup {V : Type} (k : string) (d : list (string * V)) : option V :=
  match d with
  | [] => None
  | (k', v) :: d' => if String.eqb k k' then Some v else dict_lookup k d'
  end.

(** [k in d] for a dict [d] *)
Definition dict_has {V : Type} (k : string) (d : list (string * V)) : bool :=
  match dict_lookup k d with Some _ => true | None => false end.

(** [d.get(k, default)] for a dict [d] *)
Definition dict_get (k : string) (default : pyval) (d : pydict) : pyval :=
  match dict_lookup k d with Some v => v | None => default end.

(** [d[k]] for a dict [d] *)
Definition dict_getitem (k : string) (d : pydict) : PyRes pyval :=
  match dict_lookup k d with
  | Some v => Ok v
  | None => Err (Exc KeyError k)
  end.

(** [d[k] = v] for a dict [d]: an existing key keeps its position. *)
Fixpoint dict_set {V : Type} (k : string) (v : V) (d : list (string * V))
  : list (string * V) :=
  match d with
  | [] => [(k, v)]
  | (k', v') :: d' =>
      if String.eqb k k' then (k, v) :: d' else (k', v') :: dict_set k v d'
  end.

(** [a in b] for two strings: [a] occurs in [b]. *)
Fixpoint is_substring (a b : string) : bool :=
  String.prefix a b ||
  match b with
  | EmptyString => false
  | String _ b' => is_substring a b'
  end.

(** [s == v] for a string [s]: a string equals only an equal string. *)
Definition str_eq (s : string) (v : pyval) : bool :=
  match v with PStr t => String.eqb s t | _ => false end.

(** [v.get(key, None)] on an arbitrary value: only a dict has [get]. *)
Definition py_get (v : pyval) (key : string) : PyRes pyval :=
  match v with
  | PDict d => Ok (dict_get key PNone d)
  | _ => Err (Exc AttributeError
                (type_name v +:+ " object has no attribute get"))
  end.

(** [key in v] on an arbitrary value, for a string [key]. *)
Definition py_contains (key : string) (v : pyval) : PyRes bool :=
  match v with
  | PDict d => Ok (dict_has key d)
  | PStr s => Ok (is_substring key s)
  | PList l => Ok (existsb (str_eq key) l)
  | _ => Err (Exc TypeError
                ("argument of type " +:+ type_name v +:+ " is not iterable"))
  end.

(** [v[key]] on an arbitrary value, for a string [key]. *)
Definition py_getitem (v : pyval) (key : string) : PyRes pyval :=
  match v with
  | PDict d => dict_getitem key d
  | PStr _ => Err (Exc TypeError "string indices must be integers")
  | PList _ => Err (Exc TypeError "list indices must be integers or slices, not str")
  | _ => Err (Exc TypeError (type_name v +:+ " object is not subscriptable"))
  end.

(** [iter(v)], the elements a [for] loop visits. *)
Definition py_iter (v : pyval) : PyRes (list pyval) :=
  match v with
  | PList l => Ok l
  | PDict d => Ok (map (fun kv => PStr (fst kv)) d)
  | PStr s => Ok (map (fun c => PStr (String c EmptyString)) (list_ascii_of_string s))
  | _ => Err (Exc TypeError (type_name v +:+ " object is not iterable"))
  end.

(** [hash(v)] is defined: lists and dicts are unhashable. *)
Definition hashable (v : pyval) : bool :=
  match v with
  | PList _ | PDict _ => false
  | _ => true
  end.

(** [s.split("/", maxsplit=1)] when ["/" in s]: the text before the first
    slash and the text after it; [None] when [s] has no slash. *)
Fixpoint split_once (s : string) : option (string * string) :=
  match s with
  | EmptyString => None
  | String c s' =>
      if Ascii.eqb c "/"%char then Some (EmptyString, s')
      else match split_once s' with
           | Some (key, subpath) => Some (String c key, subpath)
           | None => None
           end
  end.

(** [s.lower()] on the ASCII letters.  Strings are byte strings (UTF-8); no
    non-ASCII character lowercases to a letter of "linux" or "windows", so the
    comparison with those words is the one Python makes. *)
Definition lower_ascii (c : ascii) : ascii :=
  let n := nat_of_ascii c in
  if (65 <=? n)%nat && (n <=? 90)%nat then ascii_of_nat (n + 32) else c.

Fixpoint lower (s : string) : string :=
  match s with
  | EmptyString => EmptyString
  | String c s' => String (lower_ascii c) (lower s')
  end.

(** The builtins whose result is left abstract: [repr] of a list or a dict
    and [base64.b64decode]. *)
Class Builtins : Type := {
  repr_container : pyval -> string;
  b64decode : string -> PyRes string
}.

(** [str(v)] *)
Definition py_str `{Builtins} (v : pyval) : string :=
  match v with
  | PNone => "None"
  | PBool true => "True"
  | PBool false => "False"
  | PInt z => pretty z
  | PStr s => s
  | PList _ | PDict _ => repr_container v
  end.

(** What a hashable value is equal to and hashes with: [None], a number
    ([True] is 1 and [False] is 0), or a text. *)
Inductive hkey : Type :=
| KNone
| KNum (z : Z)
| KStr (s : string).

#[global] Instance hkey_eq_dec : EqDecision hkey.
Proof. solve_decision. Defined.

(** The key of a value; a list or a dict has none. *)
Definition hash_key (v : pyval) : option hkey :=
  match v with
  | PNone => Some KNone
  | PBool b => Some (KNum (if b then 1 else 0)%Z)
  | PInt z => Some (KNum z)
  | PStr s => Some (KStr s)
  | PList _ | PDict _ => None
  end.

(** [set(vs)], on the elements added so far, in the order they were added:
    an element equal to one that is there is dropped, an unhashable one
    raises. *)
Fixpoint set_of (vs acc : list pyval) : PyRes (list pyval) :=
  match vs with
  | [] => Ok acc
  | v :: rest =>
      match hash_key v with
      | None => Err (Exc TypeError ("unhashable type: " +:+ type_name v))
      | Some k =>
          if existsb (fun x => bool_decide (hash_key x = Some k)) acc
          then set_of rest acc
          else set_of rest (acc ++ [v])
      end
  end.

Definition is_text (v : pyval) : bool :=
  match v with PStr _ => true | _ => false end.

Definition is_number (v : pyval) : bool :=
  match v with PInt _ | PBool _ => true | _ => false end.

(** [a <= b] on texts and on numbers. *)
Definition text_le (a b : pyval) : Prop :=
  match a, b with
  | PStr x, PStr y => String.le x y
  | _, _ => True
  end.

Definition number_le (a b : pyval) : Prop :=
  match hash_key a, hash_key b with
  | Some (KNum x), Some (KNum y) => (x <= y)%Z
  | _, _ => True
  end.

#[global] Instance text_le_dec : RelDecision text_le.
Proof. intros [] []; simpl; apply _. Defined.

#[global] Instance number_le_dec : RelDecision number_le.
Proof.
  intros a b. unfold number_le.
  destruct (hash_key a) as [[]|], (hash_key b) as [[]|]; apply _.
Defined.

(** [sorted(vs)] for the elements of a set, no two of which are equal.  No
    comparison is made on fewer than two elements; texts compare with texts
    and numbers with numbers; any other pair raises [TypeError], and sorting
    cannot avoid such a pair when there is one.  The message of that error
    names the types of the pair compared first; only its class is kept. *)
Definition sorted_set (vs : list pyval) : PyRes (list pyval) :=
  match vs with
  | [] | [_] => Ok vs
  | _ =>
      if forallb is_text vs then Ok (merge_sort text_le vs)
      else if forallb is_number vs then Ok (merge_sort number_le vs)
      else Err (Exc TypeError "< not supported between these instances")
  end.

End Py.
Export Py.

(** ** Effects: the world, external collaborators, and the monad *)

Module Eff.

(** [Type[SSHProcess]]: the two process wrappers of [pytest_mh.ssh]. *)
Inductive Shell : Type := SSHBashProcess | SSHPowerShellProcess.

(** [SSHLog], the log level handed to [SSHClient.run]. *)
Inductive SSHLog : Type := SSHLog_Error.

(** A [MultihostLogger] object, by identity. *)
Definition MultihostLogger : Type := nat.

(** What [SSHClient(host=, user=, password=, logger=, shell=)] is built from. *)
Record SSHClient : Type := {
  ssh_host : pyval;
  ssh_user : pyval;
  ssh_password : pyval;
  ssh_logger : MultihostLogger;
  ssh_shell : Shell
}.

(** What [SSHClient.run] returns, as far as this code reads it. *)
Record SSHProcessResult : Type := { stdout : string }.

(** Calls that leave the modelled code, in the order they are made. *)
Inductive Event : Type :=
| EvCreateDomain (domain : pyval)
| EvNewHost (cls : string) (confdict : pydict)
| EvNewRole (cls : string) (role : pyval) (hostname : pyval)
| EvSSHClient (c : SSHClient)
| EvCLIBuilder (c : SSHClient)
| EvSSHConnect (c : SSHClient)
| EvSSHRun (c : SSHClient) (command : string) (log_level : SSHLog)
| EvMkdir (path : string) (parents exist_ok : bool)
| EvOpenWrite (path : string)
| EvSetup (util : nat)
| EvTeardown (util : nat)
| EvGetattr (name : string).

(** The local filesystem: a path, as a list of components, is a directory or
    a file with its content. *)
Inductive node : Type := Dir | File (content : string).

(** The state-and-exception monad, over any state [S]. *)
Section Monad.
Context {S : Type}.

Definition M (A : Type) : Type := S -> PyRes A * S.

Definition ret {A} (a : A) : M A := fun s => (Ok a, s).

Definition raise {A} (e : exn) : M A := fun s => (Err e, s).

Definition bind {A B} (m : M A) (k : A -> M B) : M B :=
  fun s => match m s with
           | (Ok a, s') => k a s'
           | (Err e, s') => (Err e, s')
           end.

(** A pure expression that may raise. *)
Definition lift {A} (r : PyRes A) : M A := fun s => (r, s).

(** [try: body / except <classes accepted by guard> as e: handler(e)] *)
Definition try_except {A} (body : M A) (guard : exn -> bool)
    (handler : exn -> M A) : M A :=
  fun s => match body s with
           | (Ok a, s') => (Ok a, s')
           | (Err e, s') => if guard e then handler e s' else (Err e, s')
           end.

(** [for x in l: body(x)] *)
Fixpoint for_each {A} (body : A -> M unit) (l : list A) : M unit :=
  match l with
  | [] => ret tt
  | x :: l' => bind (body x) (fun _ => for_each body l')
  end.
End Monad.
Arguments M : clear implicits.

Section WithEnv.
Context {Env : Type}.

(** [env] is everything outside the modelled code (remote hosts, the state
    subclasses keep); [fs] is the local filesystem; [trace] records the
    calls made so far, oldest first. *)
Record World : Type := mkWorld {
  env : Env;
  fs : gmap (list string) node;
  trace : list Event
}.

(** Code outside the model: it may change [env] and return or raise. *)
Definition Ext (A : Type) : Type := Env -> PyRes A * Env.

(** Record a call. *)
Definition emit (ev : Event) : M World unit :=
  fun w => (Ok tt, mkWorld (env w) (fs w) (trace w ++ [ev])).

(** Run code outside the model on the current environment. *)
Definition run_ext {A} (f : Ext A) : M World A :=
  fun w => let (r, e') := f (env w) in (r, mkWorld e' (fs w) (trace w)).

(** A call to code outside the model, recorded before it runs. *)
Definition call {A} (ev : Event) (f : Ext A) : M World A :=
  bind (emit ev) (fun _ => run_ext f).

(** An external body that does nothing ([pass]). *)
Definition pass : Ext unit := fun e => (Ok tt, e).

(** Code over the world, run while an object [O] is under construction. *)
Definition with_self {O A} (m : M World A) : M (O * World) A :=
  fun s => let (r, w') := m (snd s) in (r, (fst s, w')).

(** Assignment to the attributes of the object under construction. *)
Definition update_self {O} (f : O -> O) : M (O * World) unit :=
  fun s => (Ok tt, (f (fst s), snd s)).

Definition get_self {O} : M (O * World) O :=
  fun s => (Ok (fst s), s).
End WithEnv.

Arguments World : clear implicits.
Arguments Ext : clear implicits.

End Eff.
Export Eff.

Declare Scope py_scope.
Delimit Scope py_scope with py.
Notation "x <- m ;; k" := (bind m (fun x => k))
  (at level 100, m at next level, right associativity) : py_scope.
Notation "m ;; k" := (bind m (fun _ => k))
  (at level 100, right associativity) : py_scope.
Local Open Scope py_scope.

(** ** The local filesystem, as [pathlib] and [open] use it *)

Module LocalFS.

(** The text between slashes. *)
Fixpoint split_slash (s : string) : list string :=
  match s with
  | EmptyString => [EmptyString]
  | String c s' =>
      if Ascii.eqb c "/"%char then EmptyString :: split_slash s'
      else match split_slash s' with
           | [] => [String c EmptyString]
           | x :: xs => String c x :: xs
           end
  end.

(** [Path(s).parts]: empty components and [.] are dropped, and an absolute
    path starts with the component [/].  The empty list is the current
    directory.  Symbolic links and [..] are outside this model. *)
Definition Path (s : string) : list string :=
  let parts :=
    filter (fun c => c <> EmptyString /\ c <> ".") (split_slash s) in
  match s with
  | String "/"%char _ => "/" :: parts
  | _ => parts
  end.

Definition is_anchor (p : list string) : bool :=
  match p with
  | [] => true
  | [c] => String.eqb c "/"
  | _ => false
  end.

(** What is at a path; the current directory and the root always exist. *)
Definition fs_node (fs : gmap (list string) node) (p : list string) : option node :=
  if is_anchor p then Some Dir else fs !! p.

(** Resolution of the directory a new entry goes into: every component on the
    way must exist and be a directory. *)
Fixpoint walk (fs : gmap (list string) node) (seen rest : list string) : PyRes unit :=
  match rest with
  | [] => Ok tt
  | c :: rest' =>
      match fs_node fs (seen ++ [c]) with
      | Some Dir => walk fs (seen ++ [c]) rest'
      | Some (File _) => Err (Exc NotADirectoryError (String.concat "/" (seen ++ [c])))
      | None => Err (Exc FileNotFoundError (String.concat "/" (seen ++ [c])))
      end
  end.

(** [Path.is_dir()]: the path resolves, and to a directory. *)
Definition is_dir (fs : gmap (list string) node) (p : list string) : bool :=
  match walk fs [] (removelast p) with
  | Ok _ => match fs_node fs p with Some Dir => true | _ => false end
  | Err _ => false
  end.

(** [os.mkdir(p)] *)
Definition os_mkdir (p : list string) (fs : gmap (list string) node)
  : PyRes (gmap (list string) node) :=
  match walk fs [] (removelast p) with
  | Err e => Err e
  | Ok _ =>
      match fs_node fs p with
      | Some _ => Err (Exc FileExistsError (String.concat "/" p))
      | None => Ok (<[p := Dir]> fs)
      end
  end.

(** [Path.mkdir] when [os.mkdir] has raised [e], an [OSError] other than
    [FileNotFoundError]. *)
Definition mkdir_oserror (exist_ok : bool) (p : list string)
    (fs : gmap (list string) node) (e : exn) : PyRes (gmap (list string) node) :=
  if negb exist_ok || negb (is_dir fs p) then Err e else Ok fs.

(** [Path.mkdir(parents=False, exist_ok=exist_ok)] *)
Definition mkdir_leaf (exist_ok : bool) (p : list string)
    (fs : gmap (list string) node) : PyRes (gmap (list string) node) :=
  match os_mkdir p fs with
  | Ok fs' => Ok fs'
  | Err e =>
      if isinstance e FileNotFoundError then Err e
      else mkdir_oserror exist_ok p fs e
  end.

(** [Path.mkdir(parents=parents, exist_ok=exist_ok)], on the path written
    last component first, so that the parent is the tail. *)
Fixpoint mkdir_rev (parents exist_ok : bool) (rp : list string)
    (fs : gmap (list string) node) : PyRes (gmap (list string) node) :=
  match os_mkdir (rev rp) fs with
  | Ok fs' => Ok fs'
  | Err e =>
      if isinstance e FileNotFoundError then
        match rp with
        | [] => Err e
        | _ :: rparent =>
            if negb parents then Err e
            else match mkdir_rev true true rparent fs with
                 | Ok fs1 => mkdir_leaf exist_ok (rev rp) fs1
                 | Err e' => Err e'
                 end
        end
      else mkdir_oserror exist_ok (rev rp) fs e
  end.

Definition mkdir (parents exist_ok : bool) (p : list string)
    (fs : gmap (list string) node) : PyRes (gmap (list string) node) :=
  mkdir_rev parents exist_ok (rev p) fs.

(** [open(p, "wb")]: the file is created or truncated. *)
Definition open_wb (p : list string) (fs : gmap (list string) node)
  : PyRes (gmap (list string) node) :=
  match walk fs [] (removelast p) with
  | Err e => Err e
  | Ok _ =>
      match fs_node fs p with
      | Some Dir => Err (Exc IsADirectoryError (String.concat "/" p))
      | _ => Ok (<[p := File EmptyString]> fs)
      end
  end.

(** [f.write(data)] on the file just opened. *)
Definition write (p : list string) (data : string)
    (fs : gmap (list string) node) : gmap (list string) node :=
  <[p := File data]> fs.

Section WithEnv.
Context {Env : Type}.

(** A filesystem operation, as a step of the modelled code. *)
Definition on_fs (op : gmap (list string) node -> PyRes (gmap (list string) node))
  : M (World Env) unit :=
  fun w => match op (fs w) with
           | Ok fs' => (Ok tt, mkWorld (env w) fs' (trace w))
           | Err e => (Err e, w)
           end.

(** [Path(dest).mkdir(parents=parents, exist_ok=exist_ok)] *)
Definition Path_mkdir (dest : string) (parents exist_ok : bool)
  : M (World Env) unit :=
  emit (EvMkdir dest parents exist_ok) ;;
  on_fs (mkdir parents exist_ok (Path dest)).
End WithEnv.

End LocalFS.

(** ** MultihostHost *)

Module MultihostHost.

(** [class MultihostHostOS(Enum)] *)
Inductive MultihostHostOS : Type := Linux | Windows.

(** [member.value] *)
Definition value (o : MultihostHostOS) : string :=
  match o with
  | Linux => "linux"
  | Windows => "windows"
  end.

(** [MultihostHostOS(s)]: the member whose value is [s], or [ValueError]. *)
Definition MultihostHostOS_of (s : string) : PyRes MultihostHostOS :=
  if String.eqb s (value Linux) then Ok Linux
  else if String.eqb s (value Windows) then Ok Windows
  else Err (Exc ValueError (s +:+ " is not a valid MultihostHostOS")).

(** What a host reads through its [domain] back-reference: [domain.logger]
    and [domain.config.lazy_ssh]. *)
Record DomainRef : Type := {
  dom_logger : MultihostLogger;
  dom_lazy_ssh : bool
}.

(** [CLIBuilder(ssh)] *)
Record CLIBuilder : Type := { cli_ssh : SSHClient }.

(** The attributes [__init__] assigns.  The annotations say [str], but the
    values are whatever the configuration holds. *)
Record Host : Type := {
  cls : string;
  domain : DomainRef;
  logger : MultihostLogger;
  hostname : pyval;
  role : pyval;
  username : pyval;
  password : pyval;
  ip : pyval;
  config : pyval;
  artifacts : pyval;
  shell : Shell;
  os : MultihostHostOS;
  ssh : SSHClient;
  cli : CLIBuilder
}.

(** A value together with the equation that names it. *)
Definition inspect {A : Type} (x : A) : {y : A | x = y} := exist _ x eq_refl.

(** The nested function [is_present] of [__init__]. *)
Equations? is_present (property : string) (confdict : pyval) : PyRes pyval
  by wf (String.length property) lt :=
is_present property confdict with inspect (split_once property) := {
  | exist _ (Some (key, subpath)) Hsplit =>
      match py_get confdict key with
      | Err e => Err e
      | Ok v =>
          if negb (truthy v) then Ok (PBool false)
          else match py_getitem confdict key with
               | Err e => Err e
               | Ok sub => is_present subpath sub
               end
      end
  | exist _ None Hsplit =>
      match py_contains property confdict with
      | Err e => Err e
      | Ok false => Ok (PBool false)
      | Ok true => py_getitem confdict property
      end }.
Proof.
  clear -Hsplit. revert key subpath Hsplit.
  induction property as [|c s IH]; intros key subpath H; simpl in H; [discriminate|].
  destruct (Ascii.eqb c "/").
  - inversion H; subst. simpl. lia.
  - destruct (split_once s) as [[k r]|] eqn:E; [|discriminate].
    inversion H; subst. specialize (IH _ _ eq_refl). simpl. lia.
Qed.

(** The [required_fields] property of the base class. *)
Definition required_fields : list string :=
  ["hostname"; "role"; "username"; "password"].

(** [_get_ssh_host]: the address for ssh, [ip] first, then [hostname]. *)
Definition _get_ssh_host (ip hostname : pyval) : pyval :=
  if truthy ip then ip else hostname.

(** The transport of [pytest_mh.ssh], as far as this module calls it. *)
Class Transport (Env : Type) : Type := {
  ssh_connect : SSHClient -> Ext Env unit;
  ssh_run : SSHClient -> string -> SSHLog -> Ext Env SSHProcessResult
}.

Section WithEnv.
Context {Env : Type} `{!Builtins} `{!Transport Env}.

(** The loop over [self.required_fields] at the head of [__init__]. *)
Definition check_required (required : list string) (confdict : pydict)
  : M (World Env) unit :=
  for_each (fun required =>
    present <- lift (is_present required (PDict confdict)) ;;
    if negb (truthy present)
    then raise (Exc ValueError
                  (dq +:+ required +:+ dq +:+
                   " property is missing in host configuration"))
    else ret tt) required.

(** The block of [__init__] that determines [self.os]. *)
Definition determine_os (confdict : pydict) : M (World Env) MultihostHostOS :=
  let os := lower (py_str (dict_get "os" (PStr (value Linux)) confdict)) in
  try_except (lift (MultihostHostOS_of os))
    (fun e => isinstance e ValueError)
    (fun _ => raise (Exc ValueError
                       ("Value " +:+ dq +:+ os +:+ dq +:+
                        " is not supported in os field of host configuration"))).

(** The [match self.os] of [__init__].  [MultihostHostOS] has two members,
    so the [case _] branch has no counterpart. *)
Definition shell_of (o : MultihostHostOS) : Shell :=
  match o with
  | Linux => SSHBashProcess
  | Windows => SSHPowerShellProcess
  end.

(** [MultihostHost.__init__], for a class named [name] whose
    [required_fields] property returns [required].  Building the
    [SSHClient] and the [CLIBuilder] is on record and returns; connecting
    is the transport's and may raise. *)
Definition __init__ (name : string) (required : list string)
    (domain : DomainRef) (confdict : pydict) : M (World Env) Host :=
  check_required required confdict ;;
  let logger := dom_logger domain in
  hostname <- lift (dict_getitem "hostname" confdict) ;;
  role <- lift (dict_getitem "role" confdict) ;;
  username <- lift (dict_getitem "username" confdict) ;;
  password <- lift (dict_getitem "password" confdict) ;;
  ip <- (if dict_has "ip" confdict then lift (dict_getitem "ip" confdict)
         else ret (PStr EmptyString)) ;;
  let config := dict_get "config" (PDict []) confdict in
  let artifacts := dict_get "artifacts" (PList []) confdict in
  os <- determine_os confdict ;;
  let shell := shell_of os in
  let ssh := {| ssh_host := _get_ssh_host ip hostname;
                ssh_user := username;
                ssh_password := password;
                ssh_logger := logger;
                ssh_shell := shell |} in
  emit (EvSSHClient ssh) ;;
  emit (EvCLIBuilder ssh) ;;
  (if negb (dom_lazy_ssh domain)
   then call (EvSSHConnect ssh) (ssh_connect ssh)
   else ret tt) ;;
  ret {| cls := name; domain := domain; logger := logger;
         hostname := hostname; role := role;
         username := username; password := password;
         ip := ip; config := config; artifacts := artifacts;
         shell := shell; os := os; ssh := ssh;
         cli := {| cli_ssh := ssh |} |}.

(** A host class: [MultihostHost] or a subclass of it.  A subclass may
    override [required_fields] and [__init__].  The code of such an
    [__init__] is not in this file: it is given the constructor of the base
    class, for the object under construction, to call as
    [super().__init__] when and on what it chooses, or not at all. *)
Record HostClass : Type := {
  cls_name : string;
  cls_required_fields : list string;
  cls_init : (DomainRef -> pydict -> M (World Env) Host) ->
             DomainRef -> pydict -> M (World Env) Host
}.

(** The base class itself. *)
Definition MultihostHost : HostClass :=
  {| cls_name := "MultihostHost";
     cls_required_fields := required_fields;
     cls_init := fun super domain confdict => super domain confdict |}.

(** [cls(domain, confdict)] *)
Definition new (c : HostClass) (domain : DomainRef) (confdict : pydict)
  : M (World Env) Host :=
  emit (EvNewHost (cls_name c) confdict) ;;
  cls_init c (__init__ (cls_name c) (cls_required_fields c)) domain confdict.

(** The shell command of [collect_artifacts] on Linux, around the joined
    [compgen] calls. *)
Definition artifacts_command (globs : string) : string :=
  let nl := String (ascii_of_nat 10) EmptyString in
  let pad := "                    " in
  let tmp := dq +:+ "$tmp" +:+ dq in
  nl +:+ pad +:+ "tmp=`mktemp /tmp/mh.host.artifacts.XXXXXXXXX`" +:+
  nl +:+ pad +:+ "tar -czvf " +:+ tmp +:+ " " +:+ globs +:+ " &> /dev/null" +:+
  nl +:+ pad +:+ "base64 " +:+ tmp +:+
  nl +:+ pad +:+ "rm -f " +:+ tmp +:+ " &> /dev/null" +:+
  nl +:+ "                ".

(** [collect_artifacts(dest)] *)
Definition collect_artifacts (self : Host) (dest : string)
  : M (World Env) unit :=
  if negb (truthy (artifacts self)) then ret tt
  else
    LocalFS.Path_mkdir dest true true ;;
    command_ext <-
      match os self with
      | Linux =>
          xs <- lift (py_iter (artifacts self)) ;;
          let globs :=
            String.concat " "
              (map (fun x => "$(compgen -G " +:+ dq +:+ py_str x +:+ dq +:+ ")") xs) in
          ret (artifacts_command globs, "tgz")
      | Windows =>
          raise (Exc NotImplementedError
                   "Artifacts are not supported on Windows machine")
      end ;;
    let command := fst command_ext in
    let ext := snd command_ext in
    result <- call (EvSSHRun (ssh self) command SSHLog_Error)
                   (ssh_run (ssh self) command SSHLog_Error) ;;
    let path := dest +:+ "/" +:+ py_str (role self) +:+ "_" +:+
                py_str (hostname self) +:+ "." +:+ ext in
    emit (EvOpenWrite path) ;;
    LocalFS.on_fs (LocalFS.open_wb (LocalFS.Path path)) ;;
    data <- lift (b64decode (stdout result)) ;;
    LocalFS.on_fs (fun fs => Ok (LocalFS.write (LocalFS.Path path) data fs)).

(** The four hooks do nothing in the base class. *)
Definition pytest_setup (self : Host) : M (World Env) unit := ret tt.
Definition pytest_teardown (self : Host) : M (World Env) unit := ret tt.
Definition setup (self : Host) : M (World Env) unit := ret tt.
Definition teardown (self : Host) : M (World Env) unit := ret tt.
End WithEnv.
Arguments HostClass : clear implicits.

End MultihostHost.

(** ** MultihostUtility *)

Module MultihostUtility.

Section WithEnv.
Context {Env : Type}.

(** A utility object.  [uid] is its identity; [setup] and [teardown] are
    the methods of its class, which a subclass overrides. *)
Record Utility : Type := {
  uid : nat;
  host : MultihostHost.Host;
  logger : MultihostLogger;
  setup : Ext Env unit;
  teardown : Ext Env unit
}.

(** [MultihostUtility(host)]: both methods are [pass] in the base class. *)
Definition __init__ (uid : nat) (host : MultihostHost.Host) : Utility :=
  {| uid := uid; host := host; logger := MultihostHost.logger host;
     setup := pass; teardown := pass |}.

(** The value of an attribute: a utility, or anything else. *)
Inductive attr : Type :=
| Util (u : Utility)
| Other (what : string).

(** [isinstance(a, MultihostUtility)] *)
Definition is_utility (a : attr) : bool :=
  match a with Util _ => true | Other _ => false end.

(** How an object holds an attribute: as a value ([getattr] returns it as
    it is: an instance attribute, a method), or as a property, or another
    descriptor, whose getter [getattr] runs; the getter is code outside this
    file. *)
Inductive slot : Type :=
| Value (a : attr)
| Property (fget : Ext Env attr).

(** An object, as [dir] and [getattr] see it: attribute names with what
    holds them, the first binding of a name being the one [getattr] finds. *)
Definition object : Type := list (string * slot).

(** [dir(o)]: the attribute names, each once, in ascending order. *)
Definition dir (o : object) : list string :=
  merge_sort String.le (remove_dups (map fst o)).

(** [getattr(o, name)] *)
Definition getattr (o : object) (name : string) : M (World Env) attr :=
  match dict_lookup name o with
  | Some (Value a) => ret a
  | Some (Property fget) => call (EvGetattr name) fget
  | None => raise (Exc AttributeError name)
  end.

(** The loop of [inspect.getmembers] over the names of [dir(o)]: the value
    of each name is read with [getattr]; a name whose [getattr] raises
    [AttributeError] is passed over (the object is an instance, so there is
    no class to look the name up in), and any other exception leaves the
    loop.  No name comes twice in [dir(o)], so none is found processed
    already. *)
Fixpoint getmembers_loop (o : object) (predicate : attr -> bool)
    (names : list string) (results : list (string * attr))
  : M (World Env) (list (string * attr)) :=
  match names with
  | [] => ret results
  | key :: names' =>
      found <- try_except (value <- getattr o key ;; ret (Some value))
                          (fun e => isinstance e AttributeError)
                          (fun _ => ret None) ;;
      match found with
      | Some value =>
          if predicate value
          then getmembers_loop o predicate names' (results ++ [(key, value)])
          else getmembers_loop o predicate names' results
      | None => getmembers_loop o predicate names' results
      end
  end.

(** [inspect.getmembers(o, predicate)] *)
Definition getmembers (o : object) (predicate : attr -> bool)
  : M (World Env) (list (string * attr)) :=
  results <- getmembers_loop o predicate (dir o) [] ;;
  ret (merge_sort (fun p q => String.le (fst p) (fst q)) results).

(** [dict(pairs)] *)
Definition dict_of {V : Type} (pairs : list (string * V)) : list (string * V) :=
  fold_left (fun d kv => dict_set (fst kv) (snd kv) d) pairs [].

(** [d.values()] *)
Definition values {V : Type} (d : list (string * V)) : list V := map snd d.

(** [GetUtilityAttributes(o)] *)
Definition GetUtilityAttributes (o : object)
  : M (World Env) (list (string * Utility)) :=
  members <- getmembers o is_utility ;;
  ret (dict_of
         (omap (fun kv => match snd kv with
                          | Util u => Some (fst kv, u)
                          | Other _ => None
                          end)
               members)).

(** [SetupUtilityAttributes(o)] *)
Definition SetupUtilityAttributes (o : object) : M (World Env) unit :=
  utils <- GetUtilityAttributes o ;;
  for_each (fun util => call (EvSetup (uid util)) (setup util))
           (values utils).

(** The loop of [TeardownUtilityAttributes], with the list [errors]
    collected so far. *)
Fixpoint teardown_loop (utils : list Utility) (errors : list exn)
  : M (World Env) (list exn) :=
  match utils with
  | [] => ret errors
  | util :: rest =>
      errors' <- try_except
                   (call (EvTeardown (uid util)) (teardown util) ;; ret errors)
                   (fun e => isinstance e Exception)
                   (fun e => ret (errors ++ [e])) ;;
      teardown_loop rest errors'
  end.

(** [TeardownUtilityAttributes(o)] *)
Definition TeardownUtilityAttributes (o : object) : M (World Env) unit :=
  utils <- GetUtilityAttributes o ;;
  errors <- teardown_loop (values utils) [] ;;
  match errors with
  | [] => ret tt
  | _ :: _ => raise (ExcOfList Exception errors)
  end.
End WithEnv.
Arguments Utility : clear implicits.
Arguments attr : clear implicits.
Arguments slot : clear implicits.
Arguments object : clear implicits.

End MultihostUtility.

(** ** MultihostRole *)

Module MultihostRole.

(** The [MultihostFixture] a role is bound to, as far as this module reads
    it. *)
Record MultihostFixture : Type := { mh_logger : MultihostLogger }.

Section WithEnv.
Context {Env : Type}.

(** A role object: the three attributes [__init__] assigns and the
    attributes a subclass has besides, assigned or defined as properties. *)
Record Role : Type := {
  mh : MultihostFixture;
  role : pyval;
  host : MultihostHost.Host;
  attrs : list (string * MultihostUtility.slot Env)
}.

(** [MultihostRole(mh, role, host)] *)
Definition __init__ (mh : MultihostFixture) (role : pyval)
    (host : MultihostHost.Host) : Role :=
  {| mh := mh; role := role; host := host; attrs := [] |}.

(** The role as [dir] and [getattr] see it: the attributes of its own
    first, then those every role has. *)
Definition as_object (self : Role) : MultihostUtility.object Env :=
  attrs self ++
  [("mh", MultihostUtility.Value (MultihostUtility.Other "MultihostFixture"));
   ("role", MultihostUtility.Value (MultihostUtility.Other "str"));
   ("host", MultihostUtility.Value (MultihostUtility.Other "MultihostHost"));
   ("setup", MultihostUtility.Value (MultihostUtility.Other "method"));
   ("teardown", MultihostUtility.Value (MultihostUtility.Other "method"));
   ("ssh", MultihostUtility.Value (MultihostUtility.Other "method"))].

(** [setup()] *)
Definition setup (self : Role) : M (World Env) unit :=
  MultihostUtility.SetupUtilityAttributes (as_object self).

(** [teardown()] *)
Definition teardown (self : Role) : M (World Env) unit :=
  MultihostUtility.TeardownUtilityAttributes (as_object self).

(** [ssh(user, password, shell=shell)] *)
Definition ssh (self : Role) (user password : pyval) (shell : Shell)
  : M (World Env) SSHClient :=
  let c := {| ssh_host := MultihostHost.hostname (host self);
              ssh_user := user;
              ssh_password := password;
              ssh_logger := mh_logger (mh self);
              ssh_shell := shell |} in
  emit (EvSSHClient c) ;; ret c.

(** A role class: [MultihostRole] or a subclass with a constructor of its
    own. *)
Record RoleClass : Type := {
  rcls_name : string;
  rcls_new : MultihostFixture -> pyval -> MultihostHost.Host -> Ext Env Role
}.

(** The base class itself. *)
Definition MultihostRole : RoleClass :=
  {| rcls_name := "MultihostRole";
     rcls_new := fun mh role host e => (Ok (__init__ mh role host), e) |}.
End WithEnv.
Arguments Role : clear implicits.
Arguments RoleClass : clear implicits.

End MultihostRole.

(** ** MultihostDomain *)

Module MultihostDomain.

(** What a domain reads through its [config] reference. *)
Record ConfigRef : Type := {
  cfg_logger : MultihostLogger;
  cfg_lazy_ssh : bool
}.

(** [key in m] for a mapping [m] with string keys: an unhashable key raises,
    and a key that is not a string equals none of the keys. *)
Definition strmap_contains {V : Type} (key : pyval) (m : gmap string V)
  : PyRes bool :=
  match key with
  | PStr s => Ok (bool_decide (is_Some (m !! s)))
  | PList _ | PDict _ =>
      Err (Exc TypeError ("unhashable type: " +:+ type_name key))
  | _ => Ok false
  end.

(** [m[key]] for a mapping [m] with string keys. *)
Definition strmap_getitem `{Builtins} {V : Type} (key : pyval) (m : gmap string V)
  : PyRes V :=
  match key with
  | PStr s => match m !! s with
              | Some v => Ok v
              | None => Err (Exc KeyError s)
              end
  | PList _ | PDict _ =>
      Err (Exc TypeError ("unhashable type: " +:+ type_name key))
  | _ => Err (Exc KeyError (py_str key))
  end.

Section WithEnv.
Context {Env : Type} `{!Builtins} `{!MultihostHost.Transport Env}.

(** The attributes [__init__] assigns. *)
Record Domain : Type := {
  config : ConfigRef;
  logger : MultihostLogger;
  type : pyval;
  hosts : list MultihostHost.Host
}.

(** The two abstract properties a concrete domain class supplies. *)
Record DomainClass : Type := {
  role_to_host_type : gmap string (MultihostHost.HostClass Env);
  role_to_role_type : gmap string (MultihostRole.RoleClass Env)
}.

(** The domain as a host sees it. *)
Definition as_ref (config : ConfigRef) : MultihostHost.DomainRef :=
  {| MultihostHost.dom_logger := cfg_logger config;
     MultihostHost.dom_lazy_ssh := cfg_lazy_ssh config |}.

(** [create_host(confdict)] *)
Definition create_host (c : DomainClass) (self : MultihostHost.DomainRef)
    (confdict : pydict) : M (World Env) MultihostHost.Host :=
  if negb (truthy (dict_get "role" PNone confdict))
  then raise (Exc ValueError
                (dq +:+ "role" +:+ dq +:+
                 " property is missing in host configuration"))
  else
    role <- lift (dict_getitem "role" confdict) ;;
    known <- lift (strmap_contains role (role_to_host_type c)) ;;
    cls <- (if known then lift (strmap_getitem role (role_to_host_type c))
            else ret MultihostHost.MultihostHost) ;;
    MultihostHost.new cls self confdict.

(** [create_role(mh, host)] *)
Definition create_role (c : DomainClass)
    (mh : MultihostRole.MultihostFixture) (host : MultihostHost.Host)
  : M (World Env) (MultihostRole.Role Env) :=
  let role := MultihostHost.role host in
  known <- lift (strmap_contains role (role_to_role_type c)) ;;
  if negb known
  then raise (Exc ValueError ("Unexpected role: " +:+ py_str role))
  else
    cls <- lift (strmap_getitem role (role_to_role_type c)) ;;
    call (EvNewRole (MultihostRole.rcls_name cls) role
                    (MultihostHost.hostname host))
         (MultihostRole.rcls_new cls mh role host).

(** [for x in l: acc.append(f(x))] *)
Fixpoint append_each {S A B : Type} (f : A -> M S B) (l : list A)
    (acc : list B) : M S (list B) :=
  match l with
  | [] => ret acc
  | x :: l' => y <- f x ;; append_each f l' (acc ++ [y])
  end.

(** [MultihostDomain.__init__(config, confdict)] *)
Definition __init__ (c : DomainClass) (config : ConfigRef)
    (confdict : pydict) : M (World Env) Domain :=
  if negb (dict_has "type" confdict)
  then raise (Exc ValueError
                (dq +:+ "type" +:+ dq +:+
                 " property is missing in domain configuration"))
  else if negb (dict_has "hosts" confdict)
  then raise (Exc ValueError
                (dq +:+ "hosts" +:+ dq +:+
                 " property is missing in domain configuration"))
  else
    type <- lift (dict_getitem "type" confdict) ;;
    entries <- lift (dict_getitem "hosts" confdict) ;;
    entries <- lift (py_iter entries) ;;
    hosts <- append_each
               (fun host =>
                  match host with
                  | PDict d => create_host c (as_ref config) d
                  | _ => _ <- lift (py_get host "role") ;;
                         raise (Exc AttributeError "get")
                  end)
               entries [] ;;
    ret {| config := config; logger := cfg_logger config;
           type := type; hosts := hosts |}.

(** [hosts_by_role(role)] *)
Definition hosts_by_role (self : Domain) (role : string)
  : list MultihostHost.Host :=
  List.filter (fun x => str_eq role (MultihostHost.role x)) (hosts self).

(** The [roles] property: [sorted(set(x.role for x in self.hosts))]. *)
Definition roles (self : Domain) : PyRes (list pyval) :=
  match set_of (map MultihostHost.role (hosts self)) [] with
  | Ok distinct => sorted_set distinct
  | Err e => Err e
  end.
End WithEnv.
Arguments Domain : clear implicits.
Arguments DomainClass : clear implicits.

End MultihostDomain.

(** ** MultihostConfig *)

Module MultihostConfig.

Section WithEnv.
Context {Env : Type}.

(** The attributes of a configuration object; an attribute that has not
    been assigned yet is [None]. *)
Record Config : Type := {
  logger : option MultihostLogger;
  lazy_ssh : option bool;
  domains : option (list MultihostDomain.Domain)
}.

(** The object [__init__] receives: no attribute assigned. *)
Definition blank : Config :=
  {| logger := None; lazy_ssh := None; domains := None |}.

(** [self.logger = v], [self.lazy_ssh = v], [self.domains = v] *)
Definition set_logger (v : MultihostLogger) (self : Config) : Config :=
  {| logger := Some v; lazy_ssh := lazy_ssh self; domains := domains self |}.
Definition set_lazy_ssh (v : bool) (self : Config) : Config :=
  {| logger := logger self; lazy_ssh := Some v; domains := domains self |}.
Definition set_domains (v : list MultihostDomain.Domain) (self : Config)
  : Config :=
  {| logger := logger self; lazy_ssh := lazy_ssh self; domains := Some v |}.

(** [self.domains.append(d)] *)
Definition append_domain (d : MultihostDomain.Domain)
  : M (Config * World Env) unit :=
  self <- get_self ;;
  match domains self with
  | Some ds => update_self (set_domains (ds ++ [d]))
  | None => raise (Exc AttributeError "domains")
  end.

(** [MultihostConfig.__init__(confdict, logger=logger, lazy_ssh=lazy_ssh)],
    for a class whose abstract method is [create_domain]. *)
Definition __init__
    (create_domain : MultihostDomain.ConfigRef -> pyval ->
                     M (World Env) MultihostDomain.Domain)
    (confdict : pydict) (logger : MultihostLogger) (lazy_ssh : bool)
  : M (Config * World Env) unit :=
  update_self (set_logger logger) ;;
  update_self (set_lazy_ssh lazy_ssh) ;;
  update_self (set_domains []) ;;
  if negb (dict_has "domains" confdict)
  then raise (Exc ValueError
                (dq +:+ "domains" +:+ dq +:+
                 " property is missing in multihost configuration"))
  else
    entries <- lift (dict_getitem "domains" confdict) ;;
    entries <- lift (py_iter entries) ;;
    for_each
      (fun domain =>
         d <- with_self
                (emit (EvCreateDomain domain) ;;
                 create_domain
                   {| MultihostDomain.cfg_logger := logger;
                      MultihostDomain.cfg_lazy_ssh := lazy_ssh |}
                   domain) ;;
         append_domain d)
      entries.

(** The [TopologyMarkClass] property: the class [TopologyMark]. *)
Definition TopologyMarkClass (self : Config) : string := "TopologyMark".
End WithEnv.
Arguments Config : clear implicits.

End MultihostConfig.

(** ** What the cascades are expected to do, in the specification's words *)

Module Cascade.

Section WithEnv.
Context {Env : Type}.

(** The [setup()] of every utility of the list returns normally when they
    run one after the other from environment [e]; the result is the
    environment they leave. *)
Fixpoint setups_return (utils : list (MultihostUtility.Utility Env)) (e : Env)
  : option Env :=
  match utils with
  | [] => Some e
  | u :: rest =>
      match MultihostUtility.setup u e with
      | (Ok _, e1) => setups_return rest e1
      | (Err _, _) => None
      end
  end.

(** [teardown()] is called on every utility of the list, one after the
    other, whatever the earlier calls did; the result lists the exceptions
    raised, in the order of the calls, and the environment left. *)
Fixpoint teardown_all (utils : list (MultihostUtility.Utility Env)) (e : Env)
  : list exn * Env :=
  match utils with
  | [] => ([], e)
  | u :: rest =>
      let (r, e1) := MultihostUtility.teardown u e in
      let (errors, e2) := teardown_all rest e1 in
      (match r with Ok _ => errors | Err x => x :: errors end, e2)
  end.

(** Every attribute of the object is held as a value: reading it runs no
    code. *)
Definition plain (o : MultihostUtility.object Env) : bool :=
  forallb (fun kv => match snd kv with
                     | MultihostUtility.Value _ => true
                     | MultihostUtility.Property _ => false
                     end) o.

(** The utility attributes an object holds as values: every attribute name
    once, with the utility held under it. *)
Definition utility_attributes (o : MultihostUtility.object Env)
  : list (string * MultihostUtility.Utility Env) :=
  omap (fun name =>
          match dict_lookup name o with
          | Some (MultihostUtility.Value (MultihostUtility.Util u)) =>
              Some (name, u)
          | _ => None
          end)
       (remove_dups (map fst o)).

(** Reading the attribute [name] of the object can give [v]: [v] is held
    under the name, or the getter of the property of that name returns it
    from some environment. *)
Definition reads (o : MultihostUtility.object Env) (name : string)
    (v : MultihostUtility.attr Env) : Prop :=
  dict_lookup name o = Some (MultihostUtility.Value v) \/
  exists fget e e',
    dict_lookup name o = Some (MultihostUtility.Property fget) /\
    fget e = (Ok v, e').

(** The exception is one the getter of a property of the object raises. *)
Definition raised_by_getter (o : MultihostUtility.object Env) (x : exn)
  : Prop :=
  exists name fget e e',
    dict_lookup name o = Some (MultihostUtility.Property fget) /\
    fget e = (Err x, e').

(** The call is the reading of a property. *)
Definition is_getattr (ev : Event) : bool :=
  match ev with EvGetattr _ => true | _ => false end.

(** From [w] to [w1] attributes have been read and nothing else: the local
    files are as they were, and the calls made are readings of properties. *)
Definition only_read (w w1 : World Env) : Prop :=
  fs w1 = fs w /\
  exists events,
    trace w1 = trace w ++ events /\ forallb is_getattr events = true.

(** [utils] is a discovery of the utility attributes of the object: names
    in ascending order, each once; every utility in it was read from the
    object under its name; every utility the object holds as a value is in
    it. *)
Definition discovery_of (o : MultihostUtility.object Env)
    (utils : list (string * MultihostUtility.Utility Env)) : Prop :=
  StronglySorted String.le (map fst utils) /\
  NoDup (map fst utils) /\
  (forall name u,
      In (name, u) utils -> reads o name (MultihostUtility.Util u)) /\
  (forall name u,
      dict_lookup name o =
        Some (MultihostUtility.Value (MultihostUtility.Util u)) ->
      In (name, u) utils).

(** The members of a plain object for which the predicate holds, by name in
    ascending order. *)
Definition members (o : MultihostUtility.object Env)
    (predicate : MultihostUtility.attr Env -> bool)
  : list (string * MultihostUtility.attr Env) :=
  merge_sort (fun p q => String.le (fst p) (fst q))
    (omap (fun key =>
             match dict_lookup key o with
             | Some (MultihostUtility.Value value) =>
                 if predicate value then Some (key, value) else None
             | _ => None
             end) (MultihostUtility.dir o)).

(** The attribute, if its value is a utility. *)
Definition as_utility (kv : string * MultihostUtility.attr Env)
  : option (string * MultihostUtility.Utility Env) :=
  match snd kv with
  | MultihostUtility.Util u => Some (fst kv, u)
  | MultihostUtility.Other _ => None
  end.

(** The utilities of a plain object by attribute name, and the utilities in
    that order: what discovery finds when reading an attribute runs no
    code. *)
Definition utilities (o : MultihostUtility.object Env)
  : list (string * MultihostUtility.Utility Env) :=
  MultihostUtility.dict_of
    (omap as_utility (members o MultihostUtility.is_utility)).

Definition discovered (o : MultihostUtility.object Env)
  : list (MultihostUtility.Utility Env) :=
  MultihostUtility.values (utilities o).

(** The call the setup cascade makes on one utility. *)
Definition setup_step (util : MultihostUtility.Utility Env)
  : M (World Env) unit :=
  call (EvSetup (MultihostUtility.uid util)) (MultihostUtility.setup util).

(** The exception is one the teardown cascade catches. *)
Definition caught (x : exn) : Prop := isinstance x Exception = true.

Definition setup_calls (utils : list (MultihostUtility.Utility Env))
  : list Event :=
  map (fun u => EvSetup (MultihostUtility.uid u)) utils.

Definition teardown_calls (utils : list (MultihostUtility.Utility Env))
  : list Event :=
  map (fun u => EvTeardown (MultihostUtility.uid u)) utils.
End WithEnv.

End Cascade.

(** ** Host entries, in the specification's words *)

Module Entry.

(** The keys a required field names: the text between the slashes. *)
Definition field_path (field : string) : list string :=
  LocalFS.split_slash field.

(** The value at a path of keys through nested mappings. *)
Fixpoint lookup_path (path : list string) (v : pyval) : option pyval :=
  match path with
  | [] => Some v
  | key :: rest =>
      match v with
      | PDict d =>
          match dict_lookup key d with
          | Some x => lookup_path rest x
          | None => None
          end
      | _ => None
      end
  end.

(** The field is present at the named depth with a non-blank value, blank
    being what Python takes for false: [None], [False], [0] and the empty
    string, list and mapping. *)
Definition field_present (field : string) (confdict : pydict) : bool :=
  match lookup_path (field_path field) (PDict confdict) with
  | Some v => truthy v
  | None => false
  end.

(** Every non-blank value met on the way to the last key is a mapping. *)
Fixpoint through_mappings (path : list string) (v : pyval) : bool :=
  match path with
  | [] => true
  | key :: rest =>
      match rest with
      | [] => match v with PDict _ => true | _ => false end
      | _ :: _ =>
          match v with
          | PDict d =>
              match dict_lookup key d with
              | Some x => negb (truthy x) || through_mappings rest x
              | None => true
              end
          | _ => false
          end
      end
  end.

(** The field name has no slash: it names a key of the entry itself. *)
Definition flat (field : string) : Prop := split_once field = None.

(** The message of the error raised for a missing required field. *)
Definition missing (field : string) : exn :=
  Exc ValueError (dq +:+ field +:+ dq +:+
                  " property is missing in host configuration").

(** The first required field that is missing or blank, if there is one. *)
Fixpoint first_missing (required : list string) (confdict : pydict)
  : option string :=
  match required with
  | [] => None
  | field :: rest =>
      if field_present field confdict then first_missing rest confdict
      else Some field
  end.

(** The error raised for an operating system outside the enumeration. *)
Definition unsupported (word : string) : exn :=
  Exc ValueError ("Value " +:+ dq +:+ word +:+ dq +:+
                  " is not supported in os field of host configuration").

(** The operating system an entry names, case ignored; Linux when the entry
    names none. *)
Definition os_word `{Builtins} (confdict : pydict) : string :=
  lower (py_str (dict_get "os" (PStr "linux") confdict)).

(** The client a host built from the entry talks through. *)
Definition client (domain : MultihostHost.DomainRef) (confdict : pydict)
    (os : MultihostHost.MultihostHostOS) : SSHClient :=
  {| ssh_host :=
       MultihostHost._get_ssh_host (dict_get "ip" (PStr EmptyString) confdict)
                                   (dict_get "hostname" PNone confdict);
     ssh_user := dict_get "username" PNone confdict;
     ssh_password := dict_get "password" PNone confdict;
     ssh_logger := MultihostHost.dom_logger domain;
     ssh_shell := MultihostHost.shell_of os |}.

(** The host object a complete entry describes. *)
Definition host (name : string) (domain : MultihostHost.DomainRef)
    (confdict : pydict) (os : MultihostHost.MultihostHostOS)
  : MultihostHost.Host :=
  {| MultihostHost.cls := name;
     MultihostHost.domain := domain;
     MultihostHost.logger := MultihostHost.dom_logger domain;
     MultihostHost.hostname := dict_get "hostname" PNone confdict;
     MultihostHost.role := dict_get "role" PNone confdict;
     MultihostHost.username := dict_get "username" PNone confdict;
     MultihostHost.password := dict_get "password" PNone confdict;
     MultihostHost.ip := dict_get "ip" (PStr EmptyString) confdict;
     MultihostHost.config := dict_get "config" (PDict []) confdict;
     MultihostHost.artifacts := dict_get "artifacts" (PList []) confdict;
     MultihostHost.shell := MultihostHost.shell_of os;
     MultihostHost.os := os;
     MultihostHost.ssh := client domain confdict os;
     MultihostHost.cli := {| MultihostHost.cli_ssh := client domain confdict os |} |}.

(** The world after the client of a host has been built and, unless the
    connection is lazy, connected; and what the connection raised, if it
    did. *)
Definition connected {Env : Type} `{!MultihostHost.Transport Env}
    (domain : MultihostHost.DomainRef) (c : SSHClient) (w : World Env)
  : PyRes unit * World Env :=
  let built := trace w ++ [EvSSHClient c; EvCLIBuilder c] in
  if MultihostHost.dom_lazy_ssh domain then (Ok tt, mkWorld (env w) (fs w) built)
  else (fst (MultihostHost.ssh_connect c (env w)),
        mkWorld (snd (MultihostHost.ssh_connect c (env w))) (fs w)
                (built ++ [EvSSHConnect c])).

(** The world once the instantiation of a generic host is on record. *)
Definition instantiating {Env : Type} (d : pydict) (w : World Env)
  : World Env :=
  mkWorld (env w) (fs w) (trace w ++ [EvNewHost "MultihostHost" d]).

(** The error [collect_artifacts] raises on Windows. *)
Definition not_supported : exn :=
  Exc NotImplementedError "Artifacts are not supported on Windows machine".

(** The world once [mkdir] has been called for [dest], with the filesystem
    it left. *)
Definition after_mkdir {Env : Type} (dest : string)
    (fs' : gmap (list string) node) (w : World Env) : World Env :=
  mkWorld (env w) fs' (trace w ++ [EvMkdir dest true true]).

(** The small letters of the alphabet with their capitals. *)
Definition letters : list (ascii * ascii) :=
  combine (list_ascii_of_string "abcdefghijklmnopqrstuvwxyz")
          (list_ascii_of_string "ABCDEFGHIJKLMNOPQRSTUVWXYZ").

(** The character [a] is the character [b], or the capital of the small
    letter [b]. *)
Definition spells (a b : ascii) : bool :=
  Ascii.eqb a b ||
  existsb (fun p => Ascii.eqb b (fst p) && Ascii.eqb a (snd p)) letters.

(** The text [s] is a spelling of the word [t], in small letters, capitals
    or any mixture of the two. *)
Fixpoint spelling_of (t s : string) : bool :=
  match s, t with
  | EmptyString, EmptyString => true
  | String a s', String b t' => spells a b && spelling_of t' s'
  | _, _ => false
  end.


(** The name of the archive [collect_artifacts] writes for a host, and the
    file it opens for it under [dest]. *)
Definition archive_name `{Builtins} (self : MultihostHost.Host) : string :=
  py_str (MultihostHost.role self) +:+ "_" +:+
  py_str (MultihostHost.hostname self) +:+ ".tgz".

Definition archive `{Builtins} (dest : string) (self : MultihostHost.Host)
  : string :=
  dest +:+ "/" +:+ archive_name self.

(** The command that fetches the artifacts [xs] from a Linux host. *)
Definition fetch `{Builtins} (xs : list pyval) : string :=
  MultihostHost.artifacts_command
    (String.concat " "
       (map (fun x => "$(compgen -G " +:+ dq +:+ py_str x +:+ dq +:+ ")") xs)).

End Entry.

(** ** Sample objects, for concrete runs *)

Module Sample.

(** The environment of the samples: the remote actions done so far. *)
Definition Env : Type := list string.

(** An external body that notes what it did. *)
Definition note {A : Type} (what : string) (a : A) : Ext Env A :=
  fun e => (Ok a, e ++ [what]).

(** An external body that notes what it did and raises. *)
Definition fail {A : Type} (what : string) (x : exn) : Ext Env A :=
  fun e => (Err x, e ++ [what]).

#[global] Instance builtins : Builtins :=
  {| repr_container := fun _ => "<container>";
     b64decode := fun s => Ok s |}.

#[global] Instance transport : MultihostHost.Transport Env :=
  {| MultihostHost.ssh_connect := fun c => note "connect" tt;
     MultihostHost.ssh_run := fun c command level =>
       note "run" {| stdout := "H4sIAAAA" |} |}.

Definition domain : MultihostHost.DomainRef :=
  {| MultihostHost.dom_logger := 7; MultihostHost.dom_lazy_ssh := false |}.

Definition client (shell : Shell) : SSHClient :=
  {| ssh_host := PStr "h1"; ssh_user := PStr "u"; ssh_password := PStr "p";
     ssh_logger := 7; ssh_shell := shell |}.

(** A host object with the given system and artifacts. *)
Definition host (os : MultihostHost.MultihostHostOS) (artifacts : pyval)
  : MultihostHost.Host :=
  {| MultihostHost.cls := "MultihostHost";
     MultihostHost.domain := domain;
     MultihostHost.logger := 7;
     MultihostHost.hostname := PStr "h1";
     MultihostHost.role := PStr "r1";
     MultihostHost.username := PStr "u";
     MultihostHost.password := PStr "p";
     MultihostHost.ip := PStr EmptyString;
     MultihostHost.config := PDict [];
     MultihostHost.artifacts := artifacts;
     MultihostHost.shell := MultihostHost.shell_of os;
     MultihostHost.os := os;
     MultihostHost.ssh := client (MultihostHost.shell_of os);
     MultihostHost.cli := {| MultihostHost.cli_ssh := client (MultihostHost.shell_of os) |} |}.

(** A utility whose hooks are the given bodies. *)
Definition utility (uid : nat) (setup teardown : Ext Env unit)
  : MultihostUtility.Utility Env :=
  {| MultihostUtility.uid := uid;
     MultihostUtility.host := host MultihostHost.Linux (PList []);
     MultihostUtility.logger := 7;
     MultihostUtility.setup := setup;
     MultihostUtility.teardown := teardown |}.

(** An attribute that holds a utility, or something else, as a value. *)
Definition held (u : MultihostUtility.Utility Env)
  : MultihostUtility.slot Env :=
  MultihostUtility.Value (MultihostUtility.Util u).

Definition other (what : string) : MultihostUtility.slot Env :=
  MultihostUtility.Value (MultihostUtility.Other what).

(** A complete host entry, with more keys after the four required ones. *)
Definition entry (more : pydict) : pydict :=
  [("hostname", PStr "h1"); ("role", PStr "r1");
   ("username", PStr "u"); ("password", PStr "p")] ++ more.

(** A domain whose hosts connect on first use. *)
Definition lazy_domain : MultihostHost.DomainRef :=
  {| MultihostHost.dom_logger := 7; MultihostHost.dom_lazy_ssh := true |}.

(** A domain class that maps no role to a host class or a role class. *)
Definition no_mappings : MultihostDomain.DomainClass Env :=
  {| MultihostDomain.role_to_host_type := ∅;
     MultihostDomain.role_to_role_type := ∅ |}.

(** A domain class that maps the role "r1" to the base role class. *)
Definition r1_mapped : MultihostDomain.DomainClass Env :=
  {| MultihostDomain.role_to_host_type := ∅;
     MultihostDomain.role_to_role_type :=
       {[ "r1" := MultihostRole.MultihostRole ]} |}.

Definition fixture : MultihostRole.MultihostFixture :=
  {| MultihostRole.mh_logger := 7 |}.

(** A world whose current directory holds a regular file [out]. *)
Definition world_with_file : World Env :=
  {| env := []; fs := {[ ["out"] := File "notes" ]}; trace := [] |}.

(** The world before anything has run. *)
Definition world0 : World Env :=
  {| env := []; fs := ∅; trace := [] |}.

(** A role object with three utilities, assigned in the order [fs], [auth],
    [svc]; the second one to be discovered fails in both hooks. *)
Definition role3 : MultihostUtility.object Env :=
  MultihostRole.as_object
    {| MultihostRole.mh := {| MultihostRole.mh_logger := 7 |};
       MultihostRole.role := PStr "r1";
       MultihostRole.host := host MultihostHost.Linux (PList []);
       MultihostRole.attrs :=
         [("fs", held
                   (utility 1 (fail "fs.setup" (Exc OSError "disk full"))
                              (fail "fs.teardown" (Exc OSError "busy"))));
          ("auth", held
                     (utility 2 (note "auth.setup" tt) (note "auth.teardown" tt)));
          ("svc", held
                    (utility 3 (note "svc.setup" tt)
                               (fail "svc.teardown" (Exc ValueError "no unit"))))] |}.

(** A role object with two utilities; the teardown of the first one to be
    discovered is interrupted from the keyboard. *)
Definition role2 : MultihostUtility.object Env :=
  MultihostRole.as_object
    {| MultihostRole.mh := {| MultihostRole.mh_logger := 7 |};
       MultihostRole.role := PStr "r1";
       MultihostRole.host := host MultihostHost.Linux (PList []);
       MultihostRole.attrs :=
         [("a", held
                  (utility 1 (note "a.setup" tt)
                             (fail "a.teardown" (Exc KeyboardInterrupt EmptyString))));
          ("b", held
                  (utility 2 (note "b.setup" tt) (note "b.teardown" tt)))] |}.

(** A transport that refuses every connection and runs nothing. *)
Definition refusing : MultihostHost.Transport Env :=
  {| MultihostHost.ssh_connect := fun c =>
       fail "connect" (Exc OSError "connection refused");
     MultihostHost.ssh_run := fun c command level =>
       fail "run" (Exc OSError "not connected") |}.

(** A decoder that rejects every text, as [b64decode] does one that is not
    base64. *)
Definition rejecting : Builtins :=
  {| repr_container := fun _ => "<container>";
     b64decode := fun s =>
       Err (Exc (UserDefined "binascii.Error" ValueError) "Incorrect padding") |}.

(** A world whose current directory holds an earlier archive of the sample
    host. *)
Definition world_with_archive : World Env :=
  {| env := [];
     fs := {[ ["out"] := Dir; ["out"; "r1_h1.tgz"] := File "earlier" ]};
     trace := [] |}.

(** A role whose utilities [b] and [a] were assigned in that order; the
    teardown of [b] fails. *)
Definition role_ab : MultihostRole.Role Env :=
  {| MultihostRole.mh := fixture;
     MultihostRole.role := PStr "r1";
     MultihostRole.host := host MultihostHost.Linux (PList []);
     MultihostRole.attrs :=
       [("b", held
                (utility 1 (note "b.setup" tt)
                           (fail "b.teardown" (Exc OSError "busy"))));
        ("a", held
                (utility 2 (note "a.setup" tt) (note "a.teardown" tt)));
        ("name", other "str")] |}.

(** A role with a utility [a] and a property [conn] whose getter raises. *)
Definition role_broken : MultihostRole.Role Env :=
  {| MultihostRole.mh := fixture;
     MultihostRole.role := PStr "r1";
     MultihostRole.host := host MultihostHost.Linux (PList []);
     MultihostRole.attrs :=
       [("a", held (utility 1 (note "a.setup" tt) (note "a.teardown" tt)));
        ("conn", MultihostUtility.Property
                   (fail "conn.get" (Exc RuntimeError "no connection")))] |}.

(** A role with a utility [b], a property [a] whose getter makes a utility,
    and a property [opt] whose getter raises [AttributeError]. *)
Definition role_lazy : MultihostRole.Role Env :=
  {| MultihostRole.mh := fixture;
     MultihostRole.role := PStr "r1";
     MultihostRole.host := host MultihostHost.Linux (PList []);
     MultihostRole.attrs :=
       [("b", held (utility 1 (note "b.setup" tt) (note "b.teardown" tt)));
        ("a", MultihostUtility.Property
                (note "a.get"
                   (MultihostUtility.Util
                      (utility 2 (note "a.setup" tt) (note "a.teardown" tt)))));
        ("opt", MultihostUtility.Property
                  (fail "opt.get" (Exc AttributeError "opt")))] |}.

(** A role with attributes, none of them a utility. *)
Definition role_plain : MultihostRole.Role Env :=
  {| MultihostRole.mh := fixture;
     MultihostRole.role := PStr "r1";
     MultihostRole.host := host MultihostHost.Linux (PList []);
     MultihostRole.attrs :=
       [("name", other "str");
        ("port", other "int")] |}.



Definition config_ref : MultihostDomain.ConfigRef :=
  {| MultihostDomain.cfg_logger := 7; MultihostDomain.cfg_lazy_ssh := false |}.

Definition lazy_config_ref : MultihostDomain.ConfigRef :=
  {| MultihostDomain.cfg_logger := 7; MultihostDomain.cfg_lazy_ssh := true |}.

(** A complete host entry of the given name and role. *)
Definition entry_of (hostname role : string) : pydict :=
  [("hostname", PStr hostname); ("role", PStr role);
   ("username", PStr "u"); ("password", PStr "p")].

(** A domain configuration with the given host entries. *)
Definition domain_conf (hosts : list pyval) : pydict :=
  [("type", PStr "ldap"); ("hosts", PList hosts)].

(** The [create_domain] of a configuration class whose domains map no
    roles. *)
Definition create_domain (config : MultihostDomain.ConfigRef) (domain : pyval)
  : M (World Env) MultihostDomain.Domain :=
  match domain with
  | PDict d => MultihostDomain.__init__ no_mappings config d
  | _ => raise (Exc TypeError "domain is not a mapping")
  end.

(** The host the base constructor builds from an entry in the sample
    domain. *)
Definition built (domain : MultihostHost.DomainRef) (d : pydict)
    (os : MultihostHost.MultihostHostOS) : MultihostHost.Host :=
  Entry.host "MultihostHost" domain d os.

End Sample.

(** ** The claims that do not hold as the specification states them *)

Module Stated.

(** C1: whatever the [teardown()] calls raise, all of them are made and the
    exceptions raised come back in one aggregate, for the utilities that
    discovery has found. *)
Definition teardown_aggregates_whatever_is_raised : Prop :=
  forall (Env : Type) (o : MultihostUtility.object Env) (w : World Env)
         (utils : list (string * MultihostUtility.Utility Env))
         (w1 : World Env),
    MultihostUtility.GetUtilityAttributes o w = (Ok utils, w1) ->
    MultihostUtility.TeardownUtilityAttributes o w =
    (match fst (Cascade.teardown_all (MultihostUtility.values utils) (env w1)) with
     | [] => Ok tt
     | errors => Err (ExcOfList Exception errors)
     end,
     mkWorld
       (snd (Cascade.teardown_all (MultihostUtility.values utils) (env w1)))
       (fs w1)
       (trace w1 ++ Cascade.teardown_calls (MultihostUtility.values utils))).

(** C7: an entry whose "os" value is neither "linux" nor "windows" makes the
    constructor raise [ValueError]. *)
Definition os_outside_enumeration_is_rejected : Prop :=
  forall (Env : Type) (builtins : Builtins)
         (transport : MultihostHost.Transport Env)
         (domain : MultihostHost.DomainRef) (d : pydict) (w : World Env)
         (v : pyval),
    dict_lookup "os" d = Some v ->
    v <> PStr "linux" -> v <> PStr "windows" ->
    exists e,
      MultihostHost.__init__ "MultihostHost" MultihostHost.required_fields
        domain d w = (Err e, w) /\
      exn_cls e = ValueError.

(** C4: an entry whose role is non-blank and not a key of
    [role_to_host_type] makes [create_host] return a generic host. *)
Definition unknown_role_always_yields_a_host : Prop :=
  forall (Env : Type) (builtins : Builtins)
         (transport : MultihostHost.Transport Env)
         (c : MultihostDomain.DomainClass Env)
         (self : MultihostHost.DomainRef) (d : pydict) (w : World Env)
         (role : pyval),
    dict_lookup "role" d = Some role ->
    truthy role = true ->
    (forall s, role = PStr s -> MultihostDomain.role_to_host_type c !! s = None) ->
    exists h w',
      MultihostDomain.create_host c self d w = (Ok h, w') /\
      MultihostHost.cls h = "MultihostHost".

(** C8: on a Windows host with a non-empty artifacts list,
    [collect_artifacts] raises [NotImplementedError]. *)
Definition windows_artifacts_always_not_supported : Prop :=
  forall (Env : Type) (builtins : Builtins)
         (transport : MultihostHost.Transport Env)
         (self : MultihostHost.Host) (dest : string) (w : World Env)
         (x : pyval) (l : list pyval),
    MultihostHost.os self = MultihostHost.Windows ->
    MultihostHost.artifacts self = PList (x :: l) ->
    exists e w',
      MultihostHost.collect_artifacts self dest w = (Err e, w') /\
      exn_cls e = NotImplementedError.

End Stated.

(** * Properties *)

(** ** The monad *)

Section MonadFacts.
Context {S : Type}.

Lemma bind_ok {A B} (m : M S A) (k : A -> M S B) s a s' :
  m s = (Ok a, s') -> bind m k s = k a s'.
Proof. intros H. unfold bind. now rewrite H. Qed.

Lemma bind_err {A B} (m : M S A) (k : A -> M S B) s e s' :
  m s = (Err e, s') -> bind m k s = (Err e, s').
Proof. intros H. unfold bind. now rewrite H. Qed.

Lemma bind_assoc {A B C} (m : M S A) (f : A -> M S B) (g : B -> M S C) s :
  bind (bind m f) g s = bind m (fun a => bind (f a) g) s.
Proof. unfold bind. now destruct (m s) as [[a|e] s']. Qed.

Lemma bind_ext {A B} (m : M S A) (f g : A -> M S B) s :
  (forall a s', f a s' = g a s') -> bind m f s = bind m g s.
Proof. intros H. unfold bind. destruct (m s) as [[a|e] s']; auto. Qed.

Lemma for_each_app {A} (body : A -> M S unit) l1 l2 s :
  for_each body (l1 ++ l2) s =
  bind (for_each body l1) (fun _ => for_each body l2) s.
Proof.
  revert s. induction l1 as [|x l1 IH]; intros s; simpl.
  - reflexivity.
  - unfold bind. destruct (body x s) as [[[]|e] s1]; [|reflexivity].
    rewrite IH. reflexivity.
Qed.
End MonadFacts.

Section WorldFacts.
Context {Env : Type}.

Lemma call_eq {A} (ev : Event) (f : Ext Env A) (w : World Env) :
  call ev f w =
  (fst (f (env w)), mkWorld (snd (f (env w))) (fs w) (trace w ++ [ev])).
Proof.
  unfold call, bind, emit, run_ext. simpl. now destruct (f (env w)).
Qed.
End WorldFacts.

(** ** Discovery of the utility attributes *)

Section Discovery.
Context {Env : Type}.
Implicit Types (o : MultihostUtility.object Env).

Lemma dict_set_fresh {V} k (v : V) (m : list (string * V)) :
  ~ In k (map fst m) -> dict_set k v m = m ++ [(k, v)].
Proof.
  induction m as [|[k' v'] m IH]; simpl; intros Hk; [reflexivity|].
  destruct (String.eqb_spec k k') as [->|Hne]; [tauto|].
  rewrite IH by tauto. reflexivity.
Qed.

Lemma dict_of_fold {V} (l : list (string * V)) : forall acc,
  NoDup (map fst (acc ++ l)) ->
  fold_left (fun d kv => dict_set (fst kv) (snd kv) d) l acc = acc ++ l.
Proof.
  induction l as [|[k v] l IH]; intros acc Hnd; simpl.
  - now rewrite app_nil_r.
  - rewrite dict_set_fresh.
    + rewrite IH; rewrite <- app_assoc; [reflexivity|exact Hnd].
    + rewrite map_app in Hnd. simpl in Hnd.
      apply NoDup_app in Hnd as (_ & Hdis & _).
      intros Hin. apply (Hdis k); [now apply list_elem_of_In|left].
  Qed.

(** A list of pairs with distinct keys is the dict it makes. *)
Lemma dict_of_nodup {V} (l : list (string * V)) :
  NoDup (map fst l) -> MultihostUtility.dict_of l = l.
Proof. intros Hnd. apply (dict_of_fold l []). exact Hnd. Qed.

Lemma omap_keys_sublist {A B} (f : A -> option B) (ka : A -> string)
    (kb : B -> string) (l : list A) :
  (forall x y, f x = Some y -> kb y = ka x) ->
  map kb (omap f l) `sublist_of` map ka l.
Proof.
  intros Hk. induction l as [|x l IH]; simpl; [constructor|].
  destruct (f x) as [y|] eqn:Hf; simpl.
  - rewrite (Hk x y Hf). now constructor.
  - now constructor.
Qed.

Lemma omap_omap {A B C} (f : A -> option B) (g : B -> option C) (l : list A) :
  omap g (omap f l) = omap (fun x => match f x with Some y => g y | None => None end) l.
Proof.
  induction l as [|x l IH]; csimpl; [reflexivity|].
  destruct (f x) as [y|]; csimpl; [|exact IH].
  destruct (g y); csimpl; now rewrite IH.
Qed.

Lemma omap_pointwise {A B} (f g : A -> option B) (l : list A) :
  (forall x, f x = g x) -> omap f l = omap g l.
Proof.
  intros Hfg. induction l as [|x l IH]; csimpl; [reflexivity|].
  rewrite Hfg, IH. reflexivity.
Qed.

Lemma StronglySorted_sublist {A} (R : relation A) (l1 l2 : list A) :
  l1 `sublist_of` l2 -> StronglySorted R l2 -> StronglySorted R l1.
Proof.
  induction 1 as [|x l1 l2 Hsub IH|x l1 l2 Hsub IH]; intros Hs.
  - constructor.
  - apply StronglySorted_inv in Hs as [Hs Hall]. constructor; [auto|].
    rewrite Forall_forall in *. intros y Hy. apply Hall.
    eapply elem_of_sublist; eauto.
  - apply StronglySorted_inv in Hs as [Hs _]. auto.
Qed.

#[local] Instance by_name_total {V} :
  Total (fun p q : string * V => String.le (fst p) (fst q)).
Proof. intros p q. apply (total String.le). Qed.

#[local] Instance by_name_trans {V} :
  Transitive (fun p q : string * V => String.le (fst p) (fst q)).
Proof. intros p q r. apply (transitivity (R := String.le)). Qed.

Lemma dir_nodup o : NoDup (MultihostUtility.dir o).
Proof.
  unfold MultihostUtility.dir.
  rewrite merge_sort_Permutation. apply NoDup_remove_dups.
Qed.

Lemma members_keys_sorted o predicate :
  StronglySorted String.le (map fst (Cascade.members o predicate)).
Proof.
  unfold Cascade.members.
  change (map fst ?l) with (fst <$> l).
  apply (StronglySorted_fmap _ (fun p q => String.le (fst p) (fst q)));
    [auto|].
  apply StronglySorted_merge_sort; apply _.
Qed.

Lemma members_keys_nodup o predicate :
  NoDup (map fst (Cascade.members o predicate)).
Proof.
  unfold Cascade.members.
  change (map fst ?l) with (fst <$> l).
  rewrite merge_sort_Permutation.
  eapply sublist_NoDup; [apply (dir_nodup o)|].
  change (fst <$> ?l) with (map fst l).
  rewrite <- (map_id (MultihostUtility.dir o)) at 2.
  apply omap_keys_sublist.
  intros x y Hy. destruct (dict_lookup x o) as [[v|fget]|]; try discriminate.
  destruct (predicate v); inversion Hy; reflexivity.
Qed.

Lemma as_utility_key (kv : string * MultihostUtility.attr Env) y :
  Cascade.as_utility kv = Some y -> fst y = fst kv.
Proof.
  unfold Cascade.as_utility. destruct (snd kv); intros Hy; inversion Hy; reflexivity.
Qed.

(** The pairs a sorted list of members with distinct names gives are the
    dict they make. *)
Lemma dict_of_utilities (l : list (string * MultihostUtility.attr Env)) :
  NoDup (map fst l) ->
  MultihostUtility.dict_of (omap Cascade.as_utility l) =
  omap Cascade.as_utility l.
Proof.
  intros Hnd. apply dict_of_nodup.
  eapply sublist_NoDup; [exact Hnd|].
  apply omap_keys_sublist. apply as_utility_key.
Qed.

Lemma utilities_pairs o :
  Cascade.utilities o =
  omap Cascade.as_utility (Cascade.members o MultihostUtility.is_utility).
Proof.
  unfold Cascade.utilities. apply dict_of_utilities, members_keys_nodup.
Qed.

(** On a plain object, discovery is in ascending order of the attribute
    names, each name once. *)
Lemma utilities_sorted o :
  StronglySorted String.le (map fst (Cascade.utilities o))
  /\ NoDup (map fst (Cascade.utilities o)).
Proof.
  rewrite utilities_pairs. split.
  - eapply StronglySorted_sublist; [|apply members_keys_sorted].
    apply omap_keys_sublist. apply as_utility_key.
  - eapply sublist_NoDup; [apply members_keys_nodup|].
    apply omap_keys_sublist. apply as_utility_key.
Qed.

(** On a plain object, discovery finds the utility attributes, all of them
    and nothing else. *)
Lemma utilities_complete o :
  Cascade.utilities o ≡ₚ Cascade.utility_attributes o.
Proof.
  rewrite utilities_pairs.
  unfold Cascade.members, Cascade.utility_attributes.
  rewrite merge_sort_Permutation, omap_omap.
  unfold MultihostUtility.dir. rewrite merge_sort_Permutation.
  match goal with |- ?a ≡ₚ ?b => assert (a = b) as ->; [|reflexivity] end.
  apply omap_pointwise.
  intros name. destruct (dict_lookup name o) as [[[u|what]|fget]|]; reflexivity.
Qed.

Lemma discovered_all o :
  Cascade.discovered o ≡ₚ map snd (Cascade.utility_attributes o).
Proof.
  unfold Cascade.discovered, MultihostUtility.values.
  change (map snd ?l) with (snd <$> l).
  now rewrite utilities_complete.
Qed.

Lemma dict_lookup_keys {V} k (v : V) (m : list (string * V)) :
  dict_lookup k m = Some v -> In k (map fst m).
Proof.
  induction m as [|[k' v'] m IH]; simpl; [discriminate|].
  destruct (String.eqb k k') eqn:E; [|auto].
  apply String.eqb_eq in E. auto.
Qed.

Lemma dict_lookup_nodup {V} k (v : V) (m : list (string * V)) :
  NoDup (map fst m) -> (dict_lookup k m = Some v <-> In (k, v) m).
Proof.
  induction m as [|[k' v'] m IH]; simpl; intros Hnd.
  - split; [discriminate|tauto].
  - apply NoDup_cons in Hnd as [Hk Hnd].
    destruct (String.eqb k k') eqn:E.
    + apply String.eqb_eq in E. subst k'. split.
      * intros H. inversion H. auto.
      * intros [H|H]; [now inversion H|].
        exfalso. apply Hk. apply list_elem_of_In.
        apply (in_map fst) in H. exact H.
    + apply String.eqb_neq in E. rewrite (IH Hnd). split; [auto|].
      intros [H|H]; [inversion H; congruence|exact H].
Qed.

Lemma dir_has o name :
  In name (MultihostUtility.dir o) <-> In name (map fst o).
Proof.
  unfold MultihostUtility.dir.
  rewrite <- !list_elem_of_In, merge_sort_Permutation.
  apply elem_of_remove_dups.
Qed.

Lemma utility_attributes_in o name u :
  In (name, u) (Cascade.utility_attributes o) <->
  dict_lookup name o =
    Some (MultihostUtility.Value (MultihostUtility.Util u)).
Proof.
  unfold Cascade.utility_attributes.
  rewrite <- list_elem_of_In, list_elem_of_omap. split.
  - intros (key & _ & Hk).
    destruct (dict_lookup key o) as [[[u'|what]|fget]|] eqn:E;
      inversion Hk; subst.
    exact E.
  - intros Hl. exists name. split.
    + apply elem_of_remove_dups, list_elem_of_In.
      eapply dict_lookup_keys; eauto.
    + now rewrite Hl.
Qed.

(** *** Reading the attributes *)

Implicit Types (w : World Env) (predicate : MultihostUtility.attr Env -> bool).

Lemma plain_lookup o name fget :
  Cascade.plain o = true ->
  dict_lookup name o <> Some (MultihostUtility.Property fget).
Proof.
  unfold Cascade.plain. induction o as [|[k sl] o IH]; simpl; [discriminate|].
  intros Hp. apply andb_prop in Hp as [Hs Hp].
  destruct (String.eqb name k); [|auto].
  destruct sl; [discriminate|discriminate Hs].
Qed.

(** What one turn of the loop of [getmembers] does with a name. *)
Lemma getmembers_step o predicate key names results w :
  MultihostUtility.getmembers_loop o predicate (key :: names) results w =
  match dict_lookup key o with
  | Some (MultihostUtility.Value v) =>
      MultihostUtility.getmembers_loop o predicate names
        (if predicate v then results ++ [(key, v)] else results) w
  | Some (MultihostUtility.Property fget) =>
      let w1 := mkWorld (snd (fget (env w))) (fs w)
                        (trace w ++ [EvGetattr key]) in
      match fst (fget (env w)) with
      | Ok v =>
          MultihostUtility.getmembers_loop o predicate names
            (if predicate v then results ++ [(key, v)] else results) w1
      | Err e =>
          if isinstance e AttributeError
          then MultihostUtility.getmembers_loop o predicate names results w1
          else (Err e, w1)
      end
  | None => MultihostUtility.getmembers_loop o predicate names results w
  end.
Proof.
  cbn [MultihostUtility.getmembers_loop].
  unfold bind at 1, try_except, MultihostUtility.getattr.
  destruct (dict_lookup key o) as [[v|fget]|].
  - unfold bind, ret. destruct (predicate v); reflexivity.
  - unfold bind at 1. rewrite call_eq.
    destruct (fget (env w)) as [[v|e] e1]; cbn [fst snd].
    + unfold ret. destruct (predicate v); reflexivity.
    + destruct (isinstance e AttributeError); reflexivity.
  - unfold bind, raise, ret. reflexivity.
Qed.

Lemma getmembers_loop_plain o predicate names : forall results w,
  Cascade.plain o = true ->
  MultihostUtility.getmembers_loop o predicate names results w =
  (Ok (results ++
       omap (fun key =>
               match dict_lookup key o with
               | Some (MultihostUtility.Value value) =>
                   if predicate value then Some (key, value) else None
               | _ => None
               end) names), w).
Proof.
  induction names as [|key names IH]; intros results w Hp.
  - simpl. now rewrite app_nil_r.
  - rewrite getmembers_step. csimpl.
    destruct (dict_lookup key o) as [[v|fget]|] eqn:E.
    + rewrite IH by exact Hp. destruct (predicate v); csimpl;
        [now rewrite <- app_assoc|reflexivity].
    + exfalso. eapply plain_lookup; eauto.
    + now rewrite IH.
Qed.

(** On a plain object discovery reads values only: it returns the
    utilities by name and leaves the world as it is. *)
Lemma discovery_plain o w :
  Cascade.plain o = true ->
  MultihostUtility.GetUtilityAttributes o w = (Ok (Cascade.utilities o), w).
Proof.
  intros Hp.
  unfold MultihostUtility.GetUtilityAttributes, MultihostUtility.getmembers.
  unfold bind at 1, bind at 1.
  rewrite getmembers_loop_plain by exact Hp. reflexivity.
Qed.

(** What the loop of [getmembers] has done when it ends: the files are as
    they were and the calls made are readings of properties; the pairs it
    has added are values read from the object, under names of the list in
    the order of the list, for which the predicate holds, the values held
    under a name of the list all among them; and an exception that leaves
    it is one a getter raised, other than an [AttributeError]. *)
Lemma getmembers_loop_spec o predicate names : forall results w r w',
  MultihostUtility.getmembers_loop o predicate names results w = (r, w') ->
  fs w' = fs w /\
  (exists events,
      trace w' = trace w ++ events /\ forallb Cascade.is_getattr events = true) /\
  (Cascade.plain o = true -> w' = w) /\
  match r with
  | Ok results' =>
      exists new,
        results' = results ++ new /\
        map fst new `sublist_of` names /\
        (forall k v, In (k, v) new ->
                     predicate v = true /\ Cascade.reads o k v) /\
        (forall k v, In k names ->
                     dict_lookup k o = Some (MultihostUtility.Value v) ->
                     predicate v = true -> In (k, v) new)
  | Err e =>
      isinstance e AttributeError = false /\ Cascade.raised_by_getter o e
  end.
Proof.
  induction names as [|key names IH]; intros results w r w' Hrun.
  - inversion Hrun; subst. split; [reflexivity|]. split.
    { exists []. now rewrite app_nil_r. }
    split; [reflexivity|].
    exists []. rewrite app_nil_r. split; [reflexivity|].
    split; [constructor|]. split; intros k v []. 
  - rewrite getmembers_step in Hrun.
    destruct (dict_lookup key o) as [[v|fget]|] eqn:E.
    + destruct (IH _ _ _ _ Hrun) as (Hfs & Hev & Hpl & Hr).
      split; [exact Hfs|]. split; [exact Hev|]. split; [exact Hpl|].
      destruct r as [results'|e]; [|exact Hr].
      destruct Hr as (new & -> & Hsub & Hsound & Hcomp).
      destruct (predicate v) eqn:Hp.
      * exists ((key, v) :: new). rewrite <- app_assoc. split; [reflexivity|].
        split; [simpl; now constructor|]. split.
        -- intros k x [Hkx|Hin]; [|auto].
           inversion Hkx; subst. split; [exact Hp|]. now left.
        -- intros k x [<-|Hin] Hl Hx; [|right; eauto].
           left. congruence.
      * exists new. split; [reflexivity|].
        split; [simpl; now constructor|]. split; [exact Hsound|].
        intros k x [<-|Hin] Hl Hx; [|eauto]. congruence.
    + cbv zeta in Hrun.
      assert (Hplain : Cascade.plain o = true -> False)
        by (intros Hp; eapply plain_lookup; eauto).
      destruct (fget (env w)) as [[v|e] e1] eqn:Hget; cbn [fst snd] in Hrun.
      * destruct (IH _ _ _ _ Hrun) as (Hfs & (events & Ht & Hev) & _ & Hr).
        split; [exact Hfs|]. split.
        { exists (EvGetattr key :: events). cbn [trace] in Ht.
          rewrite Ht, <- app_assoc. split; [reflexivity|]. exact Hev. }
        split; [intros Hp; destruct (Hplain Hp)|].
        destruct r as [results'|e]; [|exact Hr].
        destruct Hr as (new & -> & Hsub & Hsound & Hcomp).
        destruct (predicate v) eqn:Hp.
        -- exists ((key, v) :: new). rewrite <- app_assoc.
           split; [reflexivity|]. split; [simpl; now constructor|]. split.
           ++ intros k x [Hkx|Hin]; [|auto].
              inversion Hkx; subst. split; [exact Hp|]. right. eauto.
           ++ intros k x [<-|Hin] Hl Hx; [congruence|right; eauto].
        -- exists new. split; [reflexivity|].
           split; [simpl; now constructor|]. split; [exact Hsound|].
           intros k x [<-|Hin] Hl Hx; [congruence|eauto].
      * destruct (isinstance e AttributeError) eqn:Hattr.
        -- destruct (IH _ _ _ _ Hrun) as (Hfs & (events & Ht & Hev) & _ & Hr).
           split; [exact Hfs|]. split.
           { exists (EvGetattr key :: events). cbn [trace] in Ht.
             rewrite Ht, <- app_assoc. split; [reflexivity|]. exact Hev. }
           split; [intros Hp; destruct (Hplain Hp)|].
           destruct r as [results'|e']; [|exact Hr].
           destruct Hr as (new & -> & Hsub & Hsound & Hcomp).
           exists new. split; [reflexivity|].
           split; [simpl; now constructor|]. split; [exact Hsound|].
           intros k x [<-|Hin] Hl Hx; [congruence|eauto].
        -- inversion Hrun; subst. cbn [fs trace]. split; [reflexivity|].
           split; [exists [EvGetattr key]; split; reflexivity|].
           split; [intros Hp; destruct (Hplain Hp)|].
           split; [exact Hattr|]. exists key, fget, (env w), e1. auto.
    + destruct (IH _ _ _ _ Hrun) as (Hfs & Hev & Hpl & Hr).
      split; [exact Hfs|]. split; [exact Hev|]. split; [exact Hpl|].
      destruct r as [results'|e]; [|exact Hr].
      destruct Hr as (new & -> & Hsub & Hsound & Hcomp).
      exists new. split; [reflexivity|].
      split; [simpl; now constructor|]. split; [exact Hsound|].
      intros k x [<-|Hin] Hl Hx; [congruence|eauto].
Qed.

(** Discovery in general.  When it returns, the names it returns are in
    ascending order, each once; every utility it returns was read from the
    object under its name, and every utility the object holds as a value is
    returned.  When it raises, a getter of the object has raised that
    exception, which is no [AttributeError].  Either way the local files
    are as they were and the only calls made are readings of properties. *)
Lemma discovery_spec o w r w1 :
  MultihostUtility.GetUtilityAttributes o w = (r, w1) ->
  Cascade.only_read w w1 /\
  match r with
  | Ok utils => Cascade.discovery_of o utils
  | Err e =>
      isinstance e AttributeError = false /\ Cascade.raised_by_getter o e
  end.
Proof.
  unfold MultihostUtility.GetUtilityAttributes, MultihostUtility.getmembers.
  unfold bind at 1, bind at 1. intros Hrun.
  destruct (MultihostUtility.getmembers_loop o MultihostUtility.is_utility
              (MultihostUtility.dir o) [] w) as [[results|e] w2] eqn:Hloop;
    destruct (getmembers_loop_spec _ _ _ _ _ _ _ Hloop)
      as (Hfs & Hev & _ & Hr); inversion Hrun; subst; clear Hrun;
    (split; [split; [exact Hfs|exact Hev]|]); [|exact Hr].
  destruct Hr as (new & Hnew & Hsub & Hsound & Hcomp).
  cbn [app] in Hnew. subst results.
  change (fun kv : string * MultihostUtility.attr Env =>
            match snd kv with
            | MultihostUtility.Util u => Some (fst kv, u)
            | MultihostUtility.Other _ => None
            end) with (@Cascade.as_utility Env).
  set (sorted := merge_sort (fun p q => String.le (fst p) (fst q)) new).
  assert (Hperm : sorted ≡ₚ new) by apply merge_sort_Permutation.
  assert (Hnd : NoDup (map fst sorted)).
  { change (map fst sorted) with (fst <$> sorted). rewrite Hperm.
    eapply sublist_NoDup; [apply (dir_nodup o)|exact Hsub]. }
  assert (Hss : StronglySorted String.le (map fst sorted)).
  { change (map fst sorted) with (fst <$> sorted).
    apply (StronglySorted_fmap _ (fun p q => String.le (fst p) (fst q)));
      [auto|].
    apply StronglySorted_merge_sort; apply _. }
  rewrite (dict_of_utilities _ Hnd).
  assert (Hin : forall name u,
            In (name, u) (omap Cascade.as_utility sorted) <->
            In (name, MultihostUtility.Util u) new).
  { intros name u. rewrite <- !list_elem_of_In, list_elem_of_omap. split.
    - intros ([k a] & Hka & Has). rewrite Hperm in Hka.
      unfold Cascade.as_utility in Has. cbn [fst snd] in Has.
      destruct a; inversion Has; subst. exact Hka.
    - intros Hn. exists (name, MultihostUtility.Util u).
      rewrite Hperm. split; [exact Hn|reflexivity]. }
  unfold Cascade.discovery_of. split; [|split; [|split]].
  - eapply StronglySorted_sublist; [|exact Hss].
    apply omap_keys_sublist. apply as_utility_key.
  - eapply sublist_NoDup; [exact Hnd|].
    apply omap_keys_sublist. apply as_utility_key.
  - intros name u Hu. apply Hin in Hu. apply (Hsound _ _ Hu).
  - intros name u Hl. apply Hin. apply Hcomp; [|exact Hl|reflexivity].
    apply dir_has. eapply dict_lookup_keys; eauto.
Qed.

Lemma utilities_discovery o : Cascade.discovery_of o (Cascade.utilities o).
Proof.
  destruct (utilities_sorted o) as [Hs Hnd].
  split; [exact Hs|]. split; [exact Hnd|]. split.
  - intros name u Hu. left. apply utility_attributes_in.
    apply list_elem_of_In. rewrite <- (utilities_complete o).
    now apply list_elem_of_In.
  - intros name u Hl. apply list_elem_of_In. rewrite (utilities_complete o).
    apply list_elem_of_In. now apply utility_attributes_in.
Qed.

End Discovery.

(** ** The setup cascade *)

Section SetupCascade.
Context {Env : Type}.
Implicit Types (utils : list (MultihostUtility.Utility Env)) (w : World Env).

Lemma setup_loop_returns utils : forall w e',
  Cascade.setups_return utils (env w) = Some e' ->
  for_each Cascade.setup_step utils w =
  (Ok tt, mkWorld e' (fs w) (trace w ++ Cascade.setup_calls utils)).
Proof.
  induction utils as [|u utils IH]; intros w e' H; simpl in *.
  - inversion H; subst. unfold ret. destruct w; simpl. now rewrite app_nil_r.
  - destruct (MultihostUtility.setup u (env w)) as [[[]|x] e1] eqn:Hu; [|discriminate].
    erewrite bind_ok; [|unfold Cascade.setup_step; rewrite call_eq, Hu; reflexivity].
    rewrite (IH _ e') by exact H. simpl. now rewrite <- app_assoc.
Qed.

Lemma setup_loop_raises pre u post : forall w e1 x e2,
  Cascade.setups_return pre (env w) = Some e1 ->
  MultihostUtility.setup u e1 = (Err x, e2) ->
  for_each Cascade.setup_step (pre ++ u :: post) w =
  (Err x, mkWorld e2 (fs w) (trace w ++ Cascade.setup_calls (pre ++ [u]))).
Proof.
  intros w e1 x e2 Hpre Hu.
  rewrite for_each_app.
  erewrite bind_ok by (apply setup_loop_returns; exact Hpre).
  simpl. erewrite bind_err; [reflexivity|].
  unfold Cascade.setup_step. rewrite call_eq. simpl. rewrite Hu. simpl.
  unfold Cascade.setup_calls. rewrite map_app, <- app_assoc. reflexivity.
Qed.
End SetupCascade.

Section SetupCascadeClaims.
Context {Env : Type}.

(** C2.  The setup cascade discovers the utilities and then calls
    [setup()] on them in discovery order.  From the world that discovery
    leaves: when every call returns, the cascade returns and all of them
    have been called, in that order; when the call on a utility raises,
    the cascade raises that very exception at once, and the calls made are
    those on the utilities up to and including that one: no utility later
    in the discovery order is set up.  Discovery order is the ascending
    order of the attribute names; the utilities discovered are utilities
    read from the object, those it holds as values all among them.
    Discovery reads every attribute of the object, which runs the getters
    of its properties: an exception that a getter raises, other than an
    [AttributeError], is raised by the cascade before any [setup()] is
    called.  On an object that holds all its attributes as values
    discovery changes nothing, and the utilities discovered are the
    utility attributes of the object. *)
Theorem setup_cascade_fail_fast
    (o : MultihostUtility.object Env) (w : World Env) :
  (forall utils w1,
      MultihostUtility.GetUtilityAttributes o w = (Ok utils, w1) ->
      (forall e',
          Cascade.setups_return (MultihostUtility.values utils) (env w1) =
            Some e' ->
          MultihostUtility.SetupUtilityAttributes o w =
          (Ok tt, mkWorld e' (fs w1)
                    (trace w1 ++
                     Cascade.setup_calls (MultihostUtility.values utils))))
      /\
      (forall pre u post e1 x e2,
          MultihostUtility.values utils = pre ++ u :: post ->
          Cascade.setups_return pre (env w1) = Some e1 ->
          MultihostUtility.setup u e1 = (Err x, e2) ->
          MultihostUtility.SetupUtilityAttributes o w =
          (Err x, mkWorld e2 (fs w1)
                    (trace w1 ++ Cascade.setup_calls (pre ++ [u]))))
      /\
      Cascade.discovery_of o utils /\ Cascade.only_read w w1)
  /\
  (forall x w1,
      MultihostUtility.GetUtilityAttributes o w = (Err x, w1) ->
      MultihostUtility.SetupUtilityAttributes o w = (Err x, w1) /\
      isinstance x AttributeError = false /\
      Cascade.raised_by_getter o x /\ Cascade.only_read w w1)
  /\
  (Cascade.plain o = true ->
   MultihostUtility.GetUtilityAttributes o w = (Ok (Cascade.utilities o), w) /\
   StronglySorted String.le (map fst (Cascade.utilities o)) /\
   Cascade.discovered o ≡ₚ map snd (Cascade.utility_attributes o)).
Proof.
  split; [|split].
  - intros utils w1 Hd.
    destruct (discovery_spec _ _ _ _ Hd) as [Hread Hof].
    split; [|split; [|split; [exact Hof|exact Hread]]].
    + intros e' H. unfold MultihostUtility.SetupUtilityAttributes.
      rewrite (bind_ok _ _ _ _ _ Hd). now apply setup_loop_returns.
    + intros pre u post e1 x e2 Hv Hpre Hu.
      unfold MultihostUtility.SetupUtilityAttributes.
      rewrite (bind_ok _ _ _ _ _ Hd), Hv.
      eapply setup_loop_raises; eassumption.
  - intros x w1 Hd.
    destruct (discovery_spec _ _ _ _ Hd) as [Hread [Hattr Hget]].
    split; [|auto].
    unfold MultihostUtility.SetupUtilityAttributes.
    now rewrite (bind_err _ _ _ _ _ Hd).
  - intros Hp. split; [now apply discovery_plain|].
    split; [apply utilities_sorted|apply discovered_all].
Qed.
End SetupCascadeClaims.

(** A run of C2: of the utilities [auth], [fs], [svc] of the sample role,
    [auth] is set up, [fs] raises, and [svc] is never set up.  And a run on
    a role whose property [conn] raises when it is read: no utility is set
    up. *)
Lemma setup_cascade_fail_fast_witness :
  (MultihostUtility.GetUtilityAttributes Sample.role3 Sample.world0 =
     (Ok [("auth", Sample.utility 2 (Sample.note "auth.setup" tt)
                                    (Sample.note "auth.teardown" tt));
          ("fs", Sample.utility 1 (Sample.fail "fs.setup" (Exc OSError "disk full"))
                                  (Sample.fail "fs.teardown" (Exc OSError "busy")));
          ("svc", Sample.utility 3 (Sample.note "svc.setup" tt)
                                   (Sample.fail "svc.teardown" (Exc ValueError "no unit")))],
      Sample.world0)
   /\
   MultihostUtility.SetupUtilityAttributes Sample.role3 Sample.world0 =
     (Err (Exc OSError "disk full"),
      mkWorld ["auth.setup"; "fs.setup"] ∅ [EvSetup 2; EvSetup 1]))
  /\
  MultihostUtility.SetupUtilityAttributes
    (MultihostRole.as_object Sample.role_broken) Sample.world0 =
    (Err (Exc RuntimeError "no connection"),
     mkWorld ["conn.get"] ∅ [EvGetattr "conn"]).
Proof.
  split; [split; [reflexivity|]|].
  - apply (proj1 (proj2 (proj1 (setup_cascade_fail_fast Sample.role3 Sample.world0)
                           _ Sample.world0 eq_refl))
             [Sample.utility 2 (Sample.note "auth.setup" tt) (Sample.note "auth.teardown" tt)]
             (Sample.utility 1 (Sample.fail "fs.setup" (Exc OSError "disk full"))
                               (Sample.fail "fs.teardown" (Exc OSError "busy")))
             [Sample.utility 3 (Sample.note "svc.setup" tt)
                               (Sample.fail "svc.teardown" (Exc ValueError "no unit"))]
             ["auth.setup"] (Exc OSError "disk full") ["auth.setup"; "fs.setup"]);
      reflexivity.
  - apply (proj1 (proj2 (setup_cascade_fail_fast
                           (MultihostRole.as_object Sample.role_broken)
                           Sample.world0))
             (Exc RuntimeError "no connection")
             (mkWorld ["conn.get"] ∅ [EvGetattr "conn"])).
    reflexivity.
Defined.

(** ** The teardown cascade *)

Section TeardownCascade.
Context {Env : Type}.
Implicit Types (utils : list (MultihostUtility.Utility Env)) (w : World Env).

Lemma teardown_loop_app utils1 utils2 : forall errors w,
  MultihostUtility.teardown_loop (utils1 ++ utils2) errors w =
  bind (MultihostUtility.teardown_loop utils1 errors)
       (fun errors' => MultihostUtility.teardown_loop utils2 errors') w.
Proof.
  induction utils1 as [|u utils1 IH]; intros errors w; simpl.
  - reflexivity.
  - rewrite bind_assoc. apply bind_ext. intros errors' w'. apply IH.
Qed.

Lemma teardown_loop_collects utils : forall errors w errs e',
  Cascade.teardown_all utils (env w) = (errs, e') ->
  Forall Cascade.caught errs ->
  MultihostUtility.teardown_loop utils errors w =
  (Ok (errors ++ errs),
   mkWorld e' (fs w) (trace w ++ Cascade.teardown_calls utils)).
Proof.
  induction utils as [|u utils IH]; intros errors w errs e' H Hc; simpl in *.
  - inversion H; subst. unfold ret. destruct w; simpl.
    now rewrite !app_nil_r.
  - destruct (MultihostUtility.teardown u (env w)) as [r e1] eqn:Hu.
    destruct (Cascade.teardown_all utils e1) as [errs' e2] eqn:Hrest.
    inversion H; subst; clear H.
    unfold bind at 1, try_except, bind. rewrite call_eq, Hu. simpl.
    destruct r as [[]|x]; simpl.
    + erewrite IH; [|simpl; exact Hrest|exact Hc]. simpl.
      now rewrite <- app_assoc.
    + inversion Hc as [|? ? Hx Hc']; subst. unfold Cascade.caught in Hx. rewrite Hx.
      unfold ret.
      erewrite IH; [|simpl; exact Hrest|exact Hc']. simpl.
      now rewrite <- !app_assoc.
Qed.

Lemma teardown_loop_escapes pre u post : forall errors w errs e1 x e2,
  Cascade.teardown_all pre (env w) = (errs, e1) ->
  Forall Cascade.caught errs ->
  MultihostUtility.teardown u e1 = (Err x, e2) ->
  isinstance x Exception = false ->
  MultihostUtility.teardown_loop (pre ++ u :: post) errors w =
  (Err x, mkWorld e2 (fs w) (trace w ++ Cascade.teardown_calls (pre ++ [u]))).
Proof.
  intros errors w errs e1 x e2 Hpre Hc Hu Hx.
  rewrite teardown_loop_app.
  erewrite bind_ok by (eapply teardown_loop_collects; eassumption).
  simpl. unfold bind at 1, try_except, bind. rewrite call_eq. simpl.
  rewrite Hu. simpl. rewrite Hx.
  unfold Cascade.teardown_calls. rewrite map_app, <- app_assoc. reflexivity.
Qed.

End TeardownCascade.

(** C1 fails when a [teardown()] raises outside [Exception]: the first
    utility of the sample role is interrupted from the keyboard, the
    interrupt leaves the cascade as it is, and the second utility is never
    torn down. *)
Lemma teardown_interrupt_escapes :
  MultihostUtility.TeardownUtilityAttributes Sample.role2 Sample.world0 =
    (Err (Exc KeyboardInterrupt EmptyString),
     mkWorld ["a.teardown"] ∅ [EvTeardown 1])
  /\ (exists utils,
        MultihostUtility.GetUtilityAttributes Sample.role2 Sample.world0 =
          (Ok utils, Sample.world0) /\ length utils = 2)
  /\ ~ Stated.teardown_aggregates_whatever_is_raised.
Proof.
  split; [reflexivity|]. split; [eexists; split; reflexivity|].
  intros H.
  specialize (H Sample.Env Sample.role2 Sample.world0 _ Sample.world0 eq_refl).
  vm_compute in H. discriminate H.
Qed.

Section TeardownCascadeClaims.
Context {Env : Type}.

(** C1, amended.  The teardown cascade discovers the utilities and then
    calls [teardown()] on every one of them, in discovery order, also after
    some of them raised an exception that is an instance of [Exception].
    From the world that discovery leaves: when all the exceptions raised
    are such instances, all N calls are made, and the cascade returns
    normally if none raised and otherwise raises one [Exception] whose
    argument is the list of the exception objects raised, in discovery
    order.  An exception outside [Exception] is not caught: it leaves the
    cascade at once, and no later utility is torn down.  Discovery reads
    every attribute of the object, which runs the getters of its
    properties, outside any handler: an exception that a getter raises,
    other than an [AttributeError], is raised by the cascade as it is,
    before any [teardown()] is called.  The utilities discovered are
    utilities read from the object, in ascending order of their names,
    those it holds as values all among them; on an object that holds all
    its attributes as values discovery changes nothing, and they are the N
    utility attributes of the object. *)
Theorem teardown_cascade_aggregates
    (o : MultihostUtility.object Env) (w : World Env) :
  (forall utils w1,
      MultihostUtility.GetUtilityAttributes o w = (Ok utils, w1) ->
      (forall errors e',
          Cascade.teardown_all (MultihostUtility.values utils) (env w1) =
            (errors, e') ->
          Forall (fun x => isinstance x Exception = true) errors ->
          MultihostUtility.TeardownUtilityAttributes o w =
          (match errors with
           | [] => Ok tt
           | _ :: _ => Err (ExcOfList Exception errors)
           end,
           mkWorld e' (fs w1)
                   (trace w1 ++
                    Cascade.teardown_calls (MultihostUtility.values utils))))
      /\
      (forall pre u post errors e1 x e2,
          MultihostUtility.values utils = pre ++ u :: post ->
          Cascade.teardown_all pre (env w1) = (errors, e1) ->
          Forall (fun x => isinstance x Exception = true) errors ->
          MultihostUtility.teardown u e1 = (Err x, e2) ->
          isinstance x Exception = false ->
          MultihostUtility.TeardownUtilityAttributes o w =
          (Err x, mkWorld e2 (fs w1)
                    (trace w1 ++ Cascade.teardown_calls (pre ++ [u]))))
      /\
      Cascade.discovery_of o utils /\ Cascade.only_read w w1)
  /\
  (forall x w1,
      MultihostUtility.GetUtilityAttributes o w = (Err x, w1) ->
      MultihostUtility.TeardownUtilityAttributes o w = (Err x, w1) /\
      isinstance x AttributeError = false /\
      Cascade.raised_by_getter o x /\ Cascade.only_read w w1)
  /\
  (Cascade.plain o = true ->
   MultihostUtility.GetUtilityAttributes o w = (Ok (Cascade.utilities o), w) /\
   StronglySorted String.le (map fst (Cascade.utilities o)) /\
   Cascade.discovered o ≡ₚ map snd (Cascade.utility_attributes o)).
Proof.
  split; [|split].
  - intros utils w1 Hd.
    destruct (discovery_spec _ _ _ _ Hd) as [Hread Hof].
    split; [|split; [|split; [exact Hof|exact Hread]]].
    + intros errors e' H Hc.
      unfold MultihostUtility.TeardownUtilityAttributes.
      rewrite (bind_ok _ _ _ _ _ Hd).
      erewrite bind_ok by (eapply teardown_loop_collects; eassumption).
      simpl. now destruct errors.
    + intros pre u post errors e1 x e2 Hv Hpre Hc Hu Hx.
      unfold MultihostUtility.TeardownUtilityAttributes.
      rewrite (bind_ok _ _ _ _ _ Hd), Hv.
      erewrite bind_err; [reflexivity|].
      eapply teardown_loop_escapes; eassumption.
  - intros x w1 Hd.
    destruct (discovery_spec _ _ _ _ Hd) as [Hread [Hattr Hget]].
    split; [|auto].
    unfold MultihostUtility.TeardownUtilityAttributes.
    now rewrite (bind_err _ _ _ _ _ Hd).
  - intros Hp. split; [now apply discovery_plain|].
    split; [apply utilities_sorted|apply discovered_all].
Qed.
End TeardownCascadeClaims.

(** A run of C1 as amended: the three utilities [auth], [fs], [svc] of the
    sample role are all torn down although [fs] raises, and the aggregate
    carries the two exception objects in discovery order.  And a run on a
    role whose property [conn] raises when it is read: the utility [a] is
    not torn down. *)
Lemma teardown_cascade_aggregates_witness :
  (Cascade.teardown_all (Cascade.discovered Sample.role3) [] =
     ([Exc OSError "busy"; Exc ValueError "no unit"],
      ["auth.teardown"; "fs.teardown"; "svc.teardown"])
   /\
   MultihostUtility.TeardownUtilityAttributes Sample.role3 Sample.world0 =
     (Err (ExcOfList Exception [Exc OSError "busy"; Exc ValueError "no unit"]),
      mkWorld ["auth.teardown"; "fs.teardown"; "svc.teardown"] ∅
              [EvTeardown 2; EvTeardown 1; EvTeardown 3]))
  /\
  MultihostUtility.TeardownUtilityAttributes
    (MultihostRole.as_object Sample.role_broken) Sample.world0 =
    (Err (Exc RuntimeError "no connection"),
     mkWorld ["conn.get"] ∅ [EvGetattr "conn"]).
Proof.
  split; [split; [reflexivity|]|].
  - apply (proj1 (proj1 (teardown_cascade_aggregates Sample.role3 Sample.world0)
                    (Cascade.utilities Sample.role3) Sample.world0 eq_refl)
             [Exc OSError "busy"; Exc ValueError "no unit"]
             ["auth.teardown"; "fs.teardown"; "svc.teardown"]).
    + reflexivity.
    + repeat constructor.
  - apply (proj1 (proj2 (teardown_cascade_aggregates
                           (MultihostRole.as_object Sample.role_broken)
                           Sample.world0))
             (Exc RuntimeError "no connection")
             (mkWorld ["conn.get"] ∅ [EvGetattr "conn"])).
    reflexivity.
Defined.

(** ** MultihostConfig: the "domains" key *)

Section ConfigClaims.
Context {Env : Type}.

(** C3.  When the configuration document has no "domains" key,
    [MultihostConfig.__init__] raises [ValueError]: [create_domain] is not
    called (the world, and with it the record of calls, is as it was) and
    the [domains] list of the object is the empty list it was set to. *)
Theorem config_without_domains
    (create_domain : MultihostDomain.ConfigRef -> pyval ->
                     M (World Env) MultihostDomain.Domain)
    (confdict : pydict) (logger : MultihostLogger) (lazy_ssh : bool)
    (self : MultihostConfig.Config) (w : World Env) :
  dict_lookup "domains" confdict = None ->
  MultihostConfig.__init__ create_domain confdict logger lazy_ssh (self, w) =
  (Err (Exc ValueError
          (dq +:+ "domains" +:+ dq +:+
           " property is missing in multihost configuration")),
   ({| MultihostConfig.logger := Some logger;
       MultihostConfig.lazy_ssh := Some lazy_ssh;
       MultihostConfig.domains := Some [] |}, w)).
Proof.
  intros H. unfold MultihostConfig.__init__, dict_has. rewrite H.
  reflexivity.
Qed.
End ConfigClaims.

(** A run of C3: the key is misspelt, and the domain it holds is never
    created. *)
Lemma config_without_domains_witness :
  dict_lookup "domains"
    [("domain", PList [PDict [("type", PStr "x"); ("hosts", PList [])]])] = None
  /\
  MultihostConfig.__init__
    (fun _ _ => raise (Exc RuntimeError "create_domain was called"))
    [("domain", PList [PDict [("type", PStr "x"); ("hosts", PList [])]])]
    7 false (MultihostConfig.blank, Sample.world0) =
  (Err (Exc ValueError
          (dq +:+ "domains" +:+ dq +:+
           " property is missing in multihost configuration")),
   ({| MultihostConfig.logger := Some 7;
       MultihostConfig.lazy_ssh := Some false;
       MultihostConfig.domains := Some [] |}, Sample.world0)).
Proof.
  split; [reflexivity|].
  apply (config_without_domains
           (fun _ _ => raise (Exc RuntimeError "create_domain was called"))
           [("domain", PList [PDict [("type", PStr "x"); ("hosts", PList [])]])]
           7 false MultihostConfig.blank Sample.world0).
  reflexivity.
Defined.

(** ** MultihostHost: required fields *)

Section RequiredFields.

Lemma split_once_path field key subpath :
  split_once field = Some (key, subpath) ->
  Entry.field_path field = key :: Entry.field_path subpath.
Proof.
  unfold Entry.field_path. revert key subpath.
  induction field as [|c s IH]; intros key subpath H; simpl in *; [discriminate|].
  destruct (Ascii.eqb c "/").
  - now inversion H.
  - destruct (split_once s) as [[k r]|]; [|discriminate].
    inversion H; subst. now rewrite (IH k subpath eq_refl).
Qed.

Lemma split_once_shorter field key subpath :
  split_once field = Some (key, subpath) ->
  String.length subpath < String.length field.
Proof.
  revert key subpath.
  induction field as [|c s IH]; intros key subpath H; simpl in *; [discriminate|].
  destruct (Ascii.eqb c "/").
  - inversion H; subst. lia.
  - destruct (split_once s) as [[k r]|]; [|discriminate].
    inversion H; subst. specialize (IH _ _ eq_refl). lia.
Qed.

Lemma flat_path field :
  Entry.flat field -> Entry.field_path field = [field].
Proof.
  unfold Entry.flat, Entry.field_path.
  induction field as [|c s IH]; intros H; simpl in *; [reflexivity|].
  destruct (Ascii.eqb c "/"); [discriminate|].
  destruct (split_once s) as [[k r]|]; [discriminate|].
  now rewrite IH.
Qed.

Lemma field_path_nonempty field : Entry.field_path field <> [].
Proof.
  unfold Entry.field_path. destruct field as [|c s]; simpl; [discriminate|].
  destruct (Ascii.eqb c "/"); [discriminate|].
  destruct (LocalFS.split_slash s); discriminate.
Qed.

Lemma is_present_nested field key subpath confdict :
  split_once field = Some (key, subpath) ->
  MultihostHost.is_present field confdict =
  match py_get confdict key with
  | Err e => Err e
  | Ok v =>
      if negb (truthy v) then Ok (PBool false)
      else match py_getitem confdict key with
           | Err e => Err e
           | Ok sub => MultihostHost.is_present subpath sub
           end
  end.
Proof.
  intros H. rewrite MultihostHost.is_present_equation_1.
  unfold MultihostHost.inspect.
  enough (G : forall o (Ho : split_once field = o),
             o = Some (key, subpath) ->
             MultihostHost.is_present_unfold_clause_1 field (exist _ o Ho) confdict =
             match py_get confdict key with
             | Err e => Err e
             | Ok v =>
                 if negb (truthy v) then Ok (PBool false)
                 else match py_getitem confdict key with
                      | Err e => Err e
                      | Ok sub => MultihostHost.is_present subpath sub
                      end
             end) by (apply (G _ eq_refl H)).
  intros o Ho ->. apply MultihostHost.is_present_clause_1_equation_1.
Qed.

Lemma is_present_flat field confdict :
  split_once field = None ->
  MultihostHost.is_present field confdict =
  match py_contains field confdict with
  | Err e => Err e
  | Ok false => Ok (PBool false)
  | Ok true => py_getitem confdict field
  end.
Proof.
  intros H. rewrite MultihostHost.is_present_equation_1.
  unfold MultihostHost.inspect.
  enough (G : forall o (Ho : split_once field = o),
             o = None ->
             MultihostHost.is_present_unfold_clause_1 field (exist _ o Ho) confdict =
             match py_contains field confdict with
             | Err e => Err e
             | Ok false => Ok (PBool false)
             | Ok true => py_getitem confdict field
             end) by (apply (G _ eq_refl H)).
  intros o Ho ->. apply MultihostHost.is_present_clause_1_equation_2.
Qed.

(** On a value that is a mapping wherever the path goes through it,
    [is_present] returns, and what it returns is true exactly when the
    path leads to a non-blank value. *)
Lemma is_present_refines : forall field confdict,
  Entry.through_mappings (Entry.field_path field) confdict = true ->
  exists v,
    MultihostHost.is_present field confdict = Ok v /\
    truthy v = match Entry.lookup_path (Entry.field_path field) confdict with
               | Some x => truthy x
               | None => false
               end.
Proof.
  intros field. remember (String.length field) as n eqn:Hn.
  revert field Hn. induction n as [n IH] using lt_wf_ind.
  intros field Hn confdict Hm. subst n.
  destruct (split_once field) as [[key subpath]|] eqn:Hs.
  - rewrite (is_present_nested _ _ _ _ Hs).
    rewrite (split_once_path _ _ _ Hs) in *.
    pose proof (field_path_nonempty subpath) as Hne.
    destruct (Entry.field_path subpath) as [|k2 rest] eqn:Hp; [congruence|].
    rewrite <- Hp in *. clear Hne.
    assert (Hm' : match confdict with
                  | PDict d =>
                      match dict_lookup key d with
                      | Some x => negb (truthy x) ||
                                  Entry.through_mappings (Entry.field_path subpath) x
                      | None => true
                      end
                  | _ => false
                  end = true).
    { revert Hm. simpl. rewrite Hp. auto. }
    clear Hm. destruct confdict as [| | | | |d]; try discriminate.
    simpl. unfold dict_get, dict_getitem.
    destruct (dict_lookup key d) as [x|] eqn:Hk; simpl.
    + destruct (truthy x) eqn:Hx; simpl in *.
      * apply (IH (String.length subpath)); auto.
        eapply split_once_shorter; eauto.
      * exists (PBool false). split; [reflexivity|].
        rewrite Hp. simpl. destruct x; try reflexivity.
        destruct d0; [reflexivity|discriminate].
    + exists (PBool false). split; reflexivity.
  - rewrite (is_present_flat _ _ Hs).
    rewrite (flat_path _ Hs) in *.
    destruct confdict as [| | | | |d]; try discriminate.
    simpl. unfold dict_has, dict_getitem.
    destruct (dict_lookup field d) as [x|]; simpl.
    + exists x. split; reflexivity.
    + exists (PBool false). split; reflexivity.
Qed.

End RequiredFields.

(** ** MultihostHost: the constructor *)

Section Constructor.
Context {Env : Type} {builtins : Builtins}
        {transport : MultihostHost.Transport Env}.
Implicit Types (w : World Env) (d : pydict).

Lemma check_required_shaped required d w :
  Forall (fun f => Entry.through_mappings (Entry.field_path f) (PDict d) = true)
         required ->
  MultihostHost.check_required required d w =
  match Entry.first_missing required d with
  | Some f => (Err (Entry.missing f), w)
  | None => (Ok tt, w)
  end.
Proof.
  induction 1 as [|f required Hf _ IH]; simpl; [reflexivity|].
  destruct (is_present_refines f (PDict d) Hf) as (v & Hv & Ht).
  unfold MultihostHost.check_required in *. simpl.
  unfold bind at 1, bind at 1, lift. rewrite Hv.
  unfold Entry.field_present. rewrite <- Ht.
  destruct (truthy v); simpl; [apply IH|reflexivity].
Qed.

Lemma flat_shaped required d :
  Forall Entry.flat required ->
  Forall (fun f => Entry.through_mappings (Entry.field_path f) (PDict d) = true)
         required.
Proof.
  intros HF. eapply Forall_impl; [exact HF|].
  intros f Hf. simpl in Hf. now rewrite (flat_path f Hf).
Qed.

Lemma first_missing_none required d f :
  Entry.first_missing required d = None -> In f required ->
  Entry.field_present f d = true.
Proof.
  induction required as [|g required IH]; simpl; [tauto|].
  destruct (Entry.field_present g d) eqn:Hg; [|discriminate].
  intros H [->|Hin]; auto.
Qed.


Lemma missing_somewhere required d f :
  In f required -> Entry.field_present f d = false ->
  exists g, Entry.first_missing required d = Some g.
Proof.
  induction required as [|g required IH]; simpl; [tauto|].
  intros [->|Hin] Hf.
  - rewrite Hf. eauto.
  - destruct (Entry.field_present g d); eauto.
Qed.

Lemma flat_present_lookup f d :
  Entry.flat f -> Entry.field_present f d = true ->
  exists v, dict_lookup f d = Some v /\ truthy v = true.
Proof.
  intros Hf. unfold Entry.field_present. rewrite (flat_path f Hf). simpl.
  destruct (dict_lookup f d) as [v|]; [eauto|discriminate].
Qed.

Lemma determine_os_eq d w :
  MultihostHost.determine_os d w =
  (match MultihostHost.MultihostHostOS_of (Entry.os_word d) with
   | Ok os => Ok os
   | Err _ => Err (Entry.unsupported (Entry.os_word d))
   end, w).
Proof.
  unfold MultihostHost.determine_os, try_except, lift, Entry.os_word.
  unfold MultihostHost.MultihostHostOS_of. simpl.
  destruct (String.eqb _ "linux"); [reflexivity|].
  destruct (String.eqb _ "windows"); reflexivity.
Qed.

(** The constructor on an entry that passes the check of the required
    fields and has the four fields it reads. *)
Lemma init_after_check name required domain d w :
  MultihostHost.check_required required d w = (Ok tt, w) ->
  (forall f, In f MultihostHost.required_fields -> dict_lookup f d <> None) ->
  MultihostHost.__init__ name required domain d w =
  match MultihostHost.MultihostHostOS_of (Entry.os_word d) with
  | Err _ => (Err (Entry.unsupported (Entry.os_word d)), w)
  | Ok os =>
      (match fst (Entry.connected domain (Entry.client domain d os) w) with
       | Ok _ => Ok (Entry.host name domain d os)
       | Err x => Err x
       end,
       snd (Entry.connected domain (Entry.client domain d os) w))
  end.
Proof.
  intros Hc Hb. unfold MultihostHost.__init__.
  rewrite (bind_ok _ _ _ _ _ Hc).
  assert (Hget : forall f, In f MultihostHost.required_fields ->
                   dict_getitem f d = Ok (dict_get f PNone d)).
  { intros f Hf. specialize (Hb f Hf). unfold dict_getitem, dict_get.
    destruct (dict_lookup f d); [reflexivity|congruence]. }
  unfold MultihostHost.required_fields in Hget.
  unfold bind at 1, lift at 1. rewrite (Hget "hostname") by (simpl; auto).
  unfold bind at 1, lift at 1. rewrite (Hget "role") by (simpl; auto).
  unfold bind at 1, lift at 1. rewrite (Hget "username") by (simpl; auto).
  unfold bind at 1, lift at 1. rewrite (Hget "password") by (simpl; auto).
  assert (Hip : (if dict_has "ip" d then lift (dict_getitem "ip" d)
                 else ret (PStr EmptyString)) w =
                (Ok (dict_get "ip" (PStr EmptyString) d), w)).
  { unfold dict_has, dict_getitem, dict_get, lift, ret.
    destruct (dict_lookup "ip" d); reflexivity. }
  rewrite (bind_ok _ _ _ _ _ Hip).
  unfold bind at 1. rewrite determine_os_eq.
  destruct (MultihostHost.MultihostHostOS_of (Entry.os_word d)) as [os|x];
    [|reflexivity].
  unfold Entry.connected, Entry.host, Entry.client.
  unfold bind, emit, ret. simpl.
  destruct (MultihostHost.dom_lazy_ssh domain); simpl.
  - rewrite <- app_assoc. reflexivity.
  - rewrite call_eq. simpl.
    destruct (MultihostHost.ssh_connect _ (env w)) as [[[]|x] e']; simpl;
      rewrite <- !app_assoc; reflexivity.
Qed.
End Constructor.

Section ConstructorResults.
Context {Env : Type} {builtins : Builtins}
        {transport : MultihostHost.Transport Env}.
Implicit Types (w : World Env) (d : pydict).

Lemma check_required_world required d w r w' :
  MultihostHost.check_required required d w = (r, w') -> w' = w.
Proof.
  unfold MultihostHost.check_required.
  induction required as [|f required IH]; simpl; intros Hr.
  - now inversion Hr.
  - unfold bind at 1, bind at 1, lift in Hr.
    destruct (MultihostHost.is_present f (PDict d)) as [v|x].
    + destruct (truthy v); simpl in Hr; [auto|now inversion Hr].
    + now inversion Hr.
Qed.

(** Whenever the constructor returns, it returns the host the entry
    describes, for the operating system the entry names. *)
Lemma init_ok_inv name required domain d w h w' :
  MultihostHost.__init__ name required domain d w = (Ok h, w') ->
  exists os,
    MultihostHost.MultihostHostOS_of (Entry.os_word d) = Ok os /\
    h = Entry.host name domain d os /\
    Entry.connected domain (Entry.client domain d os) w = (Ok tt, w').
Proof.
  intros Hinit. pose proof Hinit as H.
  unfold MultihostHost.__init__ in H. unfold bind at 1 in H.
  destruct (MultihostHost.check_required required d w) as [[[]|x] w1] eqn:Hc;
    [|discriminate].
  pose proof (check_required_world _ _ _ _ _ Hc) as ->.
  assert (Hb : forall f, In f MultihostHost.required_fields ->
                 dict_lookup f d <> None).
  { unfold bind at 1, lift at 1, dict_getitem at 1 in H.
    destruct (dict_lookup "hostname" d) eqn:E1; [|discriminate].
    unfold bind at 1, lift at 1, dict_getitem at 1 in H.
    destruct (dict_lookup "role" d) eqn:E2; [|discriminate].
    unfold bind at 1, lift at 1, dict_getitem at 1 in H.
    destruct (dict_lookup "username" d) eqn:E3; [|discriminate].
    unfold bind at 1, lift at 1, dict_getitem at 1 in H.
    destruct (dict_lookup "password" d) eqn:E4; [|discriminate].
    intros f [<-|[<-|[<-|[<-|[]]]]]; congruence. }
  clear H. rewrite (init_after_check _ _ _ _ _ Hc Hb) in Hinit.
  destruct (MultihostHost.MultihostHostOS_of (Entry.os_word d)) as [os|x];
    [|discriminate].
  exists os. split; [reflexivity|].
  destruct (Entry.connected domain (Entry.client domain d os) w)
    as [[[]|x] w2]; simpl in Hinit; [|discriminate].
  inversion Hinit; subst. auto.
Qed.

Lemma connected_trace domain c w r w' :
  Entry.connected domain c w = (r, w') ->
  In (EvSSHClient c) (trace w').
Proof.
  unfold Entry.connected.
  destruct (MultihostHost.dom_lazy_ssh domain); intros Hc;
    inversion Hc; subst; simpl;
    rewrite ?in_app_iff; simpl; tauto.
Qed.

Lemma os_of_word word os :
  MultihostHost.MultihostHostOS_of word = Ok os ->
  word = MultihostHost.value os.
Proof.
  unfold MultihostHost.MultihostHostOS_of. simpl.
  destruct (String.eqb_spec word "linux") as [->|].
  - intros Hos. now inversion Hos.
  - destruct (String.eqb_spec word "windows") as [->|]; [|discriminate].
    intros Hos. now inversion Hos.
Qed.

Lemma os_of_other word :
  word <> "linux" -> word <> "windows" ->
  exists x, MultihostHost.MultihostHostOS_of word = Err x.
Proof.
  intros Hl Hw. unfold MultihostHost.MultihostHostOS_of. simpl.
  destruct (String.eqb_spec word "linux"); [contradiction|].
  destruct (String.eqb_spec word "windows"); [contradiction|].
  eauto.
Qed.
End ConstructorResults.

(** ** MultihostHost: required fields at any depth *)

Section RequiredFieldClaims.
Context {Env : Type} {builtins : Builtins}
        {transport : MultihostHost.Transport Env}.

(** X3.  On an entry that is a mapping wherever the required paths go through
    it, a required field that is missing or blank at its depth makes the
    constructor raise [ValueError], for the first such field, before it
    does anything else: the world is as it was. *)
Theorem missing_required_field_rejected
    (name : string) (required : list string)
    (domain : MultihostHost.DomainRef) (d : pydict) (w : World Env)
    (field : string) :
  Forall (fun f => Entry.through_mappings (Entry.field_path f) (PDict d) = true)
         required ->
  In field required ->
  Entry.field_present field d = false ->
  exists first,
    Entry.first_missing required d = Some first /\
    MultihostHost.__init__ name required domain d w =
    (Err (Entry.missing first), w).
Proof.
  intros Hs Hin Hf.
  destruct (missing_somewhere required d field Hin Hf) as [g Hg].
  exists g. split; [exact Hg|].
  unfold MultihostHost.__init__.
  erewrite bind_err; [reflexivity|].
  rewrite (check_required_shaped required d w Hs), Hg. reflexivity.
Qed.
End RequiredFieldClaims.

(** A run of the theorem above: the nested field [config/binddn] is absent
    from the mapping under [config]. *)
Lemma missing_required_field_rejected_witness :
  MultihostHost.__init__ "LDAPHost"
    (MultihostHost.required_fields ++ ["config/binddn"]) Sample.domain
    (Sample.entry [("config", PDict [("bindpw", PStr "x")])]) Sample.world0 =
  (Err (Entry.missing "config/binddn"), Sample.world0).
Proof.
  destruct (missing_required_field_rejected (Env := Sample.Env) "LDAPHost"
              (MultihostHost.required_fields ++ ["config/binddn"])
              Sample.domain
              (Sample.entry [("config", PDict [("bindpw", PStr "x")])])
              Sample.world0 "config/binddn")
    as (first & Hfirst & Hinit).
  - repeat constructor.
  - simpl. tauto.
  - reflexivity.
  - vm_compute in Hfirst. inversion Hfirst; subst. exact Hinit.
Defined.

(** C6.  The field [ldap/port] is required and the entry holds the number
    389 under [ldap], so the field is missing at its depth; the constructor
    raises [TypeError], not [ValueError]: [is_present] tests the key against
    the number.  The same with a text under [krb5] for the required field
    [krb5/keytab]: the key is looked up in the text. *)
Theorem required_field_under_scalar_raises_TypeError :
  (Entry.field_present "ldap/port" (Sample.entry [("ldap", PInt 389)]) = false
   /\
   MultihostHost.__init__ "LDAPHost"
     (MultihostHost.required_fields ++ ["ldap/port"]) Sample.domain
     (Sample.entry [("ldap", PInt 389)]) Sample.world0 =
   (Err (Exc TypeError "argument of type int is not iterable"), Sample.world0))
  /\
  (Entry.field_present "krb5/keytab"
     (Sample.entry [("krb5", PStr "/etc/krb5.keytab")]) = false
   /\
   MultihostHost.__init__ "KDCHost"
     (MultihostHost.required_fields ++ ["krb5/keytab"]) Sample.domain
     (Sample.entry [("krb5", PStr "/etc/krb5.keytab")]) Sample.world0 =
   (Err (Exc TypeError "string indices must be integers"), Sample.world0)).
Proof. repeat split; reflexivity. Qed.

(** ** MultihostHost: the operating system *)

Section OperatingSystem.
Context {Env : Type} {builtins : Builtins}
        {transport : MultihostHost.Transport Env}.
Implicit Types (w : World Env) (d : pydict).

Lemma lower_ascii_idem c : lower_ascii (lower_ascii c) = lower_ascii c.
Proof. destruct c as [[] [] [] [] [] [] [] []]; reflexivity. Qed.

Lemma lower_idem s : lower (lower s) = lower s.
Proof.
  induction s as [|c s IH]; simpl; [reflexivity|].
  now rewrite lower_ascii_idem, IH.
Qed.

Lemma dict_lookup_set_eq {V} k (v : V) (m : list (string * V)) :
  dict_lookup k (dict_set k v m) = Some v.
Proof.
  induction m as [|[k' v'] m IH]; simpl.
  - now rewrite String.eqb_refl.
  - destruct (String.eqb k k') eqn:E; simpl; rewrite ?String.eqb_refl, ?E; auto.
Qed.

Lemma dict_lookup_set_ne {V} k k2 (v : V) (m : list (string * V)) :
  k2 <> k -> dict_lookup k2 (dict_set k v m) = dict_lookup k2 m.
Proof.
  intros Hne. induction m as [|[k' v'] m IH]; simpl.
  - destruct (String.eqb_spec k2 k); [contradiction|reflexivity].
  - destruct (String.eqb_spec k k') as [->|Hk]; simpl.
    + destruct (String.eqb_spec k2 k'); [contradiction|reflexivity].
    + destruct (String.eqb k2 k'); auto.
Qed.

Lemma os_word_lookup d v :
  dict_lookup "os" d = Some v -> Entry.os_word d = lower (py_str v).
Proof. intros Hv. unfold Entry.os_word, dict_get. now rewrite Hv. Qed.

Lemma field_present_agree f d d' :
  Entry.flat f -> dict_lookup f d = dict_lookup f d' ->
  Entry.field_present f d = Entry.field_present f d'.
Proof.
  intros Hf Hl. unfold Entry.field_present. rewrite (flat_path f Hf).
  simpl. now rewrite Hl.
Qed.

(** The base constructor reads an entry through the keys it names and
    through the lowercased word for the operating system only. *)
Lemma init_agree name domain d d' w :
  (forall k, k <> "os" -> dict_lookup k d = dict_lookup k d') ->
  Entry.os_word d = Entry.os_word d' ->
  MultihostHost.__init__ name MultihostHost.required_fields domain d w =
  MultihostHost.__init__ name MultihostHost.required_fields domain d' w.
Proof.
  intros Hk Hos.
  assert (Hflat : Forall Entry.flat MultihostHost.required_fields)
    by (repeat constructor).
  assert (Hfm : Entry.first_missing MultihostHost.required_fields d =
                Entry.first_missing MultihostHost.required_fields d').
  { unfold MultihostHost.required_fields. simpl.
    rewrite !(field_present_agree _ d d') by
      (try reflexivity; apply Hk; discriminate).
    reflexivity. }
  pose proof (check_required_shaped _ d w (flat_shaped _ d Hflat)) as Hc.
  pose proof (check_required_shaped _ d' w (flat_shaped _ d' Hflat)) as Hc'.
  rewrite <- Hfm in Hc'.
  destruct (Entry.first_missing MultihostHost.required_fields d) as [f|] eqn:E.
  - unfold MultihostHost.__init__.
    rewrite (bind_err _ _ _ _ _ Hc), (bind_err _ _ _ _ _ Hc'). reflexivity.
  - assert (Hb : forall f, In f MultihostHost.required_fields ->
                   dict_lookup f d <> None).
    { intros f Hf.
      assert (Hff : Entry.flat f)
        by (destruct Hf as [<-|[<-|[<-|[<-|[]]]]]; reflexivity).
      destruct (flat_present_lookup f d Hff) as (v & Hv & _);
        [apply (first_missing_none _ _ _ E Hf)|congruence]. }
    assert (Hb' : forall f, In f MultihostHost.required_fields ->
                    dict_lookup f d' <> None).
    { intros f Hf. rewrite <- Hk; [auto|].
      destruct Hf as [<-|[<-|[<-|[<-|[]]]]]; discriminate. }
    rewrite (init_after_check _ _ _ _ _ Hc Hb),
            (init_after_check _ _ _ _ _ Hc' Hb').
    rewrite <- Hos.
    assert (Hg : forall k v0, k <> "os" -> dict_get k v0 d' = dict_get k v0 d).
    { intros k v0 Hne. unfold dict_get. now rewrite (Hk k Hne). }
    unfold Entry.host, Entry.client.
    rewrite !Hg by discriminate. reflexivity.
Qed.

(** C7, amended.  When the "os" value of an entry, converted to a string
    and lowercased, is neither "linux" nor "windows", the constructor of
    [MultihostHost], and of any subclass that adds top-level names to the
    required fields, raises [ValueError] and leaves the world as it was: no
    [SSHClient] has been constructed or connected.  When "os" is absent the
    system is Linux.  Linux gets the bash process wrapper and Windows the
    PowerShell one: every host the constructor returns has the shell of
    its system, and so has the client it was given. *)
Theorem os_outside_enumeration_rejected
    (name : string) (required : list string)
    (domain : MultihostHost.DomainRef) d w :
  Forall Entry.flat required ->
  (forall f, In f MultihostHost.required_fields -> In f required) ->
  (Entry.os_word d <> "linux" -> Entry.os_word d <> "windows" ->
   exists e,
     MultihostHost.__init__ name required domain d w = (Err e, w) /\
     exn_cls e = ValueError)
  /\
  (dict_lookup "os" d = None ->
   MultihostHost.determine_os d w = (Ok MultihostHost.Linux, w))
  /\
  MultihostHost.shell_of MultihostHost.Linux = SSHBashProcess /\
  MultihostHost.shell_of MultihostHost.Windows = SSHPowerShellProcess /\
  (forall h w',
      MultihostHost.__init__ name required domain d w = (Ok h, w') ->
      Entry.os_word d = MultihostHost.value (MultihostHost.os h) /\
      MultihostHost.shell h = MultihostHost.shell_of (MultihostHost.os h) /\
      ssh_shell (MultihostHost.ssh h) = MultihostHost.shell h /\
      In (EvSSHClient (MultihostHost.ssh h)) (trace w')).
Proof.
  intros Hflat Hbase. repeat split.
  - intros Hl Hw.
    pose proof (check_required_shaped _ d w (flat_shaped _ d Hflat)) as Hc.
    destruct (Entry.first_missing required d) as [f|] eqn:E.
    + exists (Entry.missing f). split; [|reflexivity].
      unfold MultihostHost.__init__. now rewrite (bind_err _ _ _ _ _ Hc).
    + assert (Hb : forall f, In f MultihostHost.required_fields ->
                     dict_lookup f d <> None).
      { intros f Hf.
        assert (Hff : Entry.flat f)
          by (destruct Hf as [<-|[<-|[<-|[<-|[]]]]]; reflexivity).
        destruct (flat_present_lookup f d Hff) as (v & Hv & _);
          [apply (first_missing_none _ _ _ E (Hbase f Hf))|congruence]. }
      rewrite (init_after_check _ _ _ _ _ Hc Hb).
      destruct (os_of_other _ Hl Hw) as [x ->].
      exists (Entry.unsupported (Entry.os_word d)). split; reflexivity.
  - intros Hos. rewrite determine_os_eq.
    unfold Entry.os_word, dict_get. rewrite Hos. reflexivity.
  - destruct (init_ok_inv _ _ _ _ _ _ _ H) as (os & Hos & -> & _).
    simpl. now apply os_of_word.
  - destruct (init_ok_inv _ _ _ _ _ _ _ H) as (os & Hos & -> & _).
    reflexivity.
  - destruct (init_ok_inv _ _ _ _ _ _ _ H) as (os & Hos & -> & _).
    reflexivity.
  - destruct (init_ok_inv _ _ _ _ _ _ _ H) as (os & Hos & -> & Hc).
    simpl. eapply connected_trace; eauto.
Qed.

Lemma spells_lower a b :
  Entry.spells a b = true -> lower_ascii a = lower_ascii b.
Proof.
  unfold Entry.spells. intros H. apply orb_prop in H as [H|H].
  - apply Ascii.eqb_eq in H. now subst.
  - apply existsb_exists in H as ([x y] & Hin & H).
    apply andb_prop in H as [Hb Ha].
    apply Ascii.eqb_eq in Hb, Ha. cbn [fst snd] in *. subst a b.
    vm_compute in Hin.
    repeat (destruct Hin as [Hin|Hin];
            [inversion Hin; subst; reflexivity|]).
    destruct Hin.
Qed.

Lemma spelling_lower t : forall s,
  Entry.spelling_of t s = true -> lower s = lower t.
Proof.
  induction t as [|b t IH]; intros [|a s] H; simpl in H; try discriminate.
  - reflexivity.
  - apply andb_prop in H as [Hab Hst]. simpl.
    now rewrite (spells_lower _ _ Hab), (IH _ Hst).
Qed.

(** C10.  The "os" value is matched without regard to case.  A text that
    spells "linux" in small letters, capitals or any mixture of the two
    ("Linux", "LINUX") is classified as Linux, one that spells "windows"
    ("Windows") as Windows, and the entry is constructed as a host of that
    system, with its shell; whatever word a text spells, the entry is
    constructed as it would be with that word in its place.  The value is
    converted to a string and lowercased before the enumeration is looked
    up: an entry and the same entry with its "os" text lowercased are
    constructed alike. *)
Theorem os_matched_case_insensitively
    (name : string) (domain : MultihostHost.DomainRef) d w (s : string) :
  dict_lookup "os" d = Some (PStr s) ->
  MultihostHost.determine_os d w =
    MultihostHost.determine_os (dict_set "os" (PStr (lower s)) d) w
  /\
  MultihostHost.__init__ name MultihostHost.required_fields domain d w =
    MultihostHost.__init__ name MultihostHost.required_fields domain
      (dict_set "os" (PStr (lower s)) d) w
  /\
  (lower s = "linux" ->
   MultihostHost.determine_os d w = (Ok MultihostHost.Linux, w))
  /\
  (lower s = "windows" ->
   MultihostHost.determine_os d w = (Ok MultihostHost.Windows, w))
  /\
  (forall v, dict_lookup "os" d = Some v ->
     MultihostHost.determine_os d w =
     MultihostHost.determine_os [("os", PStr (lower (py_str v)))] w)
  /\
  (Entry.spelling_of "linux" s = true ->
   MultihostHost.determine_os d w = (Ok MultihostHost.Linux, w))
  /\
  (Entry.spelling_of "windows" s = true ->
   MultihostHost.determine_os d w = (Ok MultihostHost.Windows, w))
  /\
  (forall word, Entry.spelling_of word s = true ->
     MultihostHost.determine_os d w =
       MultihostHost.determine_os (dict_set "os" (PStr word) d) w /\
     MultihostHost.__init__ name MultihostHost.required_fields domain d w =
       MultihostHost.__init__ name MultihostHost.required_fields domain
         (dict_set "os" (PStr word) d) w)
  /\
  (forall os,
     Entry.spelling_of (MultihostHost.value os) s = true ->
     Entry.first_missing MultihostHost.required_fields d = None ->
     MultihostHost.__init__ name MultihostHost.required_fields domain d w =
     (match fst (Entry.connected domain (Entry.client domain d os) w) with
      | Ok _ => Ok (Entry.host name domain d os)
      | Err x => Err x
      end,
      snd (Entry.connected domain (Entry.client domain d os) w)) /\
     MultihostHost.os (Entry.host name domain d os) = os /\
     MultihostHost.shell (Entry.host name domain d os) =
       MultihostHost.shell_of os).
Proof.
  intros Hs.
  assert (Hw : Entry.os_word (dict_set "os" (PStr (lower s)) d) =
               Entry.os_word d).
  { rewrite (os_word_lookup d _ Hs).
    rewrite (os_word_lookup _ _ (dict_lookup_set_eq "os" _ d)).
    simpl. apply lower_idem. }
  assert (Hword : forall word, Entry.spelling_of word s = true ->
            Entry.os_word (dict_set "os" (PStr word) d) = Entry.os_word d).
  { intros word Hsp. rewrite (os_word_lookup d _ Hs).
    rewrite (os_word_lookup _ _ (dict_lookup_set_eq "os" _ d)).
    simpl. symmetry. now apply spelling_lower. }
  assert (Hlinux : lower s = "linux" ->
            MultihostHost.determine_os d w = (Ok MultihostHost.Linux, w)).
  { intros Hl. rewrite determine_os_eq, (os_word_lookup d _ Hs). simpl.
    now rewrite Hl. }
  assert (Hwindows : lower s = "windows" ->
            MultihostHost.determine_os d w = (Ok MultihostHost.Windows, w)).
  { intros Hl. rewrite determine_os_eq, (os_word_lookup d _ Hs). simpl.
    now rewrite Hl. }
  split; [|split; [|split; [|split; [|split; [|split; [|split; [|split]]]]]]].
  - rewrite !determine_os_eq. now rewrite Hw.
  - apply init_agree; [|now rewrite Hw].
    intros k Hk. now rewrite dict_lookup_set_ne.
  - exact Hlinux.
  - exact Hwindows.
  - intros v Hv. rewrite !determine_os_eq.
    rewrite (os_word_lookup d _ Hv).
    rewrite (os_word_lookup [("os", PStr (lower (py_str v)))]
               (PStr (lower (py_str v))) eq_refl).
    simpl. now rewrite lower_idem.
  - intros Hsp. apply Hlinux. now rewrite (spelling_lower _ _ Hsp).
  - intros Hsp. apply Hwindows. now rewrite (spelling_lower _ _ Hsp).
  - intros word Hsp. split.
    + rewrite !determine_os_eq. now rewrite (Hword _ Hsp).
    + apply init_agree; [|now rewrite (Hword _ Hsp)].
      intros k Hk. now rewrite dict_lookup_set_ne.
  - intros os Hsp Hfm.
    split; [|split; reflexivity].
    assert (Hos : Entry.os_word d = MultihostHost.value os).
    { rewrite (os_word_lookup d _ Hs). simpl.
      rewrite (spelling_lower _ _ Hsp). now destruct os. }
    assert (Hflat : Forall Entry.flat MultihostHost.required_fields)
      by (repeat constructor).
    pose proof (check_required_shaped _ d w (flat_shaped _ d Hflat)) as Hcr.
    rewrite Hfm in Hcr.
    assert (Hb : forall f, In f MultihostHost.required_fields ->
                   dict_lookup f d <> None).
    { intros f Hf.
      assert (Hff : Entry.flat f)
        by (destruct Hf as [<-|[<-|[<-|[<-|[]]]]]; reflexivity).
      destruct (flat_present_lookup f d Hff) as (v & Hv & _);
        [apply (first_missing_none _ _ _ Hfm Hf)|congruence]. }
    rewrite (init_after_check _ _ _ _ _ Hcr Hb), Hos.
    now destruct os.
Qed.
End OperatingSystem.

(** C7 fails on a spelling in capitals: "LINUX" is not a value of the
    enumeration, and the entry is constructed all the same, as a Linux
    host. *)
Lemma os_in_capitals_is_accepted :
  MultihostHost.__init__ "MultihostHost" MultihostHost.required_fields
    Sample.lazy_domain (Sample.entry [("os", PStr "LINUX")]) Sample.world0 =
  (Ok (Entry.host "MultihostHost" Sample.lazy_domain
         (Sample.entry [("os", PStr "LINUX")]) MultihostHost.Linux),
   mkWorld [] ∅
     [EvSSHClient (Entry.client Sample.lazy_domain
                     (Sample.entry [("os", PStr "LINUX")]) MultihostHost.Linux);
      EvCLIBuilder (Entry.client Sample.lazy_domain
                      (Sample.entry [("os", PStr "LINUX")]) MultihostHost.Linux)])
  /\ ~ Stated.os_outside_enumeration_is_rejected.
Proof.
  split; [reflexivity|].
  intros H.
  destruct (H Sample.Env Sample.builtins Sample.transport Sample.lazy_domain
              (Sample.entry [("os", PStr "LINUX")]) Sample.world0
              (PStr "LINUX") eq_refl)
    as (e & He & _); [discriminate|discriminate|].
  vm_compute in He. discriminate He.
Qed.

(** A run of C7 as amended: "bogus" is rejected before any client is
    built. *)
Lemma os_outside_enumeration_rejected_witness :
  Entry.os_word (Sample.entry [("os", PStr "bogus")]) <> "linux" /\
  Entry.os_word (Sample.entry [("os", PStr "bogus")]) <> "windows" /\
  exists e,
    MultihostHost.__init__ "MultihostHost" MultihostHost.required_fields
      Sample.domain (Sample.entry [("os", PStr "bogus")]) Sample.world0 =
    (Err e, Sample.world0) /\
    exn_cls e = ValueError.
Proof.
  split; [vm_compute; discriminate|].
  split; [vm_compute; discriminate|].
  apply (proj1 (os_outside_enumeration_rejected (Env := Sample.Env)
                  "MultihostHost" MultihostHost.required_fields
                  Sample.domain (Sample.entry [("os", PStr "bogus")])
                  Sample.world0
                  ltac:(repeat constructor) (fun f Hf => Hf)));
    vm_compute; discriminate.
Defined.

(** A run of C10: "LINUX" and "linux" are constructed alike, as Linux;
    "Linux" is a Linux host too, and "Windows" is a Windows host, with the
    PowerShell wrapper. *)
Lemma os_matched_case_insensitively_witness :
  (dict_lookup "os" (Sample.entry [("os", PStr "LINUX")]) = Some (PStr "LINUX")
   /\
   MultihostHost.determine_os (Sample.entry [("os", PStr "LINUX")]) Sample.world0 =
     (Ok MultihostHost.Linux, Sample.world0)
   /\
   MultihostHost.__init__ "MultihostHost" MultihostHost.required_fields
     Sample.domain (Sample.entry [("os", PStr "LINUX")]) Sample.world0 =
   MultihostHost.__init__ "MultihostHost" MultihostHost.required_fields
     Sample.domain (Sample.entry [("os", PStr "linux")]) Sample.world0)
  /\
  (Entry.spelling_of "linux" "Linux" = true /\
   MultihostHost.determine_os (Sample.entry [("os", PStr "Linux")]) Sample.world0 =
     (Ok MultihostHost.Linux, Sample.world0))
  /\
  (Entry.spelling_of "windows" "Windows" = true /\
   MultihostHost.determine_os (Sample.entry [("os", PStr "Windows")])
     Sample.world0 = (Ok MultihostHost.Windows, Sample.world0) /\
   MultihostHost.__init__ "MultihostHost" MultihostHost.required_fields
     Sample.lazy_domain (Sample.entry [("os", PStr "Windows")]) Sample.world0 =
   (Ok (Entry.host "MultihostHost" Sample.lazy_domain
          (Sample.entry [("os", PStr "Windows")]) MultihostHost.Windows),
    mkWorld [] ∅
      [EvSSHClient (Entry.client Sample.lazy_domain
                      (Sample.entry [("os", PStr "Windows")])
                      MultihostHost.Windows);
       EvCLIBuilder (Entry.client Sample.lazy_domain
                       (Sample.entry [("os", PStr "Windows")])
                       MultihostHost.Windows)]) /\
   ssh_shell (Entry.client Sample.lazy_domain
                (Sample.entry [("os", PStr "Windows")])
                MultihostHost.Windows) = SSHPowerShellProcess).
Proof.
  split; [|split].
  - split; [reflexivity|].
    pose proof (os_matched_case_insensitively (Env := Sample.Env)
                  "MultihostHost" Sample.domain
                  (Sample.entry [("os", PStr "LINUX")]) Sample.world0
                  "LINUX" eq_refl) as (_ & Hinit & Hlinux & _).
    split; [apply Hlinux; reflexivity|exact Hinit].
  - split; [reflexivity|].
    pose proof (os_matched_case_insensitively (Env := Sample.Env)
                  "MultihostHost" Sample.domain
                  (Sample.entry [("os", PStr "Linux")]) Sample.world0
                  "Linux" eq_refl) as (_ & _ & _ & _ & _ & Hlinux & _).
    apply Hlinux. reflexivity.
  - split; [reflexivity|].
    pose proof (os_matched_case_insensitively (Env := Sample.Env)
                  "MultihostHost" Sample.lazy_domain
                  (Sample.entry [("os", PStr "Windows")]) Sample.world0
                  "Windows" eq_refl)
      as (_ & _ & _ & _ & _ & _ & Hwindows & _ & Hhost).
    split; [apply Hwindows; reflexivity|].
    destruct (Hhost MultihostHost.Windows eq_refl eq_refl) as (Hrun & _ & _).
    split; [rewrite Hrun; reflexivity|reflexivity].
Defined.

(** ** MultihostDomain: hosts and roles by role name *)

Section DomainFacts.
Context {Env : Type} {builtins : Builtins}
        {transport : MultihostHost.Transport Env}.
Implicit Types (w : World Env) (d : pydict)
         (c : MultihostDomain.DomainClass Env).

Lemma new_generic self d w :
  MultihostHost.new MultihostHost.MultihostHost self d w =
  MultihostHost.__init__ "MultihostHost" MultihostHost.required_fields
    self d (Entry.instantiating d w).
Proof.
  unfold MultihostHost.new, bind, emit, run_ext, Entry.instantiating. simpl.
  destruct (MultihostHost.__init__ _ _ _ _ _) as [[h|x] [e f t]]; reflexivity.
Qed.

Lemma strmap_not_a_key {V} (role : pyval) (m : gmap string V) :
  hashable role = true ->
  (forall s, role = PStr s -> m !! s = None) ->
  MultihostDomain.strmap_contains role m = Ok false.
Proof.
  intros Hh Hk. destruct role; try discriminate; try reflexivity.
  simpl. rewrite (Hk s eq_refl). reflexivity.
Qed.

Lemma connected_extends domain cl w r w' :
  Entry.connected domain cl w = (r, w') ->
  exists l, trace w' = trace w ++ l.
Proof.
  unfold Entry.connected.
  destruct (MultihostHost.dom_lazy_ssh domain); intros Hc;
    inversion Hc; subst; simpl; rewrite <- ?app_assoc; eauto.
Qed.

Lemma create_host_fallback c self d w role :
  dict_lookup "role" d = Some role ->
  truthy role = true ->
  hashable role = true ->
  (forall s, role = PStr s -> MultihostDomain.role_to_host_type c !! s = None) ->
  MultihostDomain.create_host c self d w =
  MultihostHost.new MultihostHost.MultihostHost self d w.
Proof.
  intros Hr Ht Hh Hk. unfold MultihostDomain.create_host.
  unfold dict_get, dict_getitem. rewrite Hr, Ht. simpl.
  unfold bind at 1, lift at 1. unfold bind at 1, lift at 1.
  rewrite (strmap_not_a_key role _ Hh Hk). reflexivity.
Qed.
End DomainFacts.

(** C4 fails on an entry that names a role and nothing else: the generic
    class is chosen and instantiated, and its constructor raises for the
    missing hostname. *)
Lemma unknown_role_without_hostname_fails :
  MultihostDomain.create_host Sample.no_mappings Sample.domain
    [("role", PStr "r1")] Sample.world0 =
  (Err (Entry.missing "hostname"),
   mkWorld [] ∅ [EvNewHost "MultihostHost" [("role", PStr "r1")]])
  /\ ~ Stated.unknown_role_always_yields_a_host.
Proof.
  split; [reflexivity|].
  intros H.
  destruct (H Sample.Env Sample.builtins Sample.transport Sample.no_mappings
              Sample.domain [("role", PStr "r1")] Sample.world0 (PStr "r1")
              eq_refl eq_refl (fun s _ => lookup_empty s))
    as (h & w' & Hh & _).
  vm_compute in Hh. discriminate Hh.
Qed.

Section DomainClaims.
Context {Env : Type} {builtins : Builtins}
        {transport : MultihostHost.Transport Env}.

(** C4, amended.  For an entry whose "role" value is non-blank, hashable
    (any non-empty string is) and not a key of [role_to_host_type],
    [create_host] instantiates the generic [MultihostHost] on the entry:
    the unknown role is not an error.  What it returns is what that
    constructor returns: whenever it returns a host, the host is a generic
    one, and it does return one when the entry has its required fields, its
    system is in the enumeration and the connection, if not lazy, is
    established.  A missing or blank "role" raises [ValueError] before any
    host is instantiated. *)
Theorem unknown_role_falls_back_to_generic_host
    (c : MultihostDomain.DomainClass Env)
    (self : MultihostHost.DomainRef) (d : pydict) (w : World Env) :
  (forall role,
      dict_lookup "role" d = Some role ->
      truthy role = true ->
      hashable role = true ->
      (forall s, role = PStr s ->
                 MultihostDomain.role_to_host_type c !! s = None) ->
      MultihostDomain.create_host c self d w =
        MultihostHost.new MultihostHost.MultihostHost self d w
      /\
      (forall h w',
          MultihostDomain.create_host c self d w = (Ok h, w') ->
          MultihostHost.cls h = "MultihostHost" /\
          In (EvNewHost "MultihostHost" d) (trace w'))
      /\
      (forall os,
          Entry.first_missing MultihostHost.required_fields d = None ->
          MultihostHost.MultihostHostOS_of (Entry.os_word d) = Ok os ->
          fst (Entry.connected self (Entry.client self d os)
                 (Entry.instantiating d w)) = Ok tt ->
          MultihostDomain.create_host c self d w =
          (Ok (Entry.host "MultihostHost" self d os),
           snd (Entry.connected self (Entry.client self d os)
                  (Entry.instantiating d w)))))
  /\
  (dict_lookup "role" d = None \/
   (exists v, dict_lookup "role" d = Some v /\ truthy v = false) ->
   MultihostDomain.create_host c self d w = (Err (Entry.missing "role"), w)).
Proof.
  split.
  - intros role Hr Ht Hh Hk.
    pose proof (create_host_fallback c self d w role Hr Ht Hh Hk) as Hfb.
    split; [exact Hfb|]. rewrite Hfb, new_generic. split.
    + intros h w' Hinit.
      destruct (init_ok_inv _ _ _ _ _ _ _ Hinit) as (os & _ & -> & Hc).
      split; [reflexivity|].
      destruct (connected_extends _ _ _ _ _ Hc) as [l ->].
      simpl. rewrite !in_app_iff. simpl. tauto.
    + intros os Hfm Hos Hc.
      assert (Hflat : Forall Entry.flat MultihostHost.required_fields)
        by (repeat constructor).
      pose proof (check_required_shaped _ d (Entry.instantiating d w)
                    (flat_shaped _ d Hflat)) as Hcr.
      rewrite Hfm in Hcr.
      assert (Hb : forall f, In f MultihostHost.required_fields ->
                     dict_lookup f d <> None).
      { intros f Hf.
        assert (Hff : Entry.flat f)
          by (destruct Hf as [<-|[<-|[<-|[<-|[]]]]]; reflexivity).
        destruct (flat_present_lookup f d Hff) as (v & Hv & _);
          [apply (first_missing_none _ _ _ Hfm Hf)|congruence]. }
      rewrite (init_after_check _ _ _ _ _ Hcr Hb), Hos, Hc. reflexivity.
  - intros Hblank. unfold MultihostDomain.create_host, dict_get.
    destruct Hblank as [-> | (v & -> & ->)]; reflexivity.
Qed.

(** C5.  For a host whose role is not a key of [role_to_role_type],
    [create_role] raises [ValueError] and instantiates no role class: the
    world, and with it the record of calls, is as it was.  There is no
    fallback.  The host is only read, and it serves as before: with a
    mapping that has its role, the same host gets its role object, exactly
    as if the failed attempt had not been made.  (The role of a host is
    declared a string; the statement holds for every hashable value.) *)
Theorem unknown_role_has_no_role_object
    (c : MultihostDomain.DomainClass Env)
    (mh : MultihostRole.MultihostFixture) (host : MultihostHost.Host)
    (w : World Env) :
  hashable (MultihostHost.role host) = true ->
  (forall s, MultihostHost.role host = PStr s ->
             MultihostDomain.role_to_role_type c !! s = None) ->
  MultihostDomain.create_role c mh host w =
    (Err (Exc ValueError
            ("Unexpected role: " +:+ py_str (MultihostHost.role host))), w)
  /\
  (forall (c2 : MultihostDomain.DomainClass Env) s cls,
      MultihostHost.role host = PStr s ->
      MultihostDomain.role_to_role_type c2 !! s = Some cls ->
      MultihostDomain.create_role c2 mh host
        (snd (MultihostDomain.create_role c mh host w)) =
      call (EvNewRole (MultihostRole.rcls_name cls)
                      (MultihostHost.role host) (MultihostHost.hostname host))
           (MultihostRole.rcls_new cls mh (MultihostHost.role host) host) w).
Proof.
  intros Hh Hk.
  assert (Hfail : MultihostDomain.create_role c mh host w =
            (Err (Exc ValueError
                    ("Unexpected role: " +:+ py_str (MultihostHost.role host))), w)).
  { unfold MultihostDomain.create_role.
    unfold bind at 1, lift at 1.
    rewrite (strmap_not_a_key _ _ Hh Hk). reflexivity. }
  split; [exact Hfail|].
  intros c2 s cls Hs Hc2. rewrite Hfail. simpl.
  unfold MultihostDomain.create_role. rewrite Hs.
  unfold bind at 1, lift at 1. simpl. rewrite Hc2. simpl.
  unfold bind at 1, lift at 1. reflexivity.
Qed.
End DomainClaims.

(** A run of C4 as amended: no host class is mapped to "r1", and the
    complete entry becomes a generic host, connected. *)
Lemma unknown_role_falls_back_to_generic_host_witness :
  dict_lookup "role" (Sample.entry []) = Some (PStr "r1") /\
  Sample.no_mappings.(MultihostDomain.role_to_host_type) !! "r1" = None /\
  MultihostDomain.create_host Sample.no_mappings Sample.domain
    (Sample.entry []) Sample.world0 =
  (Ok (Entry.host "MultihostHost" Sample.domain (Sample.entry [])
         MultihostHost.Linux),
   mkWorld ["connect"] ∅
     [EvNewHost "MultihostHost" (Sample.entry []);
      EvSSHClient (Sample.client SSHBashProcess);
      EvCLIBuilder (Sample.client SSHBashProcess);
      EvSSHConnect (Sample.client SSHBashProcess)]).
Proof.
  split; [reflexivity|]. split; [reflexivity|].
  pose proof (proj1 (unknown_role_falls_back_to_generic_host
                       (Env := Sample.Env) Sample.no_mappings Sample.domain
                       (Sample.entry []) Sample.world0)
                (PStr "r1") eq_refl eq_refl eq_refl
                (fun s _ => lookup_empty s)) as (_ & _ & Hok).
  exact (Hok MultihostHost.Linux eq_refl eq_refl eq_refl).
Defined.

(** A run of C5: no role class is mapped to "r1"; the attempt fails and
    changes nothing, and the same host then gets its role from a mapping that
    has "r1". *)
Lemma unknown_role_has_no_role_object_witness :
  hashable (MultihostHost.role (Sample.host MultihostHost.Linux (PList []))) = true
  /\
  MultihostDomain.create_role Sample.no_mappings Sample.fixture
    (Sample.host MultihostHost.Linux (PList [])) Sample.world0 =
  (Err (Exc ValueError "Unexpected role: r1"), Sample.world0)
  /\
  MultihostDomain.create_role Sample.r1_mapped Sample.fixture
    (Sample.host MultihostHost.Linux (PList []))
    (snd (MultihostDomain.create_role Sample.no_mappings Sample.fixture
            (Sample.host MultihostHost.Linux (PList [])) Sample.world0)) =
  (Ok (MultihostRole.__init__ Sample.fixture (PStr "r1")
         (Sample.host MultihostHost.Linux (PList []))),
   mkWorld [] ∅ [EvNewRole "MultihostRole" (PStr "r1") (PStr "h1")]).
Proof.
  split; [reflexivity|].
  pose proof (unknown_role_has_no_role_object (Env := Sample.Env)
                Sample.no_mappings Sample.fixture
                (Sample.host MultihostHost.Linux (PList [])) Sample.world0
                eq_refl (fun s _ => lookup_empty s)) as (Hfail & Hnext).
  split; [exact Hfail|].
  rewrite (Hnext Sample.r1_mapped "r1" MultihostRole.MultihostRole eq_refl eq_refl).
  reflexivity.
Defined.

(** ** The local filesystem *)

Section FilesystemFacts.
Implicit Types (fs : gmap (list string) node) (p q : list string).

Lemma fs_node_weaken fs fs' q n :
  fs ⊆ fs' -> LocalFS.fs_node fs q = Some n -> LocalFS.fs_node fs' q = Some n.
Proof.
  unfold LocalFS.fs_node. destruct (LocalFS.is_anchor q); [auto|].
  intros Hsub Hq. eapply lookup_weaken; eauto.
Qed.

Lemma walk_weaken fs fs' rest : forall seen,
  fs ⊆ fs' -> LocalFS.walk fs seen rest = Ok tt ->
  LocalFS.walk fs' seen rest = Ok tt.
Proof.
  induction rest as [|c rest IH]; simpl; intros seen Hsub Hw; [auto|].
  destruct (LocalFS.fs_node fs (seen ++ [c])) as [[|]|] eqn:E; try discriminate.
  rewrite (fs_node_weaken _ _ _ _ Hsub E). auto.
Qed.

Lemma walk_app fs l1 : forall seen l2,
  LocalFS.walk fs seen (l1 ++ l2) =
  match LocalFS.walk fs seen l1 with
  | Ok _ => LocalFS.walk fs (seen ++ l1) l2
  | Err e => Err e
  end.
Proof.
  induction l1 as [|c l1 IH]; simpl; intros seen l2.
  - now rewrite app_nil_r.
  - destruct (LocalFS.fs_node fs (seen ++ [c])) as [[|]|]; try reflexivity.
    rewrite IH, <- app_assoc. reflexivity.
Qed.

Lemma os_mkdir_ok p fs fs' :
  LocalFS.os_mkdir p fs = Ok fs' ->
  LocalFS.walk fs [] (removelast p) = Ok tt /\
  LocalFS.fs_node fs p = None /\
  fs' = <[p := Dir]> fs.
Proof.
  unfold LocalFS.os_mkdir.
  destruct (LocalFS.walk fs [] (removelast p)) as [[]|x]; [|discriminate].
  destruct (LocalFS.fs_node fs p); [discriminate|].
  intros Hok. inversion Hok. auto.
Qed.

Lemma fs_node_none fs p :
  LocalFS.fs_node fs p = None -> LocalFS.is_anchor p = false /\ fs !! p = None.
Proof.
  unfold LocalFS.fs_node. destruct (LocalFS.is_anchor p); [discriminate|auto].
Qed.

Lemma os_mkdir_grows p fs fs' :
  LocalFS.os_mkdir p fs = Ok fs' -> fs ⊆ fs' /\ LocalFS.is_dir fs' p = true.
Proof.
  intros Hok. destruct (os_mkdir_ok _ _ _ Hok) as (Hw & Hn & ->).
  destruct (fs_node_none _ _ Hn) as [Ha Hl].
  assert (Hsub : fs ⊆ <[p := Dir]> fs) by (now apply insert_subseteq).
  split; [exact Hsub|].
  unfold LocalFS.is_dir. rewrite (walk_weaken _ _ _ _ Hsub Hw).
  unfold LocalFS.fs_node. rewrite Ha, lookup_insert_eq. reflexivity.
Qed.

Lemma mkdir_leaf_grows exist_ok p fs fs' :
  LocalFS.mkdir_leaf exist_ok p fs = Ok fs' ->
  fs ⊆ fs' /\ LocalFS.is_dir fs' p = true.
Proof.
  unfold LocalFS.mkdir_leaf, LocalFS.mkdir_oserror.
  destruct (LocalFS.os_mkdir p fs) as [fs1|x] eqn:Hos.
  - intros Hok. inversion Hok; subst. now apply os_mkdir_grows.
  - destruct (isinstance x FileNotFoundError); [discriminate|].
    destruct exist_ok; [|discriminate]. simpl.
    destruct (LocalFS.is_dir fs p) eqn:Hd; [|discriminate].
    intros Hok. inversion Hok; subst. auto.
Qed.

Lemma mkdir_rev_grows rp : forall parents exist_ok fs fs',
  LocalFS.mkdir_rev parents exist_ok rp fs = Ok fs' ->
  fs ⊆ fs' /\ LocalFS.is_dir fs' (rev rp) = true.
Proof.
  induction rp as [|c rp IH]; intros parents exist_ok fs fs'.
  - cbn [LocalFS.mkdir_rev].
    destruct (LocalFS.os_mkdir (rev []) fs) as [fs1|x] eqn:Hos.
    + intros Hok. inversion Hok; subst. now apply os_mkdir_grows.
    + destruct (isinstance x FileNotFoundError); [discriminate|].
      unfold LocalFS.mkdir_oserror. destruct exist_ok; [|discriminate].
      cbn [negb orb]. destruct (LocalFS.is_dir fs (rev [])) eqn:Hd;
        [|discriminate].
      intros Hok. inversion Hok; subst. auto.
  - cbn [LocalFS.mkdir_rev].
    destruct (LocalFS.os_mkdir (rev (c :: rp)) fs) as [fs1|x] eqn:Hos.
    + intros Hok. inversion Hok; subst. now apply os_mkdir_grows.
    + destruct (isinstance x FileNotFoundError).
      * destruct parents; [|discriminate]. cbn [negb].
        destruct (LocalFS.mkdir_rev true true rp fs) as [fs1|y] eqn:Hp;
          [|discriminate].
        intros Hleaf. destruct (IH _ _ _ _ Hp) as [Hsub _].
        destruct (mkdir_leaf_grows _ _ _ _ Hleaf) as [Hsub' Hd].
        split; [etrans; eauto|exact Hd].
      * unfold LocalFS.mkdir_oserror. destruct exist_ok; [|discriminate].
        cbn [negb orb]. destruct (LocalFS.is_dir fs (rev (c :: rp))) eqn:Hd;
          [|discriminate].
        intros Hok. inversion Hok; subst. auto.
Qed.

(** A successful [mkdir] keeps what was there and leaves a directory at
    the path. *)
Lemma mkdir_grows parents exist_ok p fs fs' :
  LocalFS.mkdir parents exist_ok p fs = Ok fs' ->
  fs ⊆ fs' /\ LocalFS.is_dir fs' p = true.
Proof.
  unfold LocalFS.mkdir. intros Hok.
  destruct (mkdir_rev_grows _ _ _ _ _ Hok) as [Hsub Hd].
  now rewrite rev_involutive in Hd.
Qed.

(** With [exist_ok], [mkdir] on a directory that is there changes
    nothing. *)
Lemma mkdir_exists parents p fs :
  LocalFS.is_dir fs p = true -> LocalFS.mkdir parents true p fs = Ok fs.
Proof.
  intros Hd. unfold LocalFS.mkdir.
  assert (Hos : exists x, LocalFS.os_mkdir (rev (rev p)) fs = Err x /\
                          isinstance x FileNotFoundError = false).
  { rewrite rev_involutive. unfold LocalFS.os_mkdir, LocalFS.is_dir in *.
    destruct (LocalFS.walk fs [] (removelast p)) as [[]|x]; [|discriminate].
    destruct (LocalFS.fs_node fs p) as [n|]; [|discriminate].
    eexists. split; reflexivity. }
  destruct Hos as (x & Hx & Hfnf).
  destruct (rev p) as [|c rp] eqn:Hr; cbn [LocalFS.mkdir_rev];
    rewrite Hx, Hfnf; unfold LocalFS.mkdir_oserror;
    rewrite <- Hr, rev_involutive, Hd; reflexivity.
Qed.

Lemma mkdir_idempotent p fs fs' :
  LocalFS.mkdir true true p fs = Ok fs' ->
  LocalFS.mkdir true true p fs' = Ok fs'.
Proof.
  intros Hok. apply mkdir_exists. now apply (mkdir_grows _ _ _ _ _ Hok).
Qed.

(** A directory that resolves has directories all the way down to it. *)
Lemma is_dir_prefix fs q r :
  LocalFS.is_dir fs (q ++ r) = true -> LocalFS.is_dir fs q = true.
Proof.
  destruct r as [|c r]; [now rewrite app_nil_r|].
  unfold LocalFS.is_dir at 1.
  rewrite removelast_app by discriminate.
  destruct (LocalFS.walk fs [] (q ++ removelast (c :: r))) as [[]|x] eqn:Hw;
    [|discriminate].
  intros _. rewrite walk_app in Hw.
  destruct (LocalFS.walk fs [] q) as [[]|x] eqn:Hq; [|discriminate].
  clear Hw. revert Hq. induction q as [|c' q' _] using rev_ind; intros Hq.
  - reflexivity.
  - unfold LocalFS.is_dir. rewrite removelast_last.
    rewrite walk_app in Hq.
    destruct (LocalFS.walk fs [] q') as [[]|x]; [|discriminate].
    simpl in Hq.
    destruct (LocalFS.fs_node fs (q' ++ [c'])) as [[|]|]; try discriminate.
    reflexivity.
Qed.

Lemma walk_error_class fs rest : forall seen x,
  LocalFS.walk fs seen rest = Err x -> isinstance x OSError = true.
Proof.
  induction rest as [|c rest IH]; simpl; intros seen x Hw; [discriminate|].
  destruct (LocalFS.fs_node fs (seen ++ [c])) as [[|]|]; eauto;
    inversion Hw; reflexivity.
Qed.

Lemma os_mkdir_error_class p fs x :
  LocalFS.os_mkdir p fs = Err x -> isinstance x OSError = true.
Proof.
  unfold LocalFS.os_mkdir.
  destruct (LocalFS.walk fs [] (removelast p)) as [[]|y] eqn:Hw.
  - destruct (LocalFS.fs_node fs p); intros Hx; inversion Hx; reflexivity.
  - intros Hx. inversion Hx; subst. eapply walk_error_class; eauto.
Qed.

Lemma mkdir_leaf_error_class exist_ok p fs x :
  LocalFS.mkdir_leaf exist_ok p fs = Err x -> isinstance x OSError = true.
Proof.
  unfold LocalFS.mkdir_leaf, LocalFS.mkdir_oserror.
  destruct (LocalFS.os_mkdir p fs) as [fs1|y] eqn:Hos; [discriminate|].
  pose proof (os_mkdir_error_class _ _ _ Hos) as Hy.
  destruct (isinstance y FileNotFoundError).
  - intros Hx. now inversion Hx; subst.
  - destruct (negb exist_ok || negb (LocalFS.is_dir fs p)); [|discriminate].
    intros Hx. now inversion Hx; subst.
Qed.

(** What [mkdir] raises is an [OSError]. *)
Lemma mkdir_rev_error_class rp : forall parents exist_ok fs x,
  LocalFS.mkdir_rev parents exist_ok rp fs = Err x ->
  isinstance x OSError = true.
Proof.
  induction rp as [|c rp IH]; intros parents exist_ok fs x;
    cbn [LocalFS.mkdir_rev];
    destruct (LocalFS.os_mkdir _ fs) as [fs1|y] eqn:Hos; try discriminate;
    pose proof (os_mkdir_error_class _ _ _ Hos) as Hy;
    unfold LocalFS.mkdir_oserror;
    destruct (isinstance y FileNotFoundError).
  - intros Hx. now inversion Hx; subst.
  - destruct (negb exist_ok || negb (LocalFS.is_dir fs _)); [|discriminate].
    intros Hx. now inversion Hx; subst.
  - destruct (negb parents).
    + intros Hx. now inversion Hx; subst.
    + destruct (LocalFS.mkdir_rev true true rp fs) as [fs1|z] eqn:Hp.
      * apply mkdir_leaf_error_class.
      * intros Hx. inversion Hx; subst. eapply IH; eauto.
  - destruct (negb exist_ok || negb (LocalFS.is_dir fs _)); [|discriminate].
    intros Hx. now inversion Hx; subst.
Qed.
End FilesystemFacts.

(** ** MultihostHost: artifacts *)

Section Artifacts.
Context {Env : Type} {builtins : Builtins}
        {transport : MultihostHost.Transport Env}.
Implicit Types (w : World Env) (self : MultihostHost.Host).

Lemma collect_artifacts_windows self dest w :
  MultihostHost.os self = MultihostHost.Windows ->
  truthy (MultihostHost.artifacts self) = true ->
  MultihostHost.collect_artifacts self dest w =
  match LocalFS.mkdir true true (LocalFS.Path dest) (fs w) with
  | Ok fs' => (Err Entry.not_supported, Entry.after_mkdir dest fs' w)
  | Err e => (Err e, Entry.after_mkdir dest (fs w) w)
  end.
Proof.
  intros Hos Ht. unfold MultihostHost.collect_artifacts.
  rewrite Ht, Hos. simpl.
  unfold bind at 1, LocalFS.Path_mkdir, bind, emit, LocalFS.on_fs. simpl.
  destruct (LocalFS.mkdir true true (LocalFS.Path dest) (fs w)); reflexivity.
Qed.

(** C8, amended.  On a Windows host with a non-empty artifacts list,
    [collect_artifacts] runs no remote command: the environment is as it
    was and the only call on record is the [mkdir] of the destination.  It
    raises [NotImplementedError] when that [mkdir] succeeds, and raises
    what [mkdir] raised when it does not.  On a host with an empty
    artifacts list it returns normally and the world is as it was: no
    filesystem or remote operation. *)
Theorem artifacts_windows_or_none self dest w :
  (MultihostHost.os self = MultihostHost.Windows ->
   forall x l, MultihostHost.artifacts self = PList (x :: l) ->
     env (snd (MultihostHost.collect_artifacts self dest w)) = env w /\
     trace (snd (MultihostHost.collect_artifacts self dest w)) =
       trace w ++ [EvMkdir dest true true] /\
     (forall fs',
         LocalFS.mkdir true true (LocalFS.Path dest) (fs w) = Ok fs' ->
         MultihostHost.collect_artifacts self dest w =
         (Err Entry.not_supported, Entry.after_mkdir dest fs' w)) /\
     (forall e,
         LocalFS.mkdir true true (LocalFS.Path dest) (fs w) = Err e ->
         MultihostHost.collect_artifacts self dest w =
         (Err e, Entry.after_mkdir dest (fs w) w)))
  /\
  (MultihostHost.artifacts self = PList [] ->
   MultihostHost.collect_artifacts self dest w = (Ok tt, w)).
Proof.
  split.
  - intros Hos x l Ha.
    assert (Ht : truthy (MultihostHost.artifacts self) = true)
      by (now rewrite Ha).
    rewrite (collect_artifacts_windows self dest w Hos Ht).
    destruct (LocalFS.mkdir true true (LocalFS.Path dest) (fs w)) as [fs'|e];
      repeat split; try reflexivity;
      intros ? Heq; inversion Heq; reflexivity.
  - intros Ha. unfold MultihostHost.collect_artifacts. rewrite Ha.
    reflexivity.
Qed.

(** C9.  On a Windows host with a non-empty artifacts list, whenever
    [collect_artifacts] raises [NotImplementedError] the destination
    directory has been created first, with [parents] and [exist_ok]: the
    filesystem left is the one [mkdir] produced, the destination and every
    directory on the way to it are there, what was there before still is,
    and a second [mkdir] changes nothing.  So the error path has a local
    side effect whenever the destination was not a directory already; and
    the error is raised whenever the [mkdir] succeeds. *)
Theorem windows_error_path_creates_directory self dest w x l :
  MultihostHost.os self = MultihostHost.Windows ->
  MultihostHost.artifacts self = PList (x :: l) ->
  (forall e w',
      MultihostHost.collect_artifacts self dest w = (Err e, w') ->
      exn_cls e = NotImplementedError ->
      LocalFS.mkdir true true (LocalFS.Path dest) (fs w) = Ok (fs w') /\
      LocalFS.is_dir (fs w') (LocalFS.Path dest) = true /\
      (forall q r, LocalFS.Path dest = q ++ r -> LocalFS.is_dir (fs w') q = true) /\
      fs w ⊆ fs w' /\
      LocalFS.mkdir true true (LocalFS.Path dest) (fs w') = Ok (fs w') /\
      (LocalFS.is_dir (fs w) (LocalFS.Path dest) = false -> fs w' <> fs w) /\
      trace w' = trace w ++ [EvMkdir dest true true] /\
      env w' = env w)
  /\
  (forall fs',
      LocalFS.mkdir true true (LocalFS.Path dest) (fs w) = Ok fs' ->
      MultihostHost.collect_artifacts self dest w =
      (Err Entry.not_supported, Entry.after_mkdir dest fs' w)).
Proof.
  intros Hos Ha.
  assert (Ht : truthy (MultihostHost.artifacts self) = true)
    by (now rewrite Ha).
  pose proof (collect_artifacts_windows self dest w Hos Ht) as Hc.
  split.
  - intros e w' Hr He. rewrite Hc in Hr.
    destruct (LocalFS.mkdir true true (LocalFS.Path dest) (fs w))
      as [fs'|y] eqn:Hm.
    + inversion Hr; subst. simpl.
      destruct (mkdir_grows _ _ _ _ _ Hm) as [Hsub Hd].
      repeat split; auto.
      * intros q r Hqr. rewrite Hqr in Hd. eapply is_dir_prefix; eauto.
      * eapply mkdir_idempotent; exact Hm.
      * intros Hnot Heq. rewrite Heq in Hd. congruence.
    + inversion Hr; subst. unfold LocalFS.mkdir in Hm.
      pose proof (mkdir_rev_error_class _ _ _ _ _ Hm) as Hcls.
      unfold isinstance in Hcls. rewrite He in Hcls. discriminate Hcls.
  - intros fs' Hm. now rewrite Hc, Hm.
Qed.
End Artifacts.

(** C8 fails when the destination cannot be created: a regular file is in
    the way, [mkdir] raises [FileExistsError], and that is what
    [collect_artifacts] raises. *)
Lemma windows_artifacts_with_file_in_the_way :
  MultihostHost.collect_artifacts
    (Sample.host MultihostHost.Windows (PList [PStr "C:/logs/app.log"]))
    "out" Sample.world_with_file =
  (Err (Exc FileExistsError "out"),
   mkWorld [] {[ ["out"] := File "notes" ]} [EvMkdir "out" true true])
  /\ ~ Stated.windows_artifacts_always_not_supported.
Proof.
  split; [reflexivity|].
  intros H.
  destruct (H Sample.Env Sample.builtins Sample.transport
              (Sample.host MultihostHost.Windows (PList [PStr "C:/logs/app.log"]))
              "out" Sample.world_with_file (PStr "C:/logs/app.log") []
              eq_refl eq_refl)
    as (e & w' & Hr & He).
  vm_compute in Hr. inversion Hr; subst. discriminate He.
Qed.

(** A run of C8 as amended, on a filesystem where the destination can be
    created. *)
Lemma artifacts_windows_or_none_witness :
  MultihostHost.collect_artifacts
    (Sample.host MultihostHost.Windows (PList [PStr "C:/logs/app.log"]))
    "artifacts/run1" Sample.world0 =
  (Err Entry.not_supported,
   mkWorld [] {[ ["artifacts"] := Dir; ["artifacts"; "run1"] := Dir ]}
           [EvMkdir "artifacts/run1" true true])
  /\
  MultihostHost.collect_artifacts
    (Sample.host MultihostHost.Linux (PList [])) "artifacts/run1" Sample.world0 =
  (Ok tt, Sample.world0).
Proof.
  split.
  - pose proof (proj1 (artifacts_windows_or_none (Env := Sample.Env)
                   (Sample.host MultihostHost.Windows (PList [PStr "C:/logs/app.log"]))
                   "artifacts/run1" Sample.world0)
                  eq_refl (PStr "C:/logs/app.log") [] eq_refl)
      as (_ & _ & Hok & _).
    rewrite (Hok {[ ["artifacts"] := Dir; ["artifacts"; "run1"] := Dir ]});
      [reflexivity|].
    vm_compute. reflexivity.
  - apply (proj2 (artifacts_windows_or_none (Env := Sample.Env)
                    (Sample.host MultihostHost.Linux (PList []))
                    "artifacts/run1" Sample.world0)).
    reflexivity.
Defined.

(** A run of C9: the error is raised, and the destination and its parent
    have been created on a filesystem that had neither. *)
Lemma windows_error_path_creates_directory_witness :
  MultihostHost.collect_artifacts
    (Sample.host MultihostHost.Windows (PList [PStr "C:/logs/app.log"]))
    "artifacts/run1" Sample.world0 =
  (Err Entry.not_supported,
   mkWorld [] {[ ["artifacts"] := Dir; ["artifacts"; "run1"] := Dir ]}
           [EvMkdir "artifacts/run1" true true])
  /\
  LocalFS.is_dir {[ ["artifacts"] := Dir; ["artifacts"; "run1"] := Dir ]}
    (LocalFS.Path "artifacts/run1") = true
  /\
  ({[ ["artifacts"] := Dir; ["artifacts"; "run1"] := Dir ]}
     : gmap (list string) node) <> ∅.
Proof.
  assert (Hrun :
    MultihostHost.collect_artifacts
      (Sample.host MultihostHost.Windows (PList [PStr "C:/logs/app.log"]))
      "artifacts/run1" Sample.world0 =
    (Err Entry.not_supported,
     mkWorld [] {[ ["artifacts"] := Dir; ["artifacts"; "run1"] := Dir ]}
             [EvMkdir "artifacts/run1" true true]))
    by (vm_compute; reflexivity).
  pose proof (proj1 (windows_error_path_creates_directory (Env := Sample.Env)
                (Sample.host MultihostHost.Windows (PList [PStr "C:/logs/app.log"]))
                "artifacts/run1" Sample.world0 (PStr "C:/logs/app.log") []
                eq_refl eq_refl)
               _ _ Hrun eq_refl)
    as (_ & Hdir & _ & _ & _ & Hchanged & _).
  split; [exact Hrun|]. split; [exact Hdir|].
  apply Hchanged. vm_compute. reflexivity.
Defined.

(** ** MultihostHost: what the constructor returns and what it leaves behind *)

Section ConstructorOutcomes.
Context {Env : Type} {builtins : Builtins}
        {transport : MultihostHost.Transport Env}.
Implicit Types (w : World Env) (d : pydict).

Lemma check_required_passed required d w w' :
  MultihostHost.check_required required d w = (Ok tt, w') ->
  forall f, In f required ->
    exists v, MultihostHost.is_present f (PDict d) = Ok v /\ truthy v = true.
Proof.
  unfold MultihostHost.check_required.
  revert w. induction required as [|g required IH]; intros w Hc f Hf;
    [destruct Hf|].
  simpl in Hc. unfold bind at 1, bind at 1, lift in Hc.
  destruct (MultihostHost.is_present g (PDict d)) as [v|x] eqn:Hg;
    [|discriminate].
  destruct (truthy v) eqn:Hv; simpl in Hc; [|discriminate].
  destruct Hf as [<-|Hf]; [eauto|]. eapply IH; eauto.
Qed.

Lemma flat_passed f d v :
  Entry.flat f -> MultihostHost.is_present f (PDict d) = Ok v ->
  truthy v = true -> dict_lookup f d = Some v.
Proof.
  intros Hf Hp Hv. rewrite (is_present_flat _ _ Hf) in Hp. simpl in Hp.
  unfold dict_has, dict_getitem in Hp.
  destruct (dict_lookup f d) as [x|]; inversion Hp; subst;
    [reflexivity|discriminate].
Qed.

(** The constructor either stops before it has built anything, the world
    being as it was, or gets as far as building its client and, unless lazy,
    connecting it. *)
Lemma init_cases name required domain d w r w' :
  MultihostHost.__init__ name required domain d w = (r, w') ->
  (w' = w /\ exists e, r = Err e) \/
  (exists os,
      MultihostHost.check_required required d w = (Ok tt, w) /\
      MultihostHost.MultihostHostOS_of (Entry.os_word d) = Ok os /\
      w' = snd (Entry.connected domain (Entry.client domain d os) w) /\
      r = match fst (Entry.connected domain (Entry.client domain d os) w) with
          | Ok _ => Ok (Entry.host name domain d os)
          | Err x => Err x
          end).
Proof.
  intros Hinit.
  destruct (MultihostHost.check_required required d w) as [[[]|x] w1] eqn:Hc.
  - pose proof (check_required_world _ _ _ _ _ Hc) as ->.
    destruct (dict_lookup "hostname" d) as [v1|] eqn:E1;
      [destruct (dict_lookup "role" d) as [v2|] eqn:E2;
       [destruct (dict_lookup "username" d) as [v3|] eqn:E3;
        [destruct (dict_lookup "password" d) as [v4|] eqn:E4|]|]|].
    + assert (Hb : forall f, In f MultihostHost.required_fields ->
                     dict_lookup f d <> None)
        by (intros f [<-|[<-|[<-|[<-|[]]]]]; congruence).
      rewrite (init_after_check _ _ _ _ _ Hc Hb) in Hinit.
      destruct (MultihostHost.MultihostHostOS_of (Entry.os_word d))
        as [os|x] eqn:Hos.
      * right. exists os. inversion Hinit; subst. auto.
      * left. inversion Hinit; subst. eauto.
    + left. unfold MultihostHost.__init__ in Hinit.
      rewrite (bind_ok _ _ _ _ _ Hc) in Hinit.
      unfold bind, lift, dict_getitem in Hinit.
      rewrite E1, E2, E3, E4 in Hinit. inversion Hinit; subst. eauto.
    + left. unfold MultihostHost.__init__ in Hinit.
      rewrite (bind_ok _ _ _ _ _ Hc) in Hinit.
      unfold bind, lift, dict_getitem in Hinit.
      rewrite E1, E2, E3 in Hinit. inversion Hinit; subst. eauto.
    + left. unfold MultihostHost.__init__ in Hinit.
      rewrite (bind_ok _ _ _ _ _ Hc) in Hinit.
      unfold bind, lift, dict_getitem in Hinit.
      rewrite E1, E2 in Hinit. inversion Hinit; subst. eauto.
    + left. unfold MultihostHost.__init__ in Hinit.
      rewrite (bind_ok _ _ _ _ _ Hc) in Hinit.
      unfold bind, lift, dict_getitem in Hinit.
      rewrite E1 in Hinit. inversion Hinit; subst. eauto.
  - pose proof (check_required_world _ _ _ _ _ Hc) as ->. left.
    unfold MultihostHost.__init__ in Hinit.
    rewrite (bind_err _ _ _ _ _ Hc) in Hinit. inversion Hinit; subst. eauto.
Qed.

End ConstructorOutcomes.

Section ConstructorProperties.
Context {Env : Type} {builtins : Builtins}
        {transport : MultihostHost.Transport Env}.
Implicit Types (w : World Env) (d : pydict).

(** X1.  Every host the constructor returns, for a class that keeps the four
    required fields of the base class, has the hostname, role, username and
    password of its entry, none of them blank, the name of its class and the
    logger of its domain. *)
Theorem constructed_host_has_its_required_fields
    (name : string) (required : list string)
    (domain : MultihostHost.DomainRef) d w h w' :
  (forall f, In f MultihostHost.required_fields -> In f required) ->
  MultihostHost.__init__ name required domain d w = (Ok h, w') ->
  (dict_lookup "hostname" d = Some (MultihostHost.hostname h) /\
   truthy (MultihostHost.hostname h) = true) /\
  (dict_lookup "role" d = Some (MultihostHost.role h) /\
   truthy (MultihostHost.role h) = true) /\
  (dict_lookup "username" d = Some (MultihostHost.username h) /\
   truthy (MultihostHost.username h) = true) /\
  (dict_lookup "password" d = Some (MultihostHost.password h) /\
   truthy (MultihostHost.password h) = true) /\
  MultihostHost.cls h = name /\
  MultihostHost.logger h = MultihostHost.dom_logger domain.
Proof.
  intros Hbase Hinit.
  destruct (init_cases _ _ _ _ _ _ _ Hinit)
    as [(_ & e & He)|(os & Hc & Hos & _ & Hr)]; [discriminate|].
  destruct (fst (Entry.connected domain (Entry.client domain d os) w));
    [|discriminate].
  inversion Hr; subst h; clear Hr.
  assert (Hf : forall f, In f MultihostHost.required_fields ->
                 dict_lookup f d = Some (dict_get f PNone d) /\
                 truthy (dict_get f PNone d) = true).
  { intros f Hf.
    destruct (check_required_passed _ _ _ _ Hc f (Hbase f Hf)) as (v & Hv & Ht).
    assert (Hff : Entry.flat f)
      by (destruct Hf as [<-|[<-|[<-|[<-|[]]]]]; reflexivity).
    pose proof (flat_passed f d v Hff Hv Ht) as Hl.
    unfold dict_get. rewrite Hl. auto. }
  simpl. repeat split; try (apply Hf; simpl; tauto).
Qed.

(** X4.  The client of a constructed host is addressed by the "ip" of the entry
    when there is a non-blank one and by the hostname otherwise, carries the
    username and password of the entry and the logger of the domain, and is
    the client the command-line builder is made over.  Without an "ip" key
    the attribute [ip] is the empty text. *)
Theorem client_address_prefers_ip
    (name : string) (required : list string)
    (domain : MultihostHost.DomainRef) d w h w' :
  MultihostHost.__init__ name required domain d w = (Ok h, w') ->
  ssh_host (MultihostHost.ssh h) =
    (if truthy (MultihostHost.ip h) then MultihostHost.ip h
     else MultihostHost.hostname h) /\
  (dict_lookup "ip" d = None ->
   MultihostHost.ip h = PStr EmptyString /\
   ssh_host (MultihostHost.ssh h) = MultihostHost.hostname h) /\
  (forall v, dict_lookup "ip" d = Some v -> MultihostHost.ip h = v) /\
  ssh_user (MultihostHost.ssh h) = MultihostHost.username h /\
  ssh_password (MultihostHost.ssh h) = MultihostHost.password h /\
  ssh_logger (MultihostHost.ssh h) = MultihostHost.dom_logger domain /\
  MultihostHost.cli_ssh (MultihostHost.cli h) = MultihostHost.ssh h /\
  In (EvSSHClient (MultihostHost.ssh h)) (trace w').
Proof.
  intros Hinit.
  destruct (init_ok_inv _ _ _ _ _ _ _ Hinit) as (os & _ & -> & Hc).
  simpl. unfold MultihostHost._get_ssh_host, dict_get.
  split; [reflexivity|].
  split; [intros ->; split; reflexivity|].
  split; [intros v ->; reflexivity|].
  do 4 (split; [reflexivity|]).
  eapply connected_trace; eauto.
Qed.

(** X5.  With [lazy_ssh] the constructor never connects: whatever it returns or
    raises, the environment is as it was and no connection is on record.
    Without it, a constructor that returns has connected the client of the
    host exactly once, after building it and the command-line builder.  The
    local filesystem is never touched. *)
Theorem connection_is_lazy_or_made_once
    (name : string) (required : list string)
    (domain : MultihostHost.DomainRef) d w r w' :
  MultihostHost.__init__ name required domain d w = (r, w') ->
  fs w' = fs w /\
  exists events,
    trace w' = trace w ++ events /\
    (MultihostHost.dom_lazy_ssh domain = true ->
     env w' = env w /\ forall c, ~ In (EvSSHConnect c) events) /\
    (MultihostHost.dom_lazy_ssh domain = false ->
     forall h, r = Ok h ->
       events = [EvSSHClient (MultihostHost.ssh h);
                 EvCLIBuilder (MultihostHost.ssh h);
                 EvSSHConnect (MultihostHost.ssh h)] /\
       MultihostHost.ssh_connect (MultihostHost.ssh h) (env w) =
         (Ok tt, env w')).
Proof.
  intros Hinit.
  destruct (init_cases _ _ _ _ _ _ _ Hinit)
    as [(-> & e & ->)|(os & _ & _ & -> & ->)].
  - split; [reflexivity|]. exists []. split; [now rewrite app_nil_r|].
    split.
    + intros _. split; [reflexivity|]. intros c [].
    + intros _ h Hh. discriminate Hh.
  - unfold Entry.connected.
    destruct (MultihostHost.dom_lazy_ssh domain) eqn:Hl; simpl.
    + split; [reflexivity|]. eexists. split; [reflexivity|].
      split; [|discriminate]. intros _. split; [reflexivity|].
      intros c [Hc|[Hc|[]]]; discriminate.
    + split; [reflexivity|]. eexists.
      split; [rewrite <- app_assoc; reflexivity|].
      split; [discriminate|]. intros _ h Hh.
      destruct (MultihostHost.ssh_connect (Entry.client domain d os) (env w))
        as [[[]|x] e'] eqn:Hcon; simpl in Hh; [|discriminate].
      inversion Hh; subst h. simpl. rewrite Hcon. auto.
Qed.

(** X6.  A constructor that raises has either changed nothing at all (the
    validation of the entry failed: a required field, a key it reads, the
    operating system) or failed in the connection it made, the only step
    that can fail once a client is built; with [lazy_ssh] it is always the
    former. *)
Theorem constructor_fails_cleanly_or_in_connect
    (name : string) (required : list string)
    (domain : MultihostHost.DomainRef) d w e w' :
  MultihostHost.__init__ name required domain d w = (Err e, w') ->
  w' = w \/
  (MultihostHost.dom_lazy_ssh domain = false /\
   exists os,
     MultihostHost.MultihostHostOS_of (Entry.os_word d) = Ok os /\
     MultihostHost.ssh_connect (Entry.client domain d os) (env w) =
       (Err e, env w') /\
     trace w' = trace w ++ [EvSSHClient (Entry.client domain d os);
                            EvCLIBuilder (Entry.client domain d os);
                            EvSSHConnect (Entry.client domain d os)] /\
     fs w' = fs w).
Proof.
  intros Hinit.
  destruct (init_cases _ _ _ _ _ _ _ Hinit)
    as [(-> & _)|(os & _ & Hos & -> & Hr)]; [auto|].
  right. unfold Entry.connected in *.
  destruct (MultihostHost.dom_lazy_ssh domain); simpl in *; [discriminate|].
  split; [reflexivity|]. exists os. split; [exact Hos|].
  destruct (MultihostHost.ssh_connect (Entry.client domain d os) (env w))
    as [[[]|x] e'] eqn:Hcon; simpl in *; [discriminate|].
  inversion Hr; subst. rewrite <- app_assoc. auto.
Qed.

(** X7.  A host built from an entry without "artifacts" has the empty list of
    artifacts, and without "config" the empty mapping; so collecting the
    artifacts of such a host does nothing at all, whatever the destination
    and the state of the world. *)
Theorem host_without_artifacts_collects_nothing
    (name : string) (required : list string)
    (domain : MultihostHost.DomainRef) d w h w' :
  MultihostHost.__init__ name required domain d w = (Ok h, w') ->
  (dict_lookup "config" d = None -> MultihostHost.config h = PDict []) /\
  (dict_lookup "artifacts" d = None ->
   MultihostHost.artifacts h = PList [] /\
   forall dest w2, MultihostHost.collect_artifacts h dest w2 = (Ok tt, w2)).
Proof.
  intros Hinit.
  destruct (init_ok_inv _ _ _ _ _ _ _ Hinit) as (os & _ & -> & _).
  simpl. unfold dict_get. split; [intros ->; reflexivity|].
  intros Ha. split; [now rewrite Ha|].
  intros dest w2. unfold MultihostHost.collect_artifacts. simpl.
  unfold dict_get. rewrite Ha. reflexivity.
Qed.

End ConstructorProperties.

(** A run: the sample entry gives a host with its four fields. *)
Lemma constructed_host_has_its_required_fields_witness :
  MultihostHost.__init__ "MultihostHost" MultihostHost.required_fields
    Sample.lazy_domain (Sample.entry []) Sample.world0 =
  (Ok (Sample.built Sample.lazy_domain (Sample.entry []) MultihostHost.Linux),
   snd (MultihostHost.__init__ "MultihostHost" MultihostHost.required_fields
          Sample.lazy_domain (Sample.entry []) Sample.world0))
  /\
  dict_lookup "hostname" (Sample.entry []) = Some (PStr "h1") /\
  truthy (PStr "h1") = true.
Proof.
  assert (Hrun :
    MultihostHost.__init__ "MultihostHost" MultihostHost.required_fields
      Sample.lazy_domain (Sample.entry []) Sample.world0 =
    (Ok (Sample.built Sample.lazy_domain (Sample.entry []) MultihostHost.Linux),
     snd (MultihostHost.__init__ "MultihostHost" MultihostHost.required_fields
            Sample.lazy_domain (Sample.entry []) Sample.world0)))
    by (vm_compute; reflexivity).
  split; [exact Hrun|].
  exact (proj1 (constructed_host_has_its_required_fields (Env := Sample.Env)
                  "MultihostHost" MultihostHost.required_fields
                  Sample.lazy_domain (Sample.entry []) Sample.world0 _ _
                  (fun f Hf => Hf) Hrun)).
Defined.

(** A run: the entry gives "10.0.0.5" as its ip, and the client is addressed
    by it, not by the hostname "h1". *)
Lemma client_address_prefers_ip_witness :
  ssh_host (MultihostHost.ssh
              (Sample.built Sample.lazy_domain
                 (Sample.entry [("ip", PStr "10.0.0.5")]) MultihostHost.Linux)) =
  PStr "10.0.0.5".
Proof.
  assert (Hrun :
    MultihostHost.__init__ "MultihostHost" MultihostHost.required_fields
      Sample.lazy_domain (Sample.entry [("ip", PStr "10.0.0.5")]) Sample.world0 =
    (Ok (Sample.built Sample.lazy_domain
           (Sample.entry [("ip", PStr "10.0.0.5")]) MultihostHost.Linux),
     snd (MultihostHost.__init__ "MultihostHost" MultihostHost.required_fields
            Sample.lazy_domain (Sample.entry [("ip", PStr "10.0.0.5")])
            Sample.world0)))
    by (vm_compute; reflexivity).
  exact (proj1 (client_address_prefers_ip (Env := Sample.Env) _ _ _ _ _ _ _ Hrun)).
Defined.

(** A run: in the eager sample domain the client is connected once. *)
Lemma connection_is_lazy_or_made_once_witness :
  exists events,
    trace (snd (MultihostHost.__init__ "MultihostHost"
                  MultihostHost.required_fields Sample.domain
                  (Sample.entry []) Sample.world0)) =
      trace Sample.world0 ++ events /\
    events = [EvSSHClient (Sample.client SSHBashProcess);
              EvCLIBuilder (Sample.client SSHBashProcess);
              EvSSHConnect (Sample.client SSHBashProcess)].
Proof.
  assert (Hrun :
    MultihostHost.__init__ "MultihostHost" MultihostHost.required_fields
      Sample.domain (Sample.entry []) Sample.world0 =
    (Ok (Sample.built Sample.domain (Sample.entry []) MultihostHost.Linux),
     snd (MultihostHost.__init__ "MultihostHost" MultihostHost.required_fields
            Sample.domain (Sample.entry []) Sample.world0)))
    by (vm_compute; reflexivity).
  destruct (connection_is_lazy_or_made_once (Env := Sample.Env)
              "MultihostHost" MultihostHost.required_fields Sample.domain
              (Sample.entry []) Sample.world0 _ _ Hrun)
    as (_ & events & Htrace & _ & Heager).
  exists events. split; [exact Htrace|].
  exact (proj1 (Heager eq_refl _ eq_refl)).
Defined.

(** A run: with a transport that refuses the connection, the complete
    sample entry fails in the connection, after the client is built. *)
Lemma constructor_fails_cleanly_or_in_connect_witness :
  snd (@MultihostHost.__init__ Sample.Env Sample.builtins Sample.refusing
         "MultihostHost" MultihostHost.required_fields Sample.domain
         (Sample.entry []) Sample.world0) = Sample.world0
  \/
  (MultihostHost.dom_lazy_ssh Sample.domain = false /\
   exists os,
     MultihostHost.MultihostHostOS_of (Entry.os_word (Sample.entry [])) = Ok os /\
     @MultihostHost.ssh_connect Sample.Env Sample.refusing
       (Entry.client Sample.domain (Sample.entry []) os) [] =
       (Err (Exc OSError "connection refused"), ["connect"]) /\
     trace (snd (@MultihostHost.__init__ Sample.Env Sample.builtins
                   Sample.refusing "MultihostHost"
                   MultihostHost.required_fields Sample.domain
                   (Sample.entry []) Sample.world0)) =
       [] ++ [EvSSHClient (Entry.client Sample.domain (Sample.entry []) os);
              EvCLIBuilder (Entry.client Sample.domain (Sample.entry []) os);
              EvSSHConnect (Entry.client Sample.domain (Sample.entry []) os)] /\
     fs (snd (@MultihostHost.__init__ Sample.Env Sample.builtins
                Sample.refusing "MultihostHost"
                MultihostHost.required_fields Sample.domain
                (Sample.entry []) Sample.world0)) = ∅).
Proof.
  assert (Hrun :
    @MultihostHost.__init__ Sample.Env Sample.builtins Sample.refusing
      "MultihostHost" MultihostHost.required_fields Sample.domain
      (Sample.entry []) Sample.world0 =
    (Err (Exc OSError "connection refused"),
     snd (@MultihostHost.__init__ Sample.Env Sample.builtins Sample.refusing
            "MultihostHost" MultihostHost.required_fields Sample.domain
            (Sample.entry []) Sample.world0)))
    by (vm_compute; reflexivity).
  exact (@constructor_fails_cleanly_or_in_connect Sample.Env Sample.builtins
           Sample.refusing "MultihostHost" MultihostHost.required_fields
           Sample.domain (Sample.entry []) Sample.world0 _ _ Hrun).
Defined.

(** A run: the sample entry names no artifacts, and collecting them into
    any directory does nothing. *)
Lemma host_without_artifacts_collects_nothing_witness :
  MultihostHost.collect_artifacts
    (Sample.built Sample.lazy_domain (Sample.entry []) MultihostHost.Linux)
    "artifacts/run1" Sample.world_with_file =
  (Ok tt, Sample.world_with_file).
Proof.
  assert (Hrun :
    MultihostHost.__init__ "MultihostHost" MultihostHost.required_fields
      Sample.lazy_domain (Sample.entry []) Sample.world0 =
    (Ok (Sample.built Sample.lazy_domain (Sample.entry []) MultihostHost.Linux),
     snd (MultihostHost.__init__ "MultihostHost" MultihostHost.required_fields
            Sample.lazy_domain (Sample.entry []) Sample.world0)))
    by (vm_compute; reflexivity).
  exact (proj2 (proj2 (host_without_artifacts_collects_nothing
                         (Env := Sample.Env) _ _ _ _ _ _ _ Hrun) eq_refl)
           "artifacts/run1" Sample.world_with_file).
Defined.

(** ** MultihostHost: artifacts of a Linux host *)

Section PathFacts.

Lemma split_slash_nonempty s : LocalFS.split_slash s <> [].
Proof.
  destruct s as [|c s]; simpl; [discriminate|].
  destruct (Ascii.eqb c "/"); [discriminate|].
  destruct (LocalFS.split_slash s); discriminate.
Qed.

Lemma split_slash_app a b :
  LocalFS.split_slash (a +:+ String "/" b) =
  LocalFS.split_slash a ++ LocalFS.split_slash b.
Proof.
  induction a as [|c a IH]; [reflexivity|].
  simpl.
  destruct (Ascii.eqb c "/"); [now rewrite IH|].
  rewrite IH.
  pose proof (split_slash_nonempty a) as Hne.
  destruct (LocalFS.split_slash a) as [|x xs]; [congruence|reflexivity].
Qed.

Lemma flat_app a b : Entry.flat a -> Entry.flat b -> Entry.flat (a +:+ b).
Proof.
  unfold Entry.flat. induction a as [|c a IH]; intros Ha Hb; [exact Hb|].
  simpl in *. destruct (Ascii.eqb c "/"); [discriminate|].
  destruct (split_once a) as [[k sp]|]; [discriminate|].
  now rewrite IH.
Qed.

(** The file [name] under the directory [dest]. *)
Lemma Path_under dest name :
  dest <> EmptyString -> Entry.flat name ->
  name <> EmptyString -> name <> "." ->
  LocalFS.Path (dest +:+ "/" +:+ name) = LocalFS.Path dest ++ [name].
Proof.
  intros Hd Hf Hn Hdot. unfold LocalFS.Path.
  change ("/" +:+ name) with (String "/" name).
  rewrite split_slash_app, filter_app.
  pose proof (flat_path _ Hf) as Hp. unfold Entry.field_path in Hp. rewrite Hp.
  assert (Hone : filter (fun c : string => c <> EmptyString /\ c <> ".") [name]
                 = [name]).
  { rewrite filter_cons, decide_True by auto. reflexivity. }
  rewrite Hone.
  destruct dest as [|c dest]; [congruence|].
  simpl.
  destruct c as [[] [] [] [] [] [] [] []]; reflexivity.
Qed.

End PathFacts.

Section LinuxArtifacts.
Context {Env : Type} {builtins : Builtins}
        {transport : MultihostHost.Transport Env}.
Implicit Types (w : World Env) (self : MultihostHost.Host).

(** [collect_artifacts] on a Linux host with artifacts, stage by stage. *)
Lemma collect_artifacts_linux self dest w x l :
  MultihostHost.os self = MultihostHost.Linux ->
  MultihostHost.artifacts self = PList (x :: l) ->
  MultihostHost.collect_artifacts self dest w =
  match LocalFS.mkdir true true (LocalFS.Path dest) (fs w) with
  | Err e => (Err e, Entry.after_mkdir dest (fs w) w)
  | Ok fs1 =>
      let ran := MultihostHost.ssh_run (MultihostHost.ssh self)
                   (Entry.fetch (x :: l)) SSHLog_Error (env w) in
      let called := trace w ++
                    [EvMkdir dest true true;
                     EvSSHRun (MultihostHost.ssh self) (Entry.fetch (x :: l))
                              SSHLog_Error] in
      match fst ran with
      | Err e => (Err e, mkWorld (snd ran) fs1 called)
      | Ok result =>
          let opened := called ++ [EvOpenWrite (Entry.archive dest self)] in
          match LocalFS.open_wb (LocalFS.Path (Entry.archive dest self)) fs1 with
          | Err e => (Err e, mkWorld (snd ran) fs1 opened)
          | Ok fs2 =>
              match b64decode (stdout result) with
              | Err e => (Err e, mkWorld (snd ran) fs2 opened)
              | Ok data =>
                  (Ok tt,
                   mkWorld (snd ran)
                     (LocalFS.write (LocalFS.Path (Entry.archive dest self))
                                    data fs2)
                     opened)
              end
          end
      end
  end.
Proof.
  intros Hos Ha. unfold MultihostHost.collect_artifacts.
  rewrite Ha, Hos. cbn [truthy negb].
  unfold bind at 1, LocalFS.Path_mkdir, bind at 1, emit, LocalFS.on_fs.
  cbn [fs env trace].
  destruct (LocalFS.mkdir true true (LocalFS.Path dest) (fs w)) as [fs1|e];
    [|reflexivity].
  unfold bind at 1, bind at 1, lift, py_iter, ret.
  unfold bind at 1. rewrite call_eq. cbn [fs env trace].
  fold (Entry.fetch (x :: l)).
  cbv zeta.
  destruct (MultihostHost.ssh_run _ _ _ _) as [[result|e] e2];
    cbn [fst snd]; [|now rewrite <- app_assoc].
  unfold bind, emit, LocalFS.on_fs, lift. cbn [fs env trace fst snd].
  change (dest +:+ "/" +:+ py_str (MultihostHost.role self) +:+ "_" +:+
          py_str (MultihostHost.hostname self) +:+ "." +:+ "tgz")
    with (Entry.archive dest self).
  rewrite <- !app_assoc. cbn [app].
  destruct (LocalFS.open_wb (LocalFS.Path (Entry.archive dest self)) fs1)
    as [fs2|e]; [|reflexivity].
  destruct (b64decode (stdout result)) as [data|e]; reflexivity.
Qed.


Lemma is_dir_walk (fs0 : gmap (list string) node) (p : list string) :
  LocalFS.is_dir fs0 p = true -> LocalFS.walk fs0 [] p = Ok tt.
Proof.
  destruct p as [|c p _] using rev_ind; [reflexivity|].
  unfold LocalFS.is_dir. rewrite removelast_last, walk_app.
  destruct (LocalFS.walk fs0 [] p) as [[]|y]; [|discriminate].
  cbn [LocalFS.walk app].
  destruct (LocalFS.fs_node fs0 (p ++ [c])) as [[|]|]; try discriminate.
  reflexivity.
Qed.

Lemma archive_name_flat self r hn :
  MultihostHost.role self = PStr r -> MultihostHost.hostname self = PStr hn ->
  Entry.flat r -> Entry.flat hn ->
  Entry.archive_name self = r +:+ "_" +:+ hn +:+ ".tgz" /\
  Entry.flat (Entry.archive_name self) /\
  Entry.archive_name self <> EmptyString /\
  Entry.archive_name self <> ".".
Proof.
  intros Hr Hh Fr Fh. unfold Entry.archive_name. rewrite Hr, Hh.
  cbn [py_str]. split; [reflexivity|]. split.
  - repeat apply flat_app; auto; reflexivity.
  - destruct r as [|c [|c' r]]; simpl; split; discriminate.
Qed.

(** Opening the archive under a destination that [mkdir] has made. *)
Lemma open_archive self (dest r hn : string)
    (fs0 fs1 : gmap (list string) node) :
  MultihostHost.role self = PStr r -> MultihostHost.hostname self = PStr hn ->
  Entry.flat r -> Entry.flat hn -> dest <> EmptyString ->
  LocalFS.mkdir true true (LocalFS.Path dest) fs0 = Ok fs1 ->
  LocalFS.Path (Entry.archive dest self) =
    LocalFS.Path dest ++ [r +:+ "_" +:+ hn +:+ ".tgz"] /\
  LocalFS.open_wb (LocalFS.Path (Entry.archive dest self)) fs1 =
    match LocalFS.fs_node fs1 (LocalFS.Path (Entry.archive dest self)) with
    | Some Dir =>
        Err (Exc IsADirectoryError
               (String.concat "/" (LocalFS.Path (Entry.archive dest self))))
    | _ => Ok (<[LocalFS.Path (Entry.archive dest self) := File EmptyString]> fs1)
    end.
Proof.
  intros Hr Hh Fr Fh Hd Hm.
  destruct (archive_name_flat _ _ _ Hr Hh Fr Fh) as (Hn & Hf & Hne & Hdot).
  assert (Hp : LocalFS.Path (Entry.archive dest self) =
               LocalFS.Path dest ++ [r +:+ "_" +:+ hn +:+ ".tgz"]).
  { unfold Entry.archive. rewrite (Path_under _ _ Hd Hf Hne Hdot), Hn.
    reflexivity. }
  split; [exact Hp|].
  unfold LocalFS.open_wb. rewrite Hp at 1. rewrite removelast_last.
  rewrite (is_dir_walk _ _ (proj2 (mkdir_grows _ _ _ _ _ Hm))).
  reflexivity.
Qed.

(** X8.  On a Linux host with artifacts, once the destination is there, the
    command has run and its output decodes, the archive
    [<role>_<hostname>.tgz] in the destination holds the decoded output;
    one command was run on the host, naming every artifact.  When a
    directory has the name of the archive, nothing is written. *)
Theorem linux_artifacts_archived self dest w x l r hn fs1 result env2 data :
  MultihostHost.os self = MultihostHost.Linux ->
  MultihostHost.artifacts self = PList (x :: l) ->
  MultihostHost.role self = PStr r ->
  MultihostHost.hostname self = PStr hn ->
  Entry.flat r -> Entry.flat hn -> dest <> EmptyString ->
  LocalFS.mkdir true true (LocalFS.Path dest) (fs w) = Ok fs1 ->
  MultihostHost.ssh_run (MultihostHost.ssh self) (Entry.fetch (x :: l))
    SSHLog_Error (env w) = (Ok result, env2) ->
  b64decode (stdout result) = Ok data ->
  let target := LocalFS.Path dest ++ [r +:+ "_" +:+ hn +:+ ".tgz"] in
  let calls := trace w ++
               [EvMkdir dest true true;
                EvSSHRun (MultihostHost.ssh self) (Entry.fetch (x :: l))
                         SSHLog_Error;
                EvOpenWrite (dest +:+ "/" +:+ r +:+ "_" +:+ hn +:+ ".tgz")] in
  MultihostHost.collect_artifacts self dest w =
  match LocalFS.fs_node fs1 target with
  | Some Dir =>
      (Err (Exc IsADirectoryError (String.concat "/" target)),
       mkWorld env2 fs1 calls)
  | _ => (Ok tt, mkWorld env2 (<[target := File data]> fs1) calls)
  end.
Proof.
  intros Hos Ha Hr Hh Fr Fh Hd Hm Hrun Hdec target calls.
  rewrite (collect_artifacts_linux _ _ _ _ _ Hos Ha), Hm. cbv zeta.
  rewrite Hrun. cbn [fst snd].
  destruct (open_archive _ _ _ _ _ _ Hr Hh Fr Fh Hd Hm) as [Hp Hopen].
  destruct (archive_name_flat _ _ _ Hr Hh Fr Fh) as (Hn & _).
  rewrite Hopen, Hp. fold target.
  assert (Hcalls : (trace w ++
            [EvMkdir dest true true;
             EvSSHRun (MultihostHost.ssh self) (Entry.fetch (x :: l))
               SSHLog_Error]) ++ [EvOpenWrite (Entry.archive dest self)] = calls).
  { unfold calls, Entry.archive. rewrite Hn, <- app_assoc. reflexivity. }
  rewrite Hcalls.
  destruct (LocalFS.fs_node fs1 target) as [[|c]|]; try reflexivity;
    rewrite Hdec; unfold LocalFS.write; now rewrite insert_insert_eq.
Qed.

(** X9.  When the command fails on the host, its exception is what
    [collect_artifacts] raises, and no archive is opened: locally, only the
    destination directory has been made. *)
Theorem failed_fetch_writes_no_archive self dest w x l fs1 e env2 :
  MultihostHost.os self = MultihostHost.Linux ->
  MultihostHost.artifacts self = PList (x :: l) ->
  LocalFS.mkdir true true (LocalFS.Path dest) (fs w) = Ok fs1 ->
  MultihostHost.ssh_run (MultihostHost.ssh self) (Entry.fetch (x :: l))
    SSHLog_Error (env w) = (Err e, env2) ->
  MultihostHost.collect_artifacts self dest w =
  (Err e,
   mkWorld env2 fs1
     (trace w ++
      [EvMkdir dest true true;
       EvSSHRun (MultihostHost.ssh self) (Entry.fetch (x :: l)) SSHLog_Error]))
  /\
  (forall p content,
      fs w !! p = Some (File content) -> fs1 !! p = Some (File content)).
Proof.
  intros Hos Ha Hm Hrun.
  rewrite (collect_artifacts_linux _ _ _ _ _ Hos Ha), Hm. cbv zeta.
  rewrite Hrun. split; [reflexivity|].
  intros p content Hp.
  eapply lookup_weaken; [exact Hp|]. exact (proj1 (mkdir_grows _ _ _ _ _ Hm)).
Qed.

(** X10.  The archive is opened before the output is decoded: when the output
    does not decode, the decoder's exception is raised and the archive is
    left empty, whatever it held before. *)
Theorem undecodable_output_empties_archive
    self dest w x l r hn fs1 result env2 e :
  MultihostHost.os self = MultihostHost.Linux ->
  MultihostHost.artifacts self = PList (x :: l) ->
  MultihostHost.role self = PStr r ->
  MultihostHost.hostname self = PStr hn ->
  Entry.flat r -> Entry.flat hn -> dest <> EmptyString ->
  LocalFS.mkdir true true (LocalFS.Path dest) (fs w) = Ok fs1 ->
  MultihostHost.ssh_run (MultihostHost.ssh self) (Entry.fetch (x :: l))
    SSHLog_Error (env w) = (Ok result, env2) ->
  b64decode (stdout result) = Err e ->
  LocalFS.fs_node fs1 (LocalFS.Path dest ++ [r +:+ "_" +:+ hn +:+ ".tgz"]) <>
    Some Dir ->
  exists w',
    MultihostHost.collect_artifacts self dest w = (Err e, w') /\
    fs w' = <[LocalFS.Path dest ++ [r +:+ "_" +:+ hn +:+ ".tgz"] :=
                File EmptyString]> fs1 /\
    fs w' !! (LocalFS.Path dest ++ [r +:+ "_" +:+ hn +:+ ".tgz"]) =
      Some (File EmptyString) /\
    env w' = env2.
Proof.
  intros Hos Ha Hr Hh Fr Fh Hd Hm Hrun Hdec Hnode.
  rewrite (collect_artifacts_linux _ _ _ _ _ Hos Ha), Hm. cbv zeta.
  rewrite Hrun. cbn [fst snd].
  destruct (open_archive _ _ _ _ _ _ Hr Hh Fr Fh Hd Hm) as [Hp Hopen].
  rewrite Hopen, Hp.
  destruct (LocalFS.fs_node fs1
              (LocalFS.Path dest ++ [r +:+ "_" +:+ hn +:+ ".tgz"]))
    as [[|c]|]; [congruence| |];
    rewrite Hdec; eexists; (split; [reflexivity|]); cbn [fs env];
    (split; [reflexivity|]); (split; [apply lookup_insert_eq|reflexivity]).
Qed.

(** X11.  When the destination directory cannot be made, the error of [mkdir], an
    [OSError], is what [collect_artifacts] raises, whatever the system of
    the host: nothing has been run on the host. *)
Theorem unusable_destination_runs_nothing self dest w e :
  truthy (MultihostHost.artifacts self) = true ->
  LocalFS.mkdir true true (LocalFS.Path dest) (fs w) = Err e ->
  MultihostHost.collect_artifacts self dest w =
    (Err e, mkWorld (env w) (fs w) (trace w ++ [EvMkdir dest true true])) /\
  isinstance e OSError = true.
Proof.
  intros Ht Hm. split.
  - unfold MultihostHost.collect_artifacts. rewrite Ht. cbn [negb].
    unfold bind at 1, LocalFS.Path_mkdir, bind at 1, emit, LocalFS.on_fs.
    cbn [fs env trace]. now rewrite Hm.
  - unfold LocalFS.mkdir in Hm. eapply mkdir_rev_error_class; eauto.
Qed.

End LinuxArtifacts.

(** A run: the sample Linux host archives one log into [out], over an
    earlier archive. *)
Lemma linux_artifacts_archived_witness :
  MultihostHost.collect_artifacts
    (Sample.host MultihostHost.Linux (PList [PStr "/var/log/messages"]))
    "out" Sample.world_with_archive =
  (Ok tt,
   mkWorld ["run"]
     {[ ["out"] := Dir; ["out"; "r1_h1.tgz"] := File "H4sIAAAA" ]}
     [EvMkdir "out" true true;
      EvSSHRun (Sample.client SSHBashProcess)
        (Entry.fetch [PStr "/var/log/messages"]) SSHLog_Error;
      EvOpenWrite "out/r1_h1.tgz"]).
Proof.
  pose proof (linux_artifacts_archived (Env := Sample.Env)
                (Sample.host MultihostHost.Linux (PList [PStr "/var/log/messages"]))
                "out" Sample.world_with_archive (PStr "/var/log/messages") []
                "r1" "h1" (fs Sample.world_with_archive)
                {| stdout := "H4sIAAAA" |} ["run"] "H4sIAAAA"
                eq_refl eq_refl eq_refl eq_refl eq_refl eq_refl
                ltac:(discriminate) ltac:(vm_compute; reflexivity)
                eq_refl eq_refl) as H.
  rewrite H. vm_compute. reflexivity.
Defined.

(** A run: the transport cannot run the command; the earlier archive is as
    it was. *)
Lemma failed_fetch_writes_no_archive_witness :
  @MultihostHost.collect_artifacts Sample.Env Sample.builtins Sample.refusing
    (Sample.host MultihostHost.Linux (PList [PStr "/var/log/messages"]))
    "out" Sample.world_with_archive =
  (Err (Exc OSError "not connected"),
   mkWorld ["run"] (fs Sample.world_with_archive)
     [EvMkdir "out" true true;
      EvSSHRun (Sample.client SSHBashProcess)
        (Entry.fetch [PStr "/var/log/messages"]) SSHLog_Error]).
Proof.
  exact (proj1 (@failed_fetch_writes_no_archive Sample.Env Sample.builtins
                  Sample.refusing
                  (Sample.host MultihostHost.Linux
                     (PList [PStr "/var/log/messages"]))
                  "out" Sample.world_with_archive (PStr "/var/log/messages") []
                  (fs Sample.world_with_archive)
                  (Exc OSError "not connected") ["run"]
                  eq_refl eq_refl ltac:(vm_compute; reflexivity) eq_refl)).
Defined.

(** A run: the output of the command is not base64; the earlier archive is
    emptied. *)
Lemma undecodable_output_empties_archive_witness :
  exists w',
    @MultihostHost.collect_artifacts Sample.Env Sample.rejecting Sample.transport
      (Sample.host MultihostHost.Linux (PList [PStr "/var/log/messages"]))
      "out" Sample.world_with_archive =
    (Err (Exc (UserDefined "binascii.Error" ValueError) "Incorrect padding"), w')
    /\
    fs Sample.world_with_archive !! ["out"; "r1_h1.tgz"] = Some (File "earlier")
    /\
    fs w' !! ["out"; "r1_h1.tgz"] = Some (File EmptyString).
Proof.
  destruct (@undecodable_output_empties_archive Sample.Env Sample.rejecting
              Sample.transport
              (Sample.host MultihostHost.Linux (PList [PStr "/var/log/messages"]))
              "out" Sample.world_with_archive (PStr "/var/log/messages") []
              "r1" "h1" (fs Sample.world_with_archive)
              {| stdout := "H4sIAAAA" |} ["run"]
              (Exc (UserDefined "binascii.Error" ValueError) "Incorrect padding")
              eq_refl eq_refl eq_refl eq_refl eq_refl eq_refl
              ltac:(discriminate) ltac:(vm_compute; reflexivity)
              eq_refl eq_refl ltac:(vm_compute; discriminate))
    as (w' & Hrun & _ & Hfile & _).
  exists w'. split; [exact Hrun|]. split; [vm_compute; reflexivity|].
  exact Hfile.
Defined.

(** A run: a regular file has the name of the destination. *)
Lemma unusable_destination_runs_nothing_witness :
  MultihostHost.collect_artifacts
    (Sample.host MultihostHost.Linux (PList [PStr "/var/log/messages"]))
    "out" Sample.world_with_file =
  (Err (Exc FileExistsError "out"),
   mkWorld [] (fs Sample.world_with_file) [EvMkdir "out" true true]).
Proof.
  exact (proj1 (unusable_destination_runs_nothing (Env := Sample.Env)
                  (Sample.host MultihostHost.Linux
                     (PList [PStr "/var/log/messages"]))
                  "out" Sample.world_with_file (Exc FileExistsError "out")
                  eq_refl ltac:(vm_compute; reflexivity))).
Defined.

(** ** Roles and their utilities *)

Section RoleUtilities.
Context {Env : Type}.
Implicit Types (o : MultihostUtility.object Env) (w : World Env)
               (self : MultihostRole.Role Env).

(** X12.  When [GetUtilityAttributes(o)] returns, every utility in the
    result was read from the object under its name (it is the value held
    there, or what the getter of the property of that name returned), every
    utility the object holds as a value is in the result under its name,
    and a name under which the object holds anything else as a value is no
    key.  On an object that holds all its attributes as values, discovery
    changes nothing and the result maps a name to a utility exactly when
    the attribute of that name is that utility. *)
Theorem utility_attribute_lookup o w :
  (forall utils w1,
      MultihostUtility.GetUtilityAttributes o w = (Ok utils, w1) ->
      forall name,
        (forall u, dict_lookup name utils = Some u ->
                   Cascade.reads o name (MultihostUtility.Util u)) /\
        (forall u, dict_lookup name o =
                     Some (MultihostUtility.Value (MultihostUtility.Util u)) ->
                   dict_lookup name utils = Some u) /\
        (forall what, dict_lookup name o =
                        Some (MultihostUtility.Value
                                (MultihostUtility.Other what)) ->
                      dict_lookup name utils = None))
  /\
  (Cascade.plain o = true ->
   exists utils,
     MultihostUtility.GetUtilityAttributes o w = (Ok utils, w) /\
     forall name u,
       dict_lookup name utils = Some u <->
       dict_lookup name o =
         Some (MultihostUtility.Value (MultihostUtility.Util u))).
Proof.
  split.
  - intros utils w1 Hd name.
    destruct (discovery_spec _ _ _ _ Hd) as [_ (_ & Hnd & Hsound & Hcomp)].
    assert (Hread : forall u, dict_lookup name utils = Some u ->
                      Cascade.reads o name (MultihostUtility.Util u)).
    { intros u Hu. apply Hsound. now apply dict_lookup_nodup. }
    split; [exact Hread|]. split.
    + intros u Hl. apply dict_lookup_nodup; [exact Hnd|]. now apply Hcomp.
    + intros what Hl.
      destruct (dict_lookup name utils) as [u|] eqn:Hu; [|reflexivity].
      destruct (Hread u eq_refl) as [Hv|(fget & e & e' & Hp & _)]; congruence.
  - intros Hp. exists (Cascade.utilities o).
    split; [now apply discovery_plain|]. intros name u.
    rewrite (dict_lookup_nodup _ _ _ (proj2 (utilities_sorted o))).
    rewrite <- utility_attributes_in, <- !list_elem_of_In.
    now rewrite (utilities_complete o).
Qed.

Lemma no_utility_lookup o name u :
  Forall (fun kv => exists what,
            snd kv = MultihostUtility.Value (MultihostUtility.Other what)) o ->
  dict_lookup name o <>
    Some (MultihostUtility.Value (MultihostUtility.Util u)).
Proof.
  induction 1 as [|[k a] o [what Ha] _ IH]; simpl; [discriminate|].
  destruct (String.eqb name k); [|exact IH].
  simpl in Ha. rewrite Ha. discriminate.
Qed.

Lemma no_utility_plain o :
  Forall (fun kv => exists what,
            snd kv = MultihostUtility.Value (MultihostUtility.Other what)) o ->
  Cascade.plain o = true.
Proof.
  unfold Cascade.plain.
  induction 1 as [|[k a] o [what Ha] _ IH]; simpl; [reflexivity|].
  simpl in Ha. now rewrite Ha.
Qed.

Lemma no_utilities_discovered o :
  Forall (fun kv => exists what,
            snd kv = MultihostUtility.Value (MultihostUtility.Other what)) o ->
  Cascade.utilities o = [].
Proof.
  intros Hno. apply Permutation_nil_r.
  rewrite (utilities_complete o).
  destruct (Cascade.utility_attributes o) as [|[name u] l] eqn:E; [reflexivity|].
  exfalso. apply (no_utility_lookup o name u Hno).
  apply utility_attributes_in. rewrite E. now left.
Qed.

Lemma role_object_plain self :
  Forall (fun kv => exists what,
            snd kv = MultihostUtility.Value (MultihostUtility.Other what))
         (MultihostRole.attrs self) ->
  Forall (fun kv => exists what,
            snd kv = MultihostUtility.Value (MultihostUtility.Other what))
         (MultihostRole.as_object self).
Proof.
  intros Hno. unfold MultihostRole.as_object. apply Forall_app. split; [exact Hno|].
  repeat (constructor; [eexists; reflexivity|]). constructor.
Qed.

Lemma idle_role self w :
  Forall (fun kv => exists what,
            snd kv = MultihostUtility.Value (MultihostUtility.Other what))
         (MultihostRole.attrs self) ->
  MultihostUtility.GetUtilityAttributes (MultihostRole.as_object self) w =
    (Ok [], w) /\
  MultihostRole.setup self w = (Ok tt, w) /\
  MultihostRole.teardown self w = (Ok tt, w).
Proof.
  intros Hno.
  pose proof (role_object_plain _ Hno) as Hobj.
  assert (Hd : MultihostUtility.GetUtilityAttributes
                 (MultihostRole.as_object self) w = (Ok [], w)).
  { rewrite (discovery_plain _ _ (no_utility_plain _ Hobj)).
    now rewrite (no_utilities_discovered _ Hobj). }
  split; [exact Hd|].
  unfold MultihostRole.setup, MultihostRole.teardown,
    MultihostUtility.SetupUtilityAttributes,
    MultihostUtility.TeardownUtilityAttributes.
  rewrite !(bind_ok _ _ _ _ _ Hd). split; reflexivity.
Qed.

(** X13.  A role that holds all the attributes of its own as values, none
    of them a utility, (it has no property, so that reading its attributes
    runs no code) has nothing to set up or to tear down: discovery finds
    nothing, and both cascades return at once and leave the world as it
    is. *)
Theorem role_without_utilities_is_idle self :
  Forall (fun kv => exists what,
            snd kv = MultihostUtility.Value (MultihostUtility.Other what))
         (MultihostRole.attrs self) ->
  forall w,
    MultihostUtility.GetUtilityAttributes (MultihostRole.as_object self) w =
      (Ok [], w) /\
    MultihostRole.setup self w = (Ok tt, w) /\
    MultihostRole.teardown self w = (Ok tt, w).
Proof.
  intros Hno w. now apply idle_role.
Qed.

(** X14.  Teardown goes through the utilities in the order of setup, not in
    reverse.  Setup and teardown each discover the utilities, reading every
    attribute of the role.  When the first discovery returns, every
    [setup()] returns, the second discovery returns, and every
    [teardown()] returns or raises an [Exception], a role that is set up
    and then torn down has called [setup()] on the utilities of the first
    discovery and then [teardown()] on those of the second, each time in
    ascending order of the attribute names.  On a role that holds all its
    attributes as values the two discoveries read no property and find the
    same utilities: they are set up in discovery order and torn down in
    that same order, and nothing else is called. *)
Theorem teardown_follows_setup_order self w :
  (forall utils1 w1 e1 utils2 w2 errors e2,
      MultihostUtility.GetUtilityAttributes (MultihostRole.as_object self) w =
        (Ok utils1, w1) ->
      Cascade.setups_return (MultihostUtility.values utils1) (env w1) =
        Some e1 ->
      MultihostUtility.GetUtilityAttributes (MultihostRole.as_object self)
        (mkWorld e1 (fs w1)
           (trace w1 ++ Cascade.setup_calls (MultihostUtility.values utils1))) =
        (Ok utils2, w2) ->
      Cascade.teardown_all (MultihostUtility.values utils2) (env w2) =
        (errors, e2) ->
      Forall Cascade.caught errors ->
      (MultihostRole.setup self ;; MultihostRole.teardown self)%py w =
        (match errors with
         | [] => Ok tt
         | _ :: _ => Err (ExcOfList Exception errors)
         end,
         mkWorld e2 (fs w2)
           (trace w2 ++
            Cascade.teardown_calls (MultihostUtility.values utils2))) /\
      StronglySorted String.le (map fst utils1) /\
      StronglySorted String.le (map fst utils2))
  /\
  (Cascade.plain (MultihostRole.as_object self) = true ->
   forall e1 errors e2,
     Cascade.setups_return
       (Cascade.discovered (MultihostRole.as_object self)) (env w) = Some e1 ->
     Cascade.teardown_all
       (Cascade.discovered (MultihostRole.as_object self)) e1 = (errors, e2) ->
     Forall Cascade.caught errors ->
     (MultihostRole.setup self ;; MultihostRole.teardown self)%py w =
       (match errors with
        | [] => Ok tt
        | _ :: _ => Err (ExcOfList Exception errors)
        end,
        mkWorld e2 (fs w)
          (trace w ++
           Cascade.setup_calls
             (Cascade.discovered (MultihostRole.as_object self)) ++
           Cascade.teardown_calls
             (Cascade.discovered (MultihostRole.as_object self)))) /\
     StronglySorted String.le
       (map fst (Cascade.utilities (MultihostRole.as_object self)))).
Proof.
  assert (Hgen : forall utils1 w1 e1 utils2 w2 errors e2,
      MultihostUtility.GetUtilityAttributes (MultihostRole.as_object self) w =
        (Ok utils1, w1) ->
      Cascade.setups_return (MultihostUtility.values utils1) (env w1) =
        Some e1 ->
      MultihostUtility.GetUtilityAttributes (MultihostRole.as_object self)
        (mkWorld e1 (fs w1)
           (trace w1 ++ Cascade.setup_calls (MultihostUtility.values utils1))) =
        (Ok utils2, w2) ->
      Cascade.teardown_all (MultihostUtility.values utils2) (env w2) =
        (errors, e2) ->
      Forall Cascade.caught errors ->
      (MultihostRole.setup self ;; MultihostRole.teardown self)%py w =
        (match errors with
         | [] => Ok tt
         | _ :: _ => Err (ExcOfList Exception errors)
         end,
         mkWorld e2 (fs w2)
           (trace w2 ++
            Cascade.teardown_calls (MultihostUtility.values utils2)))).
  { intros utils1 w1 e1 utils2 w2 errors e2 Hd1 Hs Hd2 Ht Hc.
    unfold MultihostRole.setup, MultihostRole.teardown,
      MultihostUtility.SetupUtilityAttributes,
      MultihostUtility.TeardownUtilityAttributes.
    erewrite bind_ok;
      [|rewrite (bind_ok _ _ _ _ _ Hd1); apply setup_loop_returns; exact Hs].
    rewrite (bind_ok _ _ _ _ _ Hd2).
    erewrite bind_ok by (apply teardown_loop_collects; [exact Ht|exact Hc]).
    destruct errors; reflexivity. }
  split.
  - intros utils1 w1 e1 utils2 w2 errors e2 Hd1 Hs Hd2 Ht Hc.
    split; [eapply Hgen; eauto|].
    destruct (discovery_spec _ _ _ _ Hd1) as [_ (Hs1 & _)].
    destruct (discovery_spec _ _ _ _ Hd2) as [_ (Hs2 & _)]. auto.
  - intros Hp e1 errors e2 Hs Ht Hc.
    split; [|apply utilities_sorted].
    rewrite (Hgen _ _ _ _ _ _ _ (discovery_plain _ _ Hp) Hs
               (discovery_plain _ _ Hp) Ht Hc).
    cbn [fs env trace]. now rewrite <- app_assoc.
Qed.

End RoleUtilities.

(** ** Roles of a domain *)

Section DomainRoles.
Context {Env : Type} {builtins : Builtins}
        {transport : MultihostHost.Transport Env}.
Implicit Types (w : World Env) (d : pydict)
               (c : MultihostDomain.DomainClass Env).

(** X15.  The client [MultihostRole.ssh] builds is addressed by the hostname of
    the host, also when the entry of the host gives an ip, which is what the
    client of the host itself is addressed by; it carries the user, the
    password and the shell given and the logger of the fixture, and it is
    built, not connected: nothing outside runs. *)
Theorem role_client_addresses_hostname
    name required domain d w h w'
    (self : MultihostRole.Role Env) (user password : pyval) (shell : Shell)
    (w2 : World Env) :
  MultihostHost.__init__ name required domain d w = (Ok h, w') ->
  MultihostRole.host self = h ->
  exists client,
    MultihostRole.ssh self user password shell w2 =
      (Ok client, mkWorld (env w2) (fs w2) (trace w2 ++ [EvSSHClient client])) /\
    ssh_host client = MultihostHost.hostname h /\
    ssh_user client = user /\ ssh_password client = password /\
    ssh_shell client = shell /\
    ssh_logger client = MultihostRole.mh_logger (MultihostRole.mh self) /\
    (forall ip, dict_lookup "ip" d = Some ip -> truthy ip = true ->
                ssh_host (MultihostHost.ssh h) = ip /\
                (ip <> MultihostHost.hostname h ->
                 ssh_host client <> ssh_host (MultihostHost.ssh h))).
Proof.
  intros Hinit Hself. eexists. split; [reflexivity|].
  cbn [ssh_host ssh_user ssh_password ssh_shell ssh_logger].
  rewrite Hself. repeat (split; [reflexivity|]).
  intros ip Hip Ht.
  destruct (init_ok_inv _ _ _ _ _ _ _ Hinit) as (os & _ & -> & _).
  cbn [MultihostHost.ssh MultihostHost.hostname Entry.host Entry.client ssh_host].
  unfold dict_get. rewrite Hip. unfold MultihostHost._get_ssh_host. rewrite Ht.
  split; [reflexivity|]. intros Hne Heq. apply Hne. now rewrite Heq.
Qed.

(** X16.  With the role of a host mapped to the base class [MultihostRole],
    [create_role] returns a role bound to that host and that fixture under
    the role of the host, with no utilities of its own: its setup and its
    teardown do nothing. *)
Theorem base_role_is_bound_to_its_host c mh host r w :
  MultihostHost.role host = PStr r ->
  MultihostDomain.role_to_role_type c !! r = Some MultihostRole.MultihostRole ->
  exists obj,
    MultihostDomain.create_role c mh host w =
      (Ok obj,
       mkWorld (env w) (fs w)
         (trace w ++
          [EvNewRole "MultihostRole" (PStr r) (MultihostHost.hostname host)])) /\
    MultihostRole.host obj = host /\
    MultihostRole.mh obj = mh /\
    MultihostRole.role obj = PStr r /\
    forall w2,
      MultihostRole.setup obj w2 = (Ok tt, w2) /\
      MultihostRole.teardown obj w2 = (Ok tt, w2).
Proof.
  intros Hr Hc. exists (MultihostRole.__init__ mh (PStr r) host). split.
  - unfold MultihostDomain.create_role. rewrite Hr.
    unfold bind at 1, lift at 1. cbn [MultihostDomain.strmap_contains].
    rewrite Hc. cbn [bool_decide decide_rel negb].
    rewrite bool_decide_true by eauto. cbn [negb].
    unfold bind at 1, lift at 1. cbn [MultihostDomain.strmap_getitem].
    rewrite Hc. rewrite call_eq. reflexivity.
  - do 3 (split; [reflexivity|]).
    intros w2. apply idle_role. constructor.
Qed.

(** X17.  A host of a role that neither mapping knows is created, as a generic
    host whose role is the one its entry names, and can never be given a
    role object: [create_role] raises [ValueError] for it. *)
Theorem fallback_host_gets_no_role c self d w r h w' :
  dict_lookup "role" d = Some (PStr r) ->
  MultihostDomain.role_to_host_type c !! r = None ->
  MultihostDomain.role_to_role_type c !! r = None ->
  MultihostDomain.create_host c self d w = (Ok h, w') ->
  MultihostHost.cls h = "MultihostHost" /\
  MultihostHost.role h = PStr r /\
  forall mh w2,
    MultihostDomain.create_role c mh h w2 =
    (Err (Exc ValueError ("Unexpected role: " +:+ r)), w2).
Proof.
  intros Hr Hh Hro Hcreate.
  assert (Ht : truthy (PStr r) = true).
  { destruct (truthy (PStr r)) eqn:E; [reflexivity|].
    unfold MultihostDomain.create_host, dict_get in Hcreate.
    rewrite Hr, E in Hcreate. discriminate Hcreate. }
  rewrite (create_host_fallback c self d w (PStr r) Hr Ht eq_refl) in Hcreate
    by (intros s Hs; inversion Hs; subst; exact Hh).
  rewrite new_generic in Hcreate.
  destruct (init_ok_inv _ _ _ _ _ _ _ Hcreate) as (os & _ & -> & _).
  split; [reflexivity|].
  cbn [MultihostHost.role Entry.host]. unfold dict_get. rewrite Hr.
  split; [reflexivity|]. intros mh w2.
  unfold MultihostDomain.create_role.
  cbn [MultihostHost.role Entry.host]. unfold dict_get. rewrite Hr.
  unfold bind at 1, lift at 1. cbn [MultihostDomain.strmap_contains].
  rewrite bool_decide_false by (rewrite Hro; intros [? ?]; discriminate).
  reflexivity.
Qed.


End DomainRoles.

(** ** MultihostDomain: the constructor *)

Section AppendEach.
Context {S A B : Type}.
Implicit Types (f : A -> M S B).

Lemma append_each_app f l1 l2 : forall acc s,
  MultihostDomain.append_each f (l1 ++ l2) acc s =
  bind (MultihostDomain.append_each f l1 acc)
       (fun acc' => MultihostDomain.append_each f l2 acc') s.
Proof.
  induction l1 as [|x l1 IH]; intros acc s; [reflexivity|].
  cbn [app MultihostDomain.append_each].
  rewrite bind_assoc. apply bind_ext. intros y s'. apply IH.
Qed.

Lemma append_each_ok f l : forall acc s ys s',
  MultihostDomain.append_each f l acc s = (Ok ys, s') ->
  exists new,
    ys = acc ++ new /\
    Forall2 (fun x y => exists s1 s2, f x s1 = (Ok y, s2)) l new.
Proof.
  induction l as [|x l IH]; intros acc s ys s' Hrun.
  - inversion Hrun; subst. exists []. rewrite app_nil_r. split; constructor.
  - cbn [MultihostDomain.append_each] in Hrun. unfold bind at 1 in Hrun.
    destruct (f x s) as [[y|e] s1] eqn:Hx; [|discriminate].
    destruct (IH _ _ _ _ Hrun) as (new & -> & Hall).
    exists (y :: new). rewrite <- app_assoc. split; [reflexivity|].
    constructor; eauto.
Qed.

End AppendEach.

Section DomainConstructor.
Context {Env : Type} {builtins : Builtins}
        {transport : MultihostHost.Transport Env}.
Implicit Types (w : World Env) (c : MultihostDomain.DomainClass Env)
               (config : MultihostDomain.ConfigRef) (confdict : pydict).

(** The constructor, once both keys are there and the hosts can be
    iterated. *)
Lemma domain_init_eq c config confdict w t v entries :
  dict_lookup "type" confdict = Some t ->
  dict_lookup "hosts" confdict = Some v ->
  py_iter v = Ok entries ->
  MultihostDomain.__init__ c config confdict w =
  match MultihostDomain.append_each
          (fun host =>
             match host with
             | PDict d =>
                 MultihostDomain.create_host c (MultihostDomain.as_ref config) d
             | _ => (_ <- lift (py_get host "role") ;;
                     raise (Exc AttributeError "get"))%py
             end) entries [] w with
  | (Ok hosts, w') =>
      (Ok {| MultihostDomain.config := config;
             MultihostDomain.logger := MultihostDomain.cfg_logger config;
             MultihostDomain.type := t;
             MultihostDomain.hosts := hosts |}, w')
  | (Err e, w') => (Err e, w')
  end.
Proof.
  intros Ht Hv Hit. unfold MultihostDomain.__init__, dict_has, dict_getitem.
  rewrite Ht, Hv. cbn [negb].
  unfold bind at 1, lift at 1. unfold bind at 1, lift at 1.
  unfold bind at 1, lift at 1. rewrite Hit.
  unfold bind at 1.
  destruct (MultihostDomain.append_each _ entries [] w) as [[hosts|e] w'];
    reflexivity.
Qed.

(** X19.  A domain configuration without its "type" or without its "hosts" is
    rejected with [ValueError] before any host is created, the "type" being
    looked for first. *)
Theorem domain_without_type_or_hosts_rejected c config confdict w :
  (dict_lookup "type" confdict = None ->
   MultihostDomain.__init__ c config confdict w =
   (Err (Exc ValueError
           (dq +:+ "type" +:+ dq +:+
            " property is missing in domain configuration")), w))
  /\
  (dict_lookup "type" confdict <> None ->
   dict_lookup "hosts" confdict = None ->
   MultihostDomain.__init__ c config confdict w =
   (Err (Exc ValueError
           (dq +:+ "hosts" +:+ dq +:+
            " property is missing in domain configuration")), w)).
Proof.
  unfold MultihostDomain.__init__, dict_has. split.
  - intros ->. reflexivity.
  - intros Ht ->. destruct (dict_lookup "type" confdict); [reflexivity|congruence].
Qed.

(** X20.  A domain that is constructed has one host for every entry under
    "hosts", in the order of the entries, each the host [create_host] made
    of its entry; its type is the entry under "type" and its logger the
    logger of the configuration. *)
Theorem domain_hosts_follow_entries c config confdict w domain w' :
  MultihostDomain.__init__ c config confdict w = (Ok domain, w') ->
  exists t v entries,
    dict_lookup "type" confdict = Some t /\
    dict_lookup "hosts" confdict = Some v /\
    py_iter v = Ok entries /\
    MultihostDomain.type domain = t /\
    MultihostDomain.config domain = config /\
    MultihostDomain.logger domain = MultihostDomain.cfg_logger config /\
    length (MultihostDomain.hosts domain) = length entries /\
    Forall2 (fun entry host =>
               exists d w1 w2,
                 entry = PDict d /\
                 MultihostDomain.create_host c (MultihostDomain.as_ref config)
                   d w1 = (Ok host, w2))
            entries (MultihostDomain.hosts domain).
Proof.
  intros Hinit.
  destruct (dict_lookup "type" confdict) as [t|] eqn:Ht.
  2:{ unfold MultihostDomain.__init__, dict_has in Hinit.
      rewrite Ht in Hinit. discriminate. }
  destruct (dict_lookup "hosts" confdict) as [v|] eqn:Hv.
  2:{ unfold MultihostDomain.__init__, dict_has in Hinit.
      rewrite Ht, Hv in Hinit. discriminate. }
  destruct (py_iter v) as [entries|e] eqn:Hit.
  2:{ unfold MultihostDomain.__init__, dict_has, dict_getitem in Hinit.
      rewrite Ht, Hv in Hinit. cbn [negb] in Hinit.
      unfold bind at 1, lift at 1 in Hinit.
      unfold bind at 1, lift at 1 in Hinit.
      unfold bind at 1, lift at 1 in Hinit. rewrite Hit in Hinit.
      discriminate. }
  rewrite (domain_init_eq _ _ _ _ _ _ _ Ht Hv Hit) in Hinit.
  destruct (MultihostDomain.append_each _ entries [] w) as [[hosts|e] w1] eqn:Hrun;
    [|discriminate].
  inversion Hinit; subst. clear Hinit.
  destruct (append_each_ok _ _ _ _ _ _ Hrun) as (new & -> & Hall).
  exists t, v, entries.
  split; [reflexivity|]. split; [reflexivity|]. split; [exact Hit|].
  do 3 (split; [reflexivity|]).
  cbn [MultihostDomain.hosts app].
  assert (Hall' : Forall2 (fun entry host =>
               exists d w1 w2,
                 entry = PDict d /\
                 MultihostDomain.create_host c (MultihostDomain.as_ref config)
                   d w1 = (Ok host, w2)) entries new).
  { eapply Forall2_impl; [exact Hall|].
    intros entry host (s1 & s2 & Hf).
    destruct entry;
      try (unfold bind, lift, raise in Hf; simpl in Hf; discriminate Hf).
    eauto. }
  split; [|exact Hall'].
  symmetry. eapply Forall2_length; eauto.
Qed.


(** X21.  The hosts of a domain are created one after the other, each in the
    world the hosts before it have left.  When the domain of the entries
    before an entry can be built and the host of that entry cannot be
    created, the domain is not built: the exception of that host is raised,
    the hosts before it have been created, with what that did outside, and
    nothing is done for the entries after it.  When the host can be
    created, the domain up to that entry has it as its last host. *)
Theorem domain_hosts_created_in_turn
    c config confdict w pre d post domain1 w1 :
  dict_lookup "hosts" confdict = Some (PList (pre ++ PDict d :: post)) ->
  MultihostDomain.__init__ c config
    (dict_set "hosts" (PList pre) confdict) w = (Ok domain1, w1) ->
  (forall e w2,
      MultihostDomain.create_host c (MultihostDomain.as_ref config) d w1 =
        (Err e, w2) ->
      MultihostDomain.__init__ c config confdict w = (Err e, w2))
  /\
  (forall h w2,
      MultihostDomain.create_host c (MultihostDomain.as_ref config) d w1 =
        (Ok h, w2) ->
      MultihostDomain.__init__ c config
        (dict_set "hosts" (PList (pre ++ [PDict d])) confdict) w =
      (Ok {| MultihostDomain.config := config;
             MultihostDomain.logger := MultihostDomain.cfg_logger config;
             MultihostDomain.type := MultihostDomain.type domain1;
             MultihostDomain.hosts := MultihostDomain.hosts domain1 ++ [h] |},
       w2)).
Proof.
  intros Hhosts Hpre.
  destruct (dict_lookup "type" confdict) as [t|] eqn:Ht.
  2:{ unfold MultihostDomain.__init__, dict_has in Hpre.
      rewrite dict_lookup_set_ne, Ht in Hpre by discriminate.
      discriminate. }
  assert (Ht' : forall v, dict_lookup "type" (dict_set "hosts" v confdict) = Some t)
    by (intros v; rewrite dict_lookup_set_ne by discriminate; exact Ht).
  rewrite (domain_init_eq c config _ w t (PList pre) pre (Ht' _)
             (dict_lookup_set_eq _ _ _) eq_refl) in Hpre.
  destruct (MultihostDomain.append_each _ pre [] w) as [[hosts1|e1] w1'] eqn:Hrun;
    [|discriminate].
  inversion Hpre; subst. clear Hpre. cbn [MultihostDomain.type MultihostDomain.hosts].
  split.
  - intros e w2 Hd.
    rewrite (domain_init_eq c config _ w t _ (pre ++ PDict d :: post)
               Ht Hhosts eq_refl).
    rewrite append_each_app, (bind_ok _ _ _ _ _ Hrun).
    cbn [MultihostDomain.append_each]. unfold bind at 1. now rewrite Hd.
  - intros h w2 Hd.
    rewrite (domain_init_eq c config _ w t (PList (pre ++ [PDict d]))
               (pre ++ [PDict d]) (Ht' _) (dict_lookup_set_eq _ _ _) eq_refl).
    rewrite append_each_app, (bind_ok _ _ _ _ _ Hrun).
    cbn [MultihostDomain.append_each]. unfold bind at 1. now rewrite Hd.
Qed.

Lemma lazy_init_outside name required domain d w r w' :
  MultihostHost.dom_lazy_ssh domain = true ->
  MultihostHost.__init__ name required domain d w = (r, w') ->
  env w' = env w /\ fs w' = fs w /\
  exists events,
    trace w' = trace w ++ events /\
    forall client, ~ In (EvSSHConnect client) events.
Proof.
  intros Hlazy Hinit.
  destruct (init_cases _ _ _ _ _ _ _ Hinit)
    as [[-> _]|(os & _ & _ & -> & _)].
  - do 2 (split; [reflexivity|]). exists []. rewrite app_nil_r.
    split; [reflexivity|]. intros client [].
  - unfold Entry.connected. rewrite Hlazy. cbn [snd env fs trace].
    do 2 (split; [reflexivity|]). eexists. split; [reflexivity|].
    intros client [H|[H|[]]]; discriminate H.
Qed.

(** X22.  With [lazy_ssh], the domain of a class that maps no role to a host
    class of its own is built, or fails to be, without anything happening
    outside: no host is connected, and the environment and the local files
    are as they were. *)
Theorem lazy_domain_connects_no_host c config confdict w r w' :
  MultihostDomain.cfg_lazy_ssh config = true ->
  MultihostDomain.role_to_host_type c = ∅ ->
  MultihostDomain.__init__ c config confdict w = (r, w') ->
  env w' = env w /\ fs w' = fs w /\
  exists events,
    trace w' = trace w ++ events /\
    forall client, ~ In (EvSSHConnect client) events.
Proof.
  intros Hlazy Hnone Hinit.
  assert (Hhost : forall d w0 r0 w0',
            MultihostDomain.create_host c (MultihostDomain.as_ref config) d w0 =
              (r0, w0') ->
            env w0' = env w0 /\ fs w0' = fs w0 /\
            exists events,
              trace w0' = trace w0 ++ events /\
              forall client, ~ In (EvSSHConnect client) events).
  { intros d w0 r0 w0' Hc.
    assert (Hquiet : env w0 = env w0 /\ fs w0 = fs w0 /\
              exists events, trace w0 = trace w0 ++ events /\
                forall client, ~ In (EvSSHConnect client) events).
    { do 2 (split; [reflexivity|]). exists []. rewrite app_nil_r.
      split; [reflexivity|]. intros client []. }
    unfold MultihostDomain.create_host in Hc.
    destruct (negb (truthy (dict_get "role" PNone d)));
      [inversion Hc; subst; exact Hquiet|].
    unfold bind at 1, lift at 1 in Hc.
    destruct (dict_getitem "role" d) as [role|e];
      [|inversion Hc; subst; exact Hquiet].
    unfold bind at 1, lift at 1 in Hc.
    destruct (MultihostDomain.strmap_contains role
                (MultihostDomain.role_to_host_type c)) as [known|e] eqn:Hk;
      [|inversion Hc; subst; exact Hquiet].
    assert (known = false) as ->.
    { rewrite Hnone in Hk. destruct role; simpl in Hk; try congruence.
      rewrite lookup_empty in Hk.
      rewrite bool_decide_false in Hk by (intros [? ?]; discriminate).
      congruence. }
    unfold bind at 1, ret in Hc. rewrite new_generic in Hc.
    destruct (lazy_init_outside _ _ (MultihostDomain.as_ref config) _ _ _ _
                Hlazy Hc)
      as (He & Hf & events & Ht & Hno).
    cbn [Entry.instantiating env fs trace] in *.
    do 2 (split; [assumption|]).
    exists (EvNewHost "MultihostHost" d :: events). split.
    - rewrite Ht, <- app_assoc. reflexivity.
    - intros client [H|H]; [discriminate H|]. exact (Hno client H). }
  assert (Hloop : forall entries acc w0 r0 w0',
            MultihostDomain.append_each
              (fun host =>
                 match host with
                 | PDict d =>
                     MultihostDomain.create_host c
                       (MultihostDomain.as_ref config) d
                 | _ => (_ <- lift (py_get host "role") ;;
                         raise (Exc AttributeError "get"))%py
                 end) entries acc w0 = (r0, w0') ->
            env w0' = env w0 /\ fs w0' = fs w0 /\
            exists events,
              trace w0' = trace w0 ++ events /\
              forall client, ~ In (EvSSHConnect client) events).
  { induction entries as [|entry entries IH]; intros acc w0 r0 w0' Hrun.
    - inversion Hrun; subst. do 2 (split; [reflexivity|]). exists [].
      rewrite app_nil_r. split; [reflexivity|]. intros client [].
    - cbn [MultihostDomain.append_each] in Hrun. unfold bind at 1 in Hrun.
      match type of Hrun with
      | match ?step w0 with _ => _ end = _ =>
          destruct (step w0) as [[h|e] w1] eqn:Hstep
      end.
      + assert (H1 : env w1 = env w0 /\ fs w1 = fs w0 /\
                  exists events, trace w1 = trace w0 ++ events /\
                    forall client, ~ In (EvSSHConnect client) events).
        { destruct entry;
            try (unfold bind, lift, raise in Hstep; simpl in Hstep;
                 discriminate Hstep).
          eapply Hhost; eauto. }
        destruct H1 as (He1 & Hf1 & ev1 & Ht1 & Hn1).
        destruct (IH _ _ _ _ Hrun) as (He2 & Hf2 & ev2 & Ht2 & Hn2).
        split; [congruence|]. split; [congruence|].
        exists (ev1 ++ ev2). split.
        * rewrite Ht2, Ht1, <- app_assoc. reflexivity.
        * intros client Hin. apply in_app_or in Hin as [Hin|Hin];
            [exact (Hn1 client Hin)|exact (Hn2 client Hin)].
      + inversion Hrun; subst.
        destruct entry;
          try (unfold bind, lift, raise in Hstep; simpl in Hstep;
               inversion Hstep; subst;
               do 2 (split; [reflexivity|]); exists [];
               rewrite app_nil_r; split; [reflexivity|]; intros client []).
        eapply Hhost; eauto. }
  assert (Hquiet : env w = env w /\ fs w = fs w /\
            exists events, trace w = trace w ++ events /\
              forall client, ~ In (EvSSHConnect client) events).
  { do 2 (split; [reflexivity|]). exists []. rewrite app_nil_r.
    split; [reflexivity|]. intros client []. }
  destruct (dict_lookup "type" confdict) as [t|] eqn:Ht.
  2:{ unfold MultihostDomain.__init__, dict_has in Hinit.
      rewrite Ht in Hinit. inversion Hinit; subst. exact Hquiet. }
  destruct (dict_lookup "hosts" confdict) as [v|] eqn:Hv.
  2:{ unfold MultihostDomain.__init__, dict_has in Hinit.
      rewrite Ht, Hv in Hinit. inversion Hinit; subst. exact Hquiet. }
  destruct (py_iter v) as [entries|e] eqn:Hit.
  2:{ unfold MultihostDomain.__init__, dict_has, dict_getitem in Hinit.
      rewrite Ht, Hv in Hinit. cbn [negb] in Hinit.
      unfold bind at 1, lift at 1 in Hinit.
      unfold bind at 1, lift at 1 in Hinit.
      unfold bind at 1, lift at 1 in Hinit. rewrite Hit in Hinit.
      inversion Hinit; subst. exact Hquiet. }
  rewrite (domain_init_eq _ _ _ _ _ _ _ Ht Hv Hit) in Hinit.
  destruct (MultihostDomain.append_each _ entries [] w) as [[hosts|e] w1] eqn:Hrun;
    inversion Hinit; subst; eapply Hloop; eauto.
Qed.

End DomainConstructor.

(** ** MultihostDomain: roles *)

Section SetsOfTexts.

Lemma hash_key_text x s : hash_key x = Some (KStr s) <-> x = PStr s.
Proof.
  split; [|intros ->; reflexivity].
  destruct x as [| [] | | | |]; simpl; intros H; inversion H; reflexivity.
Qed.

Lemma seen_text acc s :
  existsb (fun x => bool_decide (hash_key x = Some (KStr s))) acc = true <->
  In (PStr s) acc.
Proof.
  rewrite existsb_exists. split.
  - intros (x & Hin & Hx). apply bool_decide_eq_true in Hx.
    apply hash_key_text in Hx. now subst.
  - intros Hin. exists (PStr s). split; [exact Hin|].
    now apply bool_decide_eq_true.
Qed.

Lemma set_of_texts vs : forall acc,
  Forall (fun v => is_text v = true) vs ->
  NoDup acc ->
  exists l,
    set_of vs acc = Ok l /\ NoDup l /\
    forall v, In v l <-> In v acc \/ In v vs.
Proof.
  induction vs as [|v vs IH]; intros acc Hvs Hacc.
  - exists acc. split; [reflexivity|]. split; [exact Hacc|]. simpl. tauto.
  - apply Forall_cons in Hvs as [Hv Hvs].
    destruct v as [| | |s| |]; try discriminate Hv.
    cbn [set_of hash_key].
    destruct (existsb _ acc) eqn:Hseen.
    + apply seen_text in Hseen.
      destruct (IH acc Hvs Hacc) as (l & Hl & Hnd & Hin).
      exists l. split; [exact Hl|]. split; [exact Hnd|].
      intros x. rewrite Hin. simpl. split; [tauto|].
      intros [H|[<-|H]]; auto.
    + assert (Hnew : ~ In (PStr s) acc).
      { intros Hin. apply seen_text in Hin. congruence. }
      destruct (IH (acc ++ [PStr s]) Hvs) as (l & Hl & Hnd & Hin).
      { apply NoDup_app. split; [exact Hacc|]. split.
        - intros x Hx Hx'. apply list_elem_of_In in Hx.
          apply list_elem_of_In in Hx'. destruct Hx' as [<-|[]]. auto.
        - apply NoDup_singleton. }
      exists l. split; [exact Hl|]. split; [exact Hnd|].
      intros x. rewrite Hin, in_app_iff. simpl. tauto.
Qed.

Lemma text_le_total : Total text_le.
Proof.
  intros [] []; simpl; auto. apply String.le_total.
Qed.

Lemma Sorted_texts (l : list string) :
  Sorted text_le (map PStr l) -> StronglySorted String.le l.
Proof.
  intros Hs. apply Sorted_StronglySorted; [apply _|].
  induction l as [|x l IH]; [constructor|].
  inversion Hs as [|? ? Hs' Hhd]; subst. constructor; [auto|].
  destruct l; [constructor|]. inversion Hhd; subst. constructor. assumption.
Qed.

Lemma texts_named (l : list pyval) :
  Forall (fun v => is_text v = true) l -> exists names, l = map PStr names.
Proof.
  induction 1 as [|v l Hv _ [names ->]]; [now exists []|].
  destruct v; try discriminate Hv. now exists (s :: names).
Qed.

Lemma sorted_set_texts (l : list pyval) :
  Forall (fun v => is_text v = true) l ->
  exists names,
    sorted_set l = Ok (map PStr names) /\
    map PStr names ≡ₚ l /\
    StronglySorted String.le names.
Proof.
  intros Hl.
  assert (Hsorted : exists r, sorted_set l = Ok r /\ r ≡ₚ l /\ Sorted text_le r).
  { unfold sorted_set. destruct l as [|x [|y l']].
    - exists []. repeat split; constructor.
    - exists [x]. repeat split; repeat constructor.
    - rewrite (proj2 (forallb_forall _ _)).
      + eexists. split; [reflexivity|]. split.
        * apply merge_sort_Permutation.
        * apply (@Sorted_merge_sort _ _ _ text_le_total).
      + intros v Hv. rewrite Forall_forall in Hl. apply Hl.
        now apply list_elem_of_In. }
  destruct Hsorted as (r & Hr & Hperm & Hs).
  destruct (texts_named r) as [names ->].
  { apply Forall_forall. intros v Hv. rewrite Forall_forall in Hl.
    apply Hl. now rewrite <- Hperm. }
  exists names. split; [exact Hr|]. split; [exact Hperm|].
  now apply Sorted_texts.
Qed.

End SetsOfTexts.

Section DomainRoleNames.
Implicit Types (self : MultihostDomain.Domain).

Lemma hosts_by_role_in self r h :
  In h (MultihostDomain.hosts_by_role self r) <->
  In h (MultihostDomain.hosts self) /\ MultihostHost.role h = PStr r.
Proof.
  unfold MultihostDomain.hosts_by_role. rewrite List.filter_In.
  unfold str_eq. destruct (MultihostHost.role h) as [| | |s| |];
    try (split; intros [? ?]; discriminate).
  destruct (String.eqb_spec r s) as [->|Hne]; [tauto|].
  split; intros [? H]; [discriminate|inversion H; congruence].
Qed.

(** X23.  When the roles of the hosts are texts, [roles] returns the role names
    in ascending order, each once, and a name is returned exactly when some
    host of the domain has it as its role, which is when [hosts_by_role]
    returns a host for it. *)
Theorem roles_sorted_and_distinct self :
  Forall (fun h => is_text (MultihostHost.role h) = true)
         (MultihostDomain.hosts self) ->
  exists names,
    MultihostDomain.roles self = Ok (map PStr names) /\
    StronglySorted String.le names /\
    NoDup names /\
    forall r,
      (In r names <->
       exists h, In h (MultihostDomain.hosts self) /\
                 MultihostHost.role h = PStr r) /\
      (In r names <-> MultihostDomain.hosts_by_role self r <> []).
Proof.
  intros Htext. unfold MultihostDomain.roles.
  destruct (set_of_texts (map MultihostHost.role (MultihostDomain.hosts self)) [])
    as (l & Hl & Hnd & Hin).
  { apply Forall_forall. intros v Hv.
    apply list_elem_of_In, in_map_iff in Hv as (h & <- & Hh).
    rewrite Forall_forall in Htext. apply Htext. now apply list_elem_of_In. }
  { constructor. }
  rewrite Hl.
  destruct (sorted_set_texts l) as (names & Hs & Hperm & Hsorted).
  { apply Forall_forall. intros v Hv.
    apply list_elem_of_In, Hin in Hv as [[]|Hv].
    apply in_map_iff in Hv as (h & <- & Hh).
    rewrite Forall_forall in Htext. apply Htext. now apply list_elem_of_In. }
  exists names. split; [exact Hs|]. split; [exact Hsorted|].
  assert (Hnames : forall r, In r names <->
            exists h, In h (MultihostDomain.hosts self) /\
                      MultihostHost.role h = PStr r).
  { intros r. transitivity (In (PStr r) l).
    - rewrite <- !list_elem_of_In, <- Hperm, !list_elem_of_In, in_map_iff.
      split; [intros Hr; eauto|].
      intros (x & Hx & Hr). now inversion Hx; subst.
    - rewrite Hin, in_map_iff. split.
      + intros [[]|(h & Hh & Hhin)]; eauto.
      + intros (h & Hhin & Hh). right. eauto. }
  split.
  - rewrite <- Hperm in Hnd. apply NoDup_fmap in Hnd; [exact Hnd|].
    intros x y Hxy. now inversion Hxy.
  - intros r. split; [apply Hnames|].
    rewrite Hnames. split.
    + intros (h & Hhin & Hh) Hempty.
      assert (Hin' : In h (MultihostDomain.hosts_by_role self r))
        by (apply hosts_by_role_in; auto).
      rewrite Hempty in Hin'. destruct Hin'.
    + intros Hne. destruct (MultihostDomain.hosts_by_role self r) as [|h l'] eqn:E;
        [congruence|].
      exists h. apply hosts_by_role_in. rewrite E. now left.
Qed.

(** X24.  [hosts_by_role] returns the hosts whose role is the given name, in the
    order they have in the domain; a host whose role is not a text is
    returned for no name. *)
Theorem hosts_by_role_keeps_order self r :
  MultihostDomain.hosts_by_role self r `sublist_of` MultihostDomain.hosts self /\
  (forall h, In h (MultihostDomain.hosts_by_role self r) <->
             In h (MultihostDomain.hosts self) /\ MultihostHost.role h = PStr r) /\
  (forall h, is_text (MultihostHost.role h) = false ->
             ~ In h (MultihostDomain.hosts_by_role self r)).
Proof.
  split; [|split].
  - unfold MultihostDomain.hosts_by_role.
    induction (MultihostDomain.hosts self) as [|h l IH]; simpl; [constructor|].
    destruct (str_eq r (MultihostHost.role h)); now constructor.
  - intros h. apply hosts_by_role_in.
  - intros h Hno Hin. apply hosts_by_role_in in Hin as [_ Hr].
    rewrite Hr in Hno. discriminate.
Qed.

End DomainRoleNames.

(** ** MultihostConfig: the domains *)

Section ConfigDomains.
Context {Env : Type}.
Implicit Types (w : World Env) (self : MultihostConfig.Config).

Lemma config_loop
    (create_domain : MultihostDomain.ConfigRef -> pyval ->
                     M (World Env) MultihostDomain.Domain)
    (ref : MultihostDomain.ConfigRef) (entries : list pyval) :
  forall self w self' w' acc,
    MultihostConfig.domains self = Some acc ->
    for_each
      (fun domain =>
         (d <- with_self (emit (EvCreateDomain domain) ;;
                          create_domain ref domain) ;;
          MultihostConfig.append_domain d)%py)
      entries (self, w) = (Ok tt, (self', w')) ->
    MultihostConfig.logger self' = MultihostConfig.logger self /\
    MultihostConfig.lazy_ssh self' = MultihostConfig.lazy_ssh self /\
    exists new,
      MultihostConfig.domains self' = Some (acc ++ new) /\
      Forall2 (fun entry domain =>
                 exists w1 w2, create_domain ref entry w1 = (Ok domain, w2))
              entries new.
Proof.
  induction entries as [|entry entries IH]; intros self w self' w' acc Hacc Hrun.
  - inversion Hrun; subst. do 2 (split; [reflexivity|]).
    exists []. rewrite app_nil_r. split; [exact Hacc|constructor].
  - cbn [for_each] in Hrun.
    assert (Hstep :
      (d <- with_self (emit (EvCreateDomain entry) ;;
                       create_domain ref entry) ;;
       MultihostConfig.append_domain d)%py (self, w) =
      match create_domain ref entry
              (mkWorld (env w) (fs w) (trace w ++ [EvCreateDomain entry])) with
      | (Ok d, w1) =>
          (Ok tt, (MultihostConfig.set_domains (acc ++ [d]) self, w1))
      | (Err e, w1) => (Err e, (self, w1))
      end).
    { unfold bind at 1, with_self at 1. cbn [fst snd].
      unfold bind at 1, emit at 1.
      destruct (create_domain ref entry _) as [[d|e] w1]; [|reflexivity].
      unfold MultihostConfig.append_domain, bind, get_self. cbn [fst snd].
      rewrite Hacc. reflexivity. }
    unfold bind at 1 in Hrun. rewrite Hstep in Hrun. clear Hstep.
    destruct (create_domain ref entry _) as [[d|e] w1] eqn:Hd;
      [|discriminate].
    destruct (IH (MultihostConfig.set_domains (acc ++ [d]) self) _ _ _
                (acc ++ [d]) eq_refl Hrun)
      as (Hlog & Hlazy & new & Hnew & Hall).
    split; [exact Hlog|]. split; [exact Hlazy|].
    exists (d :: new). rewrite <- app_assoc in Hnew. split; [exact Hnew|].
    constructor; eauto.
Qed.

(** X25.  A configuration that is constructed has one domain for every entry
    under "domains", in the order of the entries, each the domain
    [create_domain] made of its entry, and carries the logger and the
    [lazy_ssh] flag it was given, which [create_domain] sees. *)
Theorem config_domains_follow_entries
    (create_domain : MultihostDomain.ConfigRef -> pyval ->
                     M (World Env) MultihostDomain.Domain)
    (confdict : pydict) (logger : MultihostLogger) (lazy_ssh : bool)
    self w self' w' :
  MultihostConfig.__init__ create_domain confdict logger lazy_ssh (self, w) =
    (Ok tt, (self', w')) ->
  MultihostConfig.logger self' = Some logger /\
  MultihostConfig.lazy_ssh self' = Some lazy_ssh /\
  exists v entries domains,
    dict_lookup "domains" confdict = Some v /\
    py_iter v = Ok entries /\
    MultihostConfig.domains self' = Some domains /\
    length domains = length entries /\
    Forall2 (fun entry domain =>
               exists w1 w2,
                 create_domain
                   {| MultihostDomain.cfg_logger := logger;
                      MultihostDomain.cfg_lazy_ssh := lazy_ssh |}
                   entry w1 = (Ok domain, w2))
            entries domains.
Proof.
  intros Hinit. unfold MultihostConfig.__init__ in Hinit.
  unfold bind at 1, update_self at 1 in Hinit. cbn [fst snd] in Hinit.
  unfold bind at 1, update_self at 1 in Hinit. cbn [fst snd] in Hinit.
  unfold bind at 1, update_self at 1 in Hinit. cbn [fst snd] in Hinit.
  unfold dict_has, dict_getitem in Hinit.
  destruct (dict_lookup "domains" confdict) as [v|] eqn:Hv; [|discriminate].
  cbn [negb] in Hinit. unfold bind at 1, lift at 1 in Hinit.
  unfold bind at 1, lift at 1 in Hinit.
  destruct (py_iter v) as [entries|e] eqn:Hit; [|discriminate].
  match type of Hinit with
  | for_each _ _ (?cfg, _) = _ =>
      destruct (config_loop _ _ _ cfg _ _ _ [] eq_refl Hinit)
        as (Hlog & Hlazy & new & Hnew & Hall)
  end.
  split; [exact Hlog|]. split; [exact Hlazy|].
  exists v, entries, new.
  split; [reflexivity|]. split; [first [reflexivity|exact Hit]|].
  split; [exact Hnew|]. split; [|exact Hall].
  symmetry. eapply Forall2_length; eauto.
Qed.

End ConfigDomains.

(** ** Runs on the sample objects *)

(** A run: a role whose attributes are a text and a number. *)
Lemma role_without_utilities_is_idle_witness :
  MultihostRole.setup Sample.role_plain Sample.world0 = (Ok tt, Sample.world0) /\
  MultihostRole.teardown Sample.role_plain Sample.world0 =
    (Ok tt, Sample.world0).
Proof.
  exact (proj2 (role_without_utilities_is_idle (Env := Sample.Env)
                  Sample.role_plain
                  ltac:(repeat (constructor; [eexists; reflexivity|]);
                        constructor)
                  Sample.world0)).
Defined.

(** A run: the utilities [a] and [b] are set up in that order and torn down
    in that order, [b] failing.  And a run on a role whose utility [a] is
    made by a property: the property is read at each discovery, and the
    property [opt], which raises [AttributeError], is passed over. *)
Lemma teardown_follows_setup_order_witness :
  (MultihostRole.setup Sample.role_ab ;;
   MultihostRole.teardown Sample.role_ab)%py Sample.world0 =
  (Err (ExcOfList Exception [Exc OSError "busy"]),
   mkWorld ["a.setup"; "b.setup"; "a.teardown"; "b.teardown"] ∅
           [EvSetup 2; EvSetup 1; EvTeardown 2; EvTeardown 1])
  /\
  (MultihostRole.setup Sample.role_lazy ;;
   MultihostRole.teardown Sample.role_lazy)%py Sample.world0 =
  (Ok tt,
   mkWorld ["a.get"; "opt.get"; "a.setup"; "b.setup";
            "a.get"; "opt.get"; "a.teardown"; "b.teardown"] ∅
           [EvGetattr "a"; EvGetattr "opt"; EvSetup 2; EvSetup 1;
            EvGetattr "a"; EvGetattr "opt"; EvTeardown 2; EvTeardown 1]).
Proof.
  split.
  - pose proof (proj1 (proj2 (teardown_follows_setup_order (Env := Sample.Env)
                                Sample.role_ab Sample.world0)
                         eq_refl ["a.setup"; "b.setup"]
                         [Exc OSError "busy"]
                         ["a.setup"; "b.setup"; "a.teardown"; "b.teardown"]
                         ltac:(vm_compute; reflexivity)
                         ltac:(vm_compute; reflexivity)
                         ltac:(repeat constructor))) as H.
    rewrite H. vm_compute. reflexivity.
  - eassert (Hd1 : MultihostUtility.GetUtilityAttributes
                     (MultihostRole.as_object Sample.role_lazy) Sample.world0 =
                   (Ok _, _)) by (vm_compute; reflexivity).
    eassert (Hd2 : MultihostUtility.GetUtilityAttributes
                     (MultihostRole.as_object Sample.role_lazy)
                     (mkWorld ["a.get"; "opt.get"; "a.setup"; "b.setup"] _ _) =
                   (Ok _, _)) by (vm_compute; reflexivity).
    pose proof (proj1 (proj1 (teardown_follows_setup_order (Env := Sample.Env)
                                Sample.role_lazy Sample.world0)
                         _ _ ["a.get"; "opt.get"; "a.setup"; "b.setup"]
                         _ _ []
                         ["a.get"; "opt.get"; "a.setup"; "b.setup";
                          "a.get"; "opt.get"; "a.teardown"; "b.teardown"]
                         Hd1 ltac:(vm_compute; reflexivity) Hd2
                         ltac:(vm_compute; reflexivity)
                         ltac:(constructor))) as H.
    rewrite H. vm_compute. reflexivity.
Defined.

(** A run: the entry of the host gives the ip 10.0.0.5; the client of the
    role is addressed by [h1], that of the host by the ip. *)
Lemma role_client_addresses_hostname_witness :
  exists client,
    MultihostRole.ssh
      (MultihostRole.__init__ Sample.fixture (PStr "r1")
         (Sample.built Sample.lazy_domain
            (Sample.entry [("ip", PStr "10.0.0.5")]) MultihostHost.Linux))
      (PStr "admin") (PStr "secret") SSHBashProcess Sample.world0 =
    (Ok client, mkWorld [] ∅ [EvSSHClient client]) /\
    ssh_host client = PStr "h1" /\
    ssh_host (MultihostHost.ssh
                (Sample.built Sample.lazy_domain
                   (Sample.entry [("ip", PStr "10.0.0.5")])
                   MultihostHost.Linux)) = PStr "10.0.0.5".
Proof.
  eassert (Hrun :
    MultihostHost.__init__ "MultihostHost" MultihostHost.required_fields
      Sample.lazy_domain (Sample.entry [("ip", PStr "10.0.0.5")]) Sample.world0 =
    (Ok (Sample.built Sample.lazy_domain
           (Sample.entry [("ip", PStr "10.0.0.5")]) MultihostHost.Linux), _))
    by (vm_compute; reflexivity).
  destruct (role_client_addresses_hostname (Env := Sample.Env) _ _ _ _ _ _ _
              (MultihostRole.__init__ Sample.fixture (PStr "r1")
                 (Sample.built Sample.lazy_domain
                    (Sample.entry [("ip", PStr "10.0.0.5")])
                    MultihostHost.Linux))
              (PStr "admin") (PStr "secret") SSHBashProcess Sample.world0
              Hrun eq_refl)
    as (client & Hssh & Hhost & _ & _ & _ & _ & Hip).
  exists client. split; [exact Hssh|]. split; [exact Hhost|].
  exact (proj1 (Hip (PStr "10.0.0.5") eq_refl eq_refl)).
Defined.

(** A run: the role "r1" is mapped to the base class. *)
Lemma base_role_is_bound_to_its_host_witness :
  exists obj,
    MultihostDomain.create_role Sample.r1_mapped Sample.fixture
      (Sample.host MultihostHost.Linux (PList [])) Sample.world0 =
    (Ok obj,
     mkWorld [] ∅ [EvNewRole "MultihostRole" (PStr "r1") (PStr "h1")]) /\
    MultihostRole.host obj = Sample.host MultihostHost.Linux (PList []) /\
    MultihostRole.setup obj Sample.world0 = (Ok tt, Sample.world0).
Proof.
  destruct (base_role_is_bound_to_its_host (Env := Sample.Env)
              Sample.r1_mapped Sample.fixture
              (Sample.host MultihostHost.Linux (PList [])) "r1" Sample.world0
              eq_refl ltac:(vm_compute; reflexivity))
    as (obj & Hrun & Hhost & _ & _ & Hidle).
  exists obj. split; [exact Hrun|]. split; [exact Hhost|].
  exact (proj1 (Hidle Sample.world0)).
Defined.

(** A run: no mapping has the role "r1"; the host is created and gets no
    role. *)
Lemma fallback_host_gets_no_role_witness :
  MultihostDomain.create_role Sample.no_mappings Sample.fixture
    (Sample.built Sample.lazy_domain (Sample.entry []) MultihostHost.Linux)
    Sample.world0 =
  (Err (Exc ValueError "Unexpected role: r1"), Sample.world0).
Proof.
  eassert (Hrun :
    MultihostDomain.create_host Sample.no_mappings Sample.lazy_domain
      (Sample.entry []) Sample.world0 =
    (Ok (Sample.built Sample.lazy_domain (Sample.entry []) MultihostHost.Linux),
     _)) by (vm_compute; reflexivity).
  exact (proj2 (proj2 (fallback_host_gets_no_role (Env := Sample.Env)
                         Sample.no_mappings Sample.lazy_domain (Sample.entry [])
                         Sample.world0 "r1" _ _ eq_refl eq_refl eq_refl Hrun))
           Sample.fixture Sample.world0).
Defined.


(** A run: a domain of two hosts. *)
Lemma domain_hosts_follow_entries_witness :
  exists domain w',
    MultihostDomain.__init__ Sample.no_mappings Sample.lazy_config_ref
      (Sample.domain_conf [PDict (Sample.entry_of "h1" "b");
                           PDict (Sample.entry_of "h2" "a")])
      Sample.world0 = (Ok domain, w') /\
    map MultihostHost.hostname (MultihostDomain.hosts domain) =
      [PStr "h1"; PStr "h2"] /\
    length (MultihostDomain.hosts domain) = 2.
Proof.
  eassert (Hrun :
    MultihostDomain.__init__ Sample.no_mappings Sample.lazy_config_ref
      (Sample.domain_conf [PDict (Sample.entry_of "h1" "b");
                           PDict (Sample.entry_of "h2" "a")])
      Sample.world0 = (Ok _, _)) by (vm_compute; reflexivity).
  eexists _, _. split; [exact Hrun|]. split; [reflexivity|].
  destruct (domain_hosts_follow_entries (Env := Sample.Env) _ _ _ _ _ _ Hrun)
    as (t & v & entries & _ & Hv & Hit & _ & _ & _ & Hlen & _).
  vm_compute in Hv. injection Hv as <-.
  vm_compute in Hit. injection Hit as <-.
  exact Hlen.
Defined.

(** A run: the second of three entries has no hostname; the first host has
    been created and connected, the third entry is never looked at. *)
Lemma domain_hosts_created_in_turn_witness :
  MultihostDomain.__init__ Sample.no_mappings Sample.config_ref
    (Sample.domain_conf [PDict (Sample.entry_of "h1" "a");
                         PDict [("role", PStr "b")];
                         PDict (Sample.entry_of "h3" "c")])
    Sample.world0 =
  (Err (Entry.missing "hostname"),
   mkWorld ["connect"] ∅
     [EvNewHost "MultihostHost" (Sample.entry_of "h1" "a");
      EvSSHClient (Entry.client Sample.domain (Sample.entry_of "h1" "a")
                     MultihostHost.Linux);
      EvCLIBuilder (Entry.client Sample.domain (Sample.entry_of "h1" "a")
                      MultihostHost.Linux);
      EvSSHConnect (Entry.client Sample.domain (Sample.entry_of "h1" "a")
                      MultihostHost.Linux);
      EvNewHost "MultihostHost" [("role", PStr "b")]]).
Proof.
  eassert (Hpre :
    MultihostDomain.__init__ Sample.no_mappings Sample.config_ref
      (dict_set "hosts" (PList [PDict (Sample.entry_of "h1" "a")])
         (Sample.domain_conf [PDict (Sample.entry_of "h1" "a");
                              PDict [("role", PStr "b")];
                              PDict (Sample.entry_of "h3" "c")]))
      Sample.world0 = (Ok _, _)) by (vm_compute; reflexivity).
  refine (proj1 (domain_hosts_created_in_turn (Env := Sample.Env)
                   Sample.no_mappings Sample.config_ref
                   (Sample.domain_conf [PDict (Sample.entry_of "h1" "a");
                                        PDict [("role", PStr "b")];
                                        PDict (Sample.entry_of "h3" "c")])
                   Sample.world0
                   [PDict (Sample.entry_of "h1" "a")] [("role", PStr "b")]
                   [PDict (Sample.entry_of "h3" "c")] _ _ eq_refl Hpre)
            _ _ _).
  vm_compute. reflexivity.
Defined.

(** A run: a lazy domain of two hosts. *)
Lemma lazy_domain_connects_no_host_witness :
  env (snd (MultihostDomain.__init__ Sample.no_mappings Sample.lazy_config_ref
              (Sample.domain_conf [PDict (Sample.entry_of "h1" "b");
                                   PDict (Sample.entry_of "h2" "a")])
              Sample.world0)) = [] /\
  fs (snd (MultihostDomain.__init__ Sample.no_mappings Sample.lazy_config_ref
             (Sample.domain_conf [PDict (Sample.entry_of "h1" "b");
                                  PDict (Sample.entry_of "h2" "a")])
             Sample.world0)) = ∅.
Proof.
  destruct (lazy_domain_connects_no_host (Env := Sample.Env)
              Sample.no_mappings Sample.lazy_config_ref
              (Sample.domain_conf [PDict (Sample.entry_of "h1" "b");
                                   PDict (Sample.entry_of "h2" "a")])
              Sample.world0 _ _ eq_refl eq_refl (surjective_pairing _))
    as (Henv & Hfs & _).
  split; [exact Henv|exact Hfs].
Defined.

(** A run: three hosts of the roles b, a and b. *)
Lemma roles_sorted_and_distinct_witness :
  MultihostDomain.roles
    {| MultihostDomain.config := Sample.config_ref;
       MultihostDomain.logger := 7;
       MultihostDomain.type := PStr "ldap";
       MultihostDomain.hosts :=
         [Sample.built Sample.domain (Sample.entry_of "h1" "b") MultihostHost.Linux;
          Sample.built Sample.domain (Sample.entry_of "h2" "a") MultihostHost.Linux;
          Sample.built Sample.domain (Sample.entry_of "h3" "b") MultihostHost.Linux]
    |} = Ok [PStr "a"; PStr "b"]
  /\
  exists names,
    MultihostDomain.roles
      {| MultihostDomain.config := Sample.config_ref;
         MultihostDomain.logger := 7;
         MultihostDomain.type := PStr "ldap";
         MultihostDomain.hosts :=
           [Sample.built Sample.domain (Sample.entry_of "h1" "b") MultihostHost.Linux;
            Sample.built Sample.domain (Sample.entry_of "h2" "a") MultihostHost.Linux;
            Sample.built Sample.domain (Sample.entry_of "h3" "b") MultihostHost.Linux]
      |} = Ok (map PStr names) /\
    StronglySorted String.le names /\ NoDup names.
Proof.
  split; [vm_compute; reflexivity|].
  destruct (roles_sorted_and_distinct
              {| MultihostDomain.config := Sample.config_ref;
                 MultihostDomain.logger := 7;
                 MultihostDomain.type := PStr "ldap";
                 MultihostDomain.hosts :=
                   [Sample.built Sample.domain (Sample.entry_of "h1" "b")
                      MultihostHost.Linux;
                    Sample.built Sample.domain (Sample.entry_of "h2" "a")
                      MultihostHost.Linux;
                    Sample.built Sample.domain (Sample.entry_of "h3" "b")
                      MultihostHost.Linux] |}
              ltac:(repeat constructor))
    as (names & Hroles & Hsorted & Hnodup & _).
  exists names. auto.
Defined.

(** A run: a configuration of two domains, the second without hosts. *)
Lemma config_domains_follow_entries_witness :
  exists self' w',
    MultihostConfig.__init__ Sample.create_domain
      [("domains",
        PList [PDict (Sample.domain_conf [PDict (Sample.entry_of "h1" "a")]);
               PDict (Sample.domain_conf [])])]
      7 true (MultihostConfig.blank, Sample.world0) = (Ok tt, (self', w')) /\
    MultihostConfig.logger self' = Some 7 /\
    MultihostConfig.lazy_ssh self' = Some true /\
    exists domains,
      MultihostConfig.domains self' = Some domains /\ length domains = 2.
Proof.
  eassert (Hrun :
    MultihostConfig.__init__ Sample.create_domain
      [("domains",
        PList [PDict (Sample.domain_conf [PDict (Sample.entry_of "h1" "a")]);
               PDict (Sample.domain_conf [])])]
      7 true (MultihostConfig.blank, Sample.world0) = (Ok tt, (_, _)))
    by (vm_compute; reflexivity).
  eexists _, _. split; [exact Hrun|].
  destruct (config_domains_follow_entries (Env := Sample.Env) _ _ _ _ _ _ _ _ Hrun)
    as (Hlog & Hlazy & v & entries & domains & Hv & Hit & Hdom & Hlen & _).
  split; [exact Hlog|]. split; [exact Hlazy|].
  exists domains. split; [exact Hdom|].
  vm_compute in Hv. injection Hv as <-.
  vm_compute in Hit. injection Hit as <-.
  exact Hlen.
Defined.

(** ** MultihostHost: what a constructed host says of its entry *)

Section CompleteEntries.
Context {Env : Type} {builtins : Builtins}
        {transport : MultihostHost.Transport Env}.
Implicit Types (w : World Env) (d : pydict).

(** A field that [is_present] finds with a non-blank value is there, at its
    depth, with that value. *)
Lemma is_present_found n : forall field v r,
  String.length field < n ->
  MultihostHost.is_present field v = Ok r -> truthy r = true ->
  Entry.lookup_path (Entry.field_path field) v = Some r.
Proof.
  induction n as [|n IH]; intros field v r Hlen Hp Hr; [lia|].
  destruct (split_once field) as [[key subpath]|] eqn:Hs.
  - rewrite (is_present_nested _ _ _ _ Hs) in Hp.
    rewrite (split_once_path _ _ _ Hs).
    destruct v as [| | | | |m]; try discriminate Hp.
    cbn [py_get py_getitem] in Hp. unfold dict_get, dict_getitem in Hp.
    cbn [Entry.lookup_path].
    destruct (dict_lookup key m) as [x|].
    + destruct (truthy x); cbn [negb] in Hp.
      * apply IH; [|exact Hp|exact Hr].
        pose proof (split_once_shorter _ _ _ Hs). lia.
      * inversion Hp; subst. discriminate Hr.
    + cbn [truthy negb] in Hp. inversion Hp; subst. discriminate Hr.
  - rewrite (is_present_flat _ _ Hs) in Hp.
    rewrite (flat_path _ Hs).
    destruct v as [| | |s|l|m]; try discriminate Hp.
    + cbn [py_contains py_getitem] in Hp.
      destruct (is_substring field s); [discriminate Hp|].
      inversion Hp; subst. discriminate Hr.
    + cbn [py_contains py_getitem] in Hp.
      destruct (existsb (str_eq field) l); [discriminate Hp|].
      inversion Hp; subst. discriminate Hr.
    + cbn [py_contains py_getitem] in Hp. unfold dict_has, dict_getitem in Hp.
      cbn [Entry.lookup_path].
      destruct (dict_lookup field m) as [x|].
      * inversion Hp; subst. reflexivity.
      * inversion Hp; subst. discriminate Hr.
Qed.

(** X2.  The entry of every host the constructor returns is complete: each
    required field of the class, nested ones too, is in the entry at its
    depth with a non-blank value, whatever else the entry holds. *)
Theorem constructed_host_entry_is_complete
    (name : string) (required : list string)
    (domain : MultihostHost.DomainRef) d w h w' :
  MultihostHost.__init__ name required domain d w = (Ok h, w') ->
  forall field, In field required ->
    Entry.field_present field d = true /\
    exists v,
      Entry.lookup_path (Entry.field_path field) (PDict d) = Some v /\
      truthy v = true.
Proof.
  intros Hinit field Hin.
  destruct (init_cases _ _ _ _ _ _ _ Hinit)
    as [(_ & e & He)|(os & Hc & _)]; [discriminate|].
  destruct (check_required_passed _ _ _ _ Hc field Hin) as (v & Hv & Ht).
  pose proof (is_present_found _ _ _ _ (Nat.lt_succ_diag_r _) Hv Ht) as Hl.
  unfold Entry.field_present. rewrite Hl. split; [exact Ht|]. eauto.
Qed.

End CompleteEntries.

(** A run: an [LDAPHost] is built from an entry with its bind DN. *)
Lemma constructed_host_entry_is_complete_witness :
  Entry.field_present "config/binddn"
    (Sample.entry [("config", PDict [("binddn", PStr "cn=admin")])]) = true.
Proof.
  eassert (Hrun :
    MultihostHost.__init__ "LDAPHost"
      (MultihostHost.required_fields ++ ["config/binddn"]) Sample.lazy_domain
      (Sample.entry [("config", PDict [("binddn", PStr "cn=admin")])])
      Sample.world0 = (Ok _, _)) by (vm_compute; reflexivity).
  exact (proj1 (constructed_host_entry_is_complete (Env := Sample.Env)
                  _ _ _ _ _ _ _ Hrun "config/binddn"
                  ltac:(vm_compute; tauto))).
Defined.
